(** * gslcdfb: the Gameslab LCD frame buffer driver

    A shallow embedding of [drivers/video/fbdev/gslcdfb.c] and the
    properties of its palette conversion, blanking, bring-up and tear-down
    paths.

    C integers are values of [Z] with the wrap-around of their type written
    out.  The kernel services the driver calls are modelled by a [kernel]
    state (device registers, memory behind the frame buffer mapping, and a
    chronological log of the calls made) together with an [oracle] that
    supplies what each fallible service returns. *)

From Stdlib Require Import ZArith Lia String.
From stdpp Require Import base list gmap.

Local Open Scope Z_scope.

(** ** Machine arithmetic *)

(** [unsigned], [u32]: reduction modulo 2^32. *)
Definition u32 (x : Z) : Z := x mod 2 ^ 32.

(** [int]: the two's complement reading of the low 32 bits. *)
Definition s32 (x : Z) : Z := (x + 2 ^ 31) mod 2 ^ 32 - 2 ^ 31.

(** Membership in the value range of [unsigned]. *)
Definition is_u32 (x : Z) : Prop := 0 <= x < 2 ^ 32.

Definition add32 (a b : Z) : Z := u32 (a + b).
Definition mul32 (a b : Z) : Z := u32 (a * b).
Definition shl32 (a n : Z) : Z := u32 (Z.shiftl a n).
Definition shr32 (a n : Z) : Z := Z.shiftr a n.
Definition or32 (a b : Z) : Z := Z.lor a b.

(** The driver is written for a 32-bit system-on-chip: the controller takes
    the buffer's bus address in a 32-bit register and the platform data
    carries [fb_phys] as a [u32].  Pointers, [size_t], [unsigned long] and
    [dma_addr_t] are 32-bit words accordingly. *)
Definition size_t (x : Z) : Z := u32 x.
Definition ptr_add (p n : Z) : Z := u32 (p + n).

(** [PAGE_SIZE] and [PAGE_ALIGN] come from the architecture headers, which
    are not part of this file's sources; 4 KiB pages.  [PAGE_ALIGN(x)] is
    [(x + mask) & ~mask] with [mask = (typeof(x))PAGE_SIZE - 1], so the
    arithmetic is done in the type of its argument. *)
Definition PAGE_SIZE : Z := 4096.

Definition PAGE_ALIGN_int (x : Z) : Z :=
  s32 (Z.land (s32 (x + (PAGE_SIZE - 1))) (Z.lnot (PAGE_SIZE - 1))).

Definition PAGE_ALIGN_u32 (x : Z) : Z :=
  u32 (Z.land (u32 (x + (PAGE_SIZE - 1))) (u32 (Z.lnot (PAGE_SIZE - 1)))).

(** [errno] values and the [ERR_PTR] encoding of [linux/err.h]. *)
Definition ENOMEM : Z := 12.
Definition EINVAL : Z := 22.
Definition MAX_ERRNO : Z := 4095.

Definition IS_ERR (p : Z) : bool := u32 (- MAX_ERRNO) <=? p.
Definition PTR_ERR (p : Z) : Z := s32 p.

(** ** Constants of the driver *)

Definition REG_OFF_EN : Z := 0.
Definition REG_OFF_FB_PTR : Z := 1.

Definition BYTES_PER_PIXEL : Z := 3.
Definition BITS_PER_PIXEL : Z := BYTES_PER_PIXEL * 8.

Definition RED_SHIFT : Z := 16.
Definition GREEN_SHIFT : Z := 8.
Definition BLUE_SHIFT : Z := 0.

Definition PALETTE_ENTRIES_NO : Z := 16.

(** Modelled from the spec: the five named blank modes of the display state
    machine.  The numeric values are those of [linux/fb.h], which is not
    among the sources here; the driver only relies on their being pairwise
    distinct. *)
Definition FB_BLANK_UNBLANK : Z := 0.
Definition FB_BLANK_NORMAL : Z := 1.
Definition FB_BLANK_VSYNC_SUSPEND : Z := 2.
Definition FB_BLANK_HSYNC_SUSPEND : Z := 3.
Definition FB_BLANK_POWERDOWN : Z := 4.
Definition VESA_POWERDOWN : Z := 3.

Definition FB_TYPE_PACKED_PIXELS : Z := 0.
Definition FB_VISUAL_TRUECOLOR : Z := 2.
Definition FB_ACCEL_NONE : Z := 0.
Definition FB_ACTIVATE_NOW : Z := 0.
Definition FBINFO_DEFAULT : Z := 0.

(** ** Data *)

Record gslcdfb_platform_data := {
  screen_height_mm : Z;
  screen_width_mm : Z;
  xres : Z;
  yres : Z;
  xvirt : Z;
  yvirt : Z;
  pd_fb_phys : Z
}.

Definition gslcd_fb_default_pdata : gslcdfb_platform_data := {|
  screen_height_mm := 65;
  screen_width_mm := 108;
  xres := 800;
  yres := 480;
  xvirt := 800;
  yvirt := 480;
  pd_fb_phys := 0
|}.

Record fb_bitfield := {
  bf_offset : Z;
  bf_length : Z;
  bf_msb_right : Z
}.

Record fb_fix_screeninfo := {
  fix_id : string;
  smem_start : Z;
  smem_len : Z;
  fix_type : Z;
  visual : Z;
  line_length : Z;
  accel : Z
}.

Record fb_var_screeninfo := {
  var_xres : Z;
  var_yres : Z;
  xres_virtual : Z;
  yres_virtual : Z;
  bits_per_pixel : Z;
  grayscale : Z;
  var_red : fb_bitfield;
  var_green : fb_bitfield;
  var_blue : fb_bitfield;
  var_transp : fb_bitfield;
  activate : Z;
  var_height : Z;
  var_width : Z
}.

Definition gslcd_fb_fix : fb_fix_screeninfo := {|
  fix_id := "gslcd";
  smem_start := 0;
  smem_len := 0;
  fix_type := FB_TYPE_PACKED_PIXELS;
  visual := FB_VISUAL_TRUECOLOR;
  line_length := 0;
  accel := FB_ACCEL_NONE
|}.

Definition gslcd_fb_var : fb_var_screeninfo := {|
  var_xres := 0;
  var_yres := 0;
  xres_virtual := 0;
  yres_virtual := 0;
  bits_per_pixel := BITS_PER_PIXEL;
  grayscale := 0;
  var_red := {| bf_offset := RED_SHIFT; bf_length := 8; bf_msb_right := 0 |};
  var_green := {| bf_offset := GREEN_SHIFT; bf_length := 8; bf_msb_right := 0 |};
  var_blue := {| bf_offset := BLUE_SHIFT; bf_length := 8; bf_msb_right := 0 |};
  var_transp := {| bf_offset := 0; bf_length := 0; bf_msb_right := 0 |};
  activate := FB_ACTIVATE_NOW;
  var_height := 0;
  var_width := 0
|}.

(** The operations table a surface is published with. *)
Inductive fb_ops := gslcdfb_ops.

(** [struct fb_info], restricted to the fields the driver touches
    ([info_fix] and [info_var] are its [fix] and [var] members).
    [pseudo_palette] is the array the C pointer of that name refers to; the
    driver only ever points it at the 16-entry array embedded in its own
    [gslcdfb_drvdata], so the array is kept here, inside the record that the
    palette callback receives. *)
Record fb_info := {
  device : Z;
  screen_base : Z;
  fbops : option fb_ops;
  info_fix : fb_fix_screeninfo;
  pseudo_palette : list Z;
  flags : Z;
  info_var : fb_var_screeninfo
}.

Record gslcdfb_drvdata := {
  info : fb_info;
  regs_phys : Z;
  regs : Z;
  fb_virt : Z;
  fb_phys : Z;
  fb_alloced : Z
}.

(** The zero-filled record [devm_kzalloc] hands to the probe routine. *)
Definition fb_info_zero : fb_info := {|
  device := 0;
  screen_base := 0;
  fbops := None;
  info_fix := {| fix_id := ""; smem_start := 0; smem_len := 0; fix_type := 0;
            visual := 0; line_length := 0; accel := 0 |};
  pseudo_palette := replicate 16 0;
  flags := 0;
  info_var := {| var_xres := 0; var_yres := 0; xres_virtual := 0; yres_virtual := 0;
            bits_per_pixel := 0; grayscale := 0;
            var_red := {| bf_offset := 0; bf_length := 0; bf_msb_right := 0 |};
            var_green := {| bf_offset := 0; bf_length := 0; bf_msb_right := 0 |};
            var_blue := {| bf_offset := 0; bf_length := 0; bf_msb_right := 0 |};
            var_transp := {| bf_offset := 0; bf_length := 0; bf_msb_right := 0 |};
            activate := 0; var_height := 0; var_width := 0 |}
|}.

Definition drvdata_zero : gslcdfb_drvdata := {|
  info := fb_info_zero;
  regs_phys := 0;
  regs := 0;
  fb_virt := 0;
  fb_phys := 0;
  fb_alloced := 0
|}.

(** Field updates. *)
Definition set_pseudo_palette (fbi : fb_info) (p : list Z) : fb_info :=
  {| device := device fbi; screen_base := screen_base fbi; fbops := fbops fbi;
     info_fix := info_fix fbi; pseudo_palette := p; flags := flags fbi;
     info_var := info_var fbi |}.

Definition set_regs (d : gslcdfb_drvdata) (p : Z) : gslcdfb_drvdata :=
  {| info := info d; regs_phys := regs_phys d; regs := p;
     fb_virt := fb_virt d; fb_phys := fb_phys d; fb_alloced := fb_alloced d |}.

Definition set_regs_phys (d : gslcdfb_drvdata) (p : Z) : gslcdfb_drvdata :=
  {| info := info d; regs_phys := p; regs := regs d;
     fb_virt := fb_virt d; fb_phys := fb_phys d; fb_alloced := fb_alloced d |}.

Definition set_fb_virt (d : gslcdfb_drvdata) (p : Z) : gslcdfb_drvdata :=
  {| info := info d; regs_phys := regs_phys d; regs := regs d;
     fb_virt := p; fb_phys := fb_phys d; fb_alloced := fb_alloced d |}.

Definition set_fb_phys (d : gslcdfb_drvdata) (p : Z) : gslcdfb_drvdata :=
  {| info := info d; regs_phys := regs_phys d; regs := regs d;
     fb_virt := fb_virt d; fb_phys := p; fb_alloced := fb_alloced d |}.

Definition set_fb_alloced (d : gslcdfb_drvdata) (v : Z) : gslcdfb_drvdata :=
  {| info := info d; regs_phys := regs_phys d; regs := regs d;
     fb_virt := fb_virt d; fb_phys := fb_phys d; fb_alloced := v |}.

Definition set_info (d : gslcdfb_drvdata) (i : fb_info) : gslcdfb_drvdata :=
  {| info := i; regs_phys := regs_phys d; regs := regs d;
     fb_virt := fb_virt d; fb_phys := fb_phys d; fb_alloced := fb_alloced d |}.

(** ** Palette conversion *)

(** [gslcd_fb_setcolreg]: the status and the surface after the call. *)
Definition gslcd_fb_setcolreg (regno red green blue transp : Z) (fbi : fb_info)
  : Z * fb_info :=
  let palette := pseudo_palette fbi in
  if PALETTE_ENTRIES_NO <=? regno then (- EINVAL, fbi)
  else
    let '(red, green, blue) :=
      if negb (grayscale (info_var fbi) =? 0) then
        let y :=
          shr32 (add32 (add32 (add32 (mul32 red 77) (mul32 green 151))
                              (mul32 blue 28)) 127) 8 in
        (y, y, y)
      else (red, green, blue) in
    let red := shr32 red 8 in
    let green := shr32 green 8 in
    let blue := shr32 blue 8 in
    let v := or32 (or32 (shl32 red RED_SHIFT) (shl32 green GREEN_SHIFT))
                  (shl32 blue BLUE_SHIFT) in
    (0, set_pseudo_palette fbi (<[Z.to_nat regno := v]> palette)).

(** ** The kernel side *)

(** One entry per call the driver makes into the kernel, with the arguments
    passed and, for the fallible services, the value handed back. *)
Inductive event :=
| EvDevmIoremapResource (ret : Z)
| EvIoremap (phys size ret : Z)
| EvDmaAllocCoherent (size ret handle : Z)
| EvDevErr (msg : string)
| EvMemsetIo (dst c n : Z)
| EvIowrite32 (val addr : Z)
| EvFbAllocCmap (len transp rc : Z)
| EvRegisterFramebuffer (rc : Z)
| EvUnregisterFramebuffer
| EvFbDeallocCmap
| EvDmaFreeCoherent (size virt handle : Z)
| EvIounmap (virt : Z).

(** [k_mmio]: the 32-bit device registers by address.  [k_mem]: the bytes
    behind I/O mappings by address.  [k_log]: the calls so far, oldest
    first. *)
Record kernel := {
  k_mmio : gmap Z Z;
  k_mem : Z -> Z;
  k_log : list event
}.

(** What the fallible kernel services answer during one bring-up. *)
Record oracle := {
  o_devm_kzalloc : bool;
  o_res_start : Z;
  o_devm_ioremap_resource : Z;
  o_ioremap : Z;
  o_dma_alloc_coherent : Z * Z;
  o_fb_alloc_cmap : Z;
  o_register_framebuffer : Z
}.

(** Pointers and bus addresses are 32-bit words, status codes are [int]s. *)
Definition is_int (x : Z) : Prop := - 2 ^ 31 <= x < 2 ^ 31.

Definition oracle_wf (o : oracle) : Prop :=
  is_u32 (o_devm_ioremap_resource o) /\
  is_u32 (o_ioremap o) /\
  is_u32 (fst (o_dma_alloc_coherent o)) /\
  is_u32 (snd (o_dma_alloc_coherent o)) /\
  is_int (o_fb_alloc_cmap o) /\
  is_int (o_register_framebuffer o).

Definition emit (e : event) (k : kernel) : kernel :=
  {| k_mmio := k_mmio k; k_mem := k_mem k; k_log := k_log k ++ [e] |}.

Definition devm_ioremap_resource (o : oracle) (k : kernel) : Z * kernel :=
  let p := o_devm_ioremap_resource o in
  (p, emit (EvDevmIoremapResource p) k).

Definition ioremap (o : oracle) (phys size : Z) (k : kernel) : Z * kernel :=
  let p := o_ioremap o in
  (p, emit (EvIoremap phys size p) k).

Definition dma_alloc_coherent (o : oracle) (size : Z) (k : kernel)
  : Z * Z * kernel :=
  let '(p, h) := o_dma_alloc_coherent o in
  (p, h, emit (EvDmaAllocCoherent size p h) k).

Definition dev_err (msg : string) (k : kernel) : kernel :=
  emit (EvDevErr msg) k.

Definition memset_io (dst c n : Z) (k : kernel) : kernel :=
  emit (EvMemsetIo dst c n)
    {| k_mmio := k_mmio k;
       k_mem := fun a =>
         if (dst <=? a) && (a <? dst + n) then c mod 256 else k_mem k a;
       k_log := k_log k |}.

Definition iowrite32 (val addr : Z) (k : kernel) : kernel :=
  emit (EvIowrite32 val addr)
    {| k_mmio := <[addr := val]> (k_mmio k);
       k_mem := k_mem k;
       k_log := k_log k |}.

Definition ioread32 (addr : Z) (k : kernel) : Z :=
  default 0 (k_mmio k !! addr).

Definition fb_alloc_cmap (o : oracle) (len transp : Z) (k : kernel)
  : Z * kernel :=
  let rc := o_fb_alloc_cmap o in
  (rc, emit (EvFbAllocCmap len transp rc) k).

Definition register_framebuffer (o : oracle) (k : kernel) : Z * kernel :=
  let rc := o_register_framebuffer o in
  (rc, emit (EvRegisterFramebuffer rc) k).

Definition unregister_framebuffer (k : kernel) : kernel :=
  emit EvUnregisterFramebuffer k.

Definition fb_dealloc_cmap (k : kernel) : kernel :=
  emit EvFbDeallocCmap k.

Definition dma_free_coherent (size virt handle : Z) (k : kernel) : kernel :=
  emit (EvDmaFreeCoherent size virt handle) k.

Definition iounmap (virt : Z) (k : kernel) : kernel :=
  emit (EvIounmap virt) k.

(** ** Register access *)

Definition gslcd_fb_out32 (drvdata : gslcdfb_drvdata) (offset val : Z)
  (k : kernel) : kernel :=
  iowrite32 (u32 val) (ptr_add (regs drvdata) (shl32 offset 2)) k.

Definition gslcd_fb_in32 (drvdata : gslcdfb_drvdata) (offset : Z)
  (k : kernel) : Z :=
  ioread32 (ptr_add (regs drvdata) (shl32 offset 2)) k.

(** ** Blanking *)

(** [gslcd_fb_blank]; the C function reaches the driver data from the
    surface with [container_of], here it is passed in directly. *)
Definition gslcd_fb_blank (blank_mode : Z) (drvdata : gslcdfb_drvdata)
  (k : kernel) : Z * kernel :=
  if blank_mode =? FB_BLANK_UNBLANK then
    (0, gslcd_fb_out32 drvdata REG_OFF_EN 1 k)
  else if (blank_mode =? FB_BLANK_NORMAL)
          || (blank_mode =? FB_BLANK_VSYNC_SUSPEND)
          || (blank_mode =? FB_BLANK_HSYNC_SUSPEND)
          || (blank_mode =? FB_BLANK_POWERDOWN) then
    (0, gslcd_fb_out32 drvdata REG_OFF_EN 0 k)
  else (0, k).

(** [DisplayState] of the specification: the two states of the display
    state machine, read off the controller's single enable register. *)
Inductive DisplayState := Enabled | Disabled.

Definition display_state (drvdata : gslcdfb_drvdata) (k : kernel)
  : DisplayState :=
  if gslcd_fb_in32 drvdata REG_OFF_EN k =? 0 then Disabled else Enabled.

(** ** Bring-up and tear-down *)

(** [fbsize] of [gslcdfb_assign]: an unsigned product stored in an [int]. *)
Definition fbsize_of (pdata : gslcdfb_platform_data) : Z :=
  s32 (mul32 (mul32 (xvirt pdata) (yvirt pdata)) BYTES_PER_PIXEL).

(** The part of [gslcdfb_assign] that fills [struct fb_info].  The colour
    map [info.cmap] is storage of the frame buffer core and is followed on
    the kernel side, through the calls that allocate and free it. *)
Definition fill_fb_info (dev fbsize : Z) (pdata : gslcdfb_platform_data)
  (drvdata : gslcdfb_drvdata) : gslcdfb_drvdata :=
  set_info drvdata
    {| device := dev;
       screen_base := fb_virt drvdata;
       fbops := Some gslcdfb_ops;
       info_fix :=
         {| fix_id := fix_id gslcd_fb_fix;
            smem_start := u32 (fb_phys drvdata);
            smem_len := u32 fbsize;
            fix_type := fix_type gslcd_fb_fix;
            visual := visual gslcd_fb_fix;
            line_length := mul32 (xvirt pdata) BYTES_PER_PIXEL;
            accel := accel gslcd_fb_fix |};
       pseudo_palette := pseudo_palette (info drvdata);
       flags := FBINFO_DEFAULT;
       info_var :=
         {| var_xres := xres pdata;
            var_yres := yres pdata;
            xres_virtual := xvirt pdata;
            yres_virtual := yvirt pdata;
            bits_per_pixel := bits_per_pixel gslcd_fb_var;
            grayscale := grayscale gslcd_fb_var;
            var_red := var_red gslcd_fb_var;
            var_green := var_green gslcd_fb_var;
            var_blue := var_blue gslcd_fb_var;
            var_transp := var_transp gslcd_fb_var;
            activate := activate gslcd_fb_var;
            var_height := screen_height_mm pdata;
            var_width := screen_width_mm pdata |} |}.

(** Label [err_cmap] of [gslcdfb_assign]. *)
Definition err_cmap (fbsize rc : Z) (drvdata : gslcdfb_drvdata) (k : kernel)
  : Z * gslcdfb_drvdata * kernel :=
  let k :=
    if negb (fb_alloced drvdata =? 0) then
      dma_free_coherent (size_t (PAGE_ALIGN_int fbsize)) (fb_virt drvdata)
        (fb_phys drvdata) k
    else iounmap (fb_virt drvdata) k in
  let k := gslcd_fb_out32 drvdata REG_OFF_EN 0 k in
  (rc, drvdata, k).

(** Label [err_regfb], which falls through into [err_cmap]. *)
Definition err_regfb (fbsize rc : Z) (drvdata : gslcdfb_drvdata) (k : kernel)
  : Z * gslcdfb_drvdata * kernel :=
  let k := fb_dealloc_cmap k in
  err_cmap fbsize rc drvdata k.

(** The block of [gslcdfb_assign] headed "Allocate the framebuffer
    memory": either the address of the platform data is mapped, or a
    coherent buffer is allocated and the flag [fb_alloced] raised. *)
Definition acquire_fb (o : oracle) (fbsize : Z) (drvdata : gslcdfb_drvdata)
  (pdata : gslcdfb_platform_data) (k : kernel) : gslcdfb_drvdata * kernel :=
  if negb (pd_fb_phys pdata =? 0) then
    let drvdata := set_fb_phys drvdata (pd_fb_phys pdata) in
    let '(v, k) := ioremap o (pd_fb_phys pdata) (size_t fbsize) k in
    (set_fb_virt drvdata v, k)
  else
    let drvdata := set_fb_alloced drvdata 1 in
    let '(v, h, k) :=
      dma_alloc_coherent o (size_t (PAGE_ALIGN_int fbsize)) k in
    (set_fb_virt (set_fb_phys drvdata h) v, k).

(** [gslcdfb_assign]: status, driver data and kernel after the call.  [dev]
    stands for [&pdev->dev].  The [dev_dbg] banners are left out. *)
Definition gslcdfb_assign (o : oracle) (dev : Z)
  (drvdata : gslcdfb_drvdata) (pdata : gslcdfb_platform_data) (k : kernel)
  : Z * gslcdfb_drvdata * kernel :=
  let fbsize := fbsize_of pdata in
  let '(p, k) := devm_ioremap_resource o k in
  let drvdata := set_regs drvdata p in
  if IS_ERR (regs drvdata) then (PTR_ERR (regs drvdata), drvdata, k)
  else
    let drvdata := set_regs_phys drvdata (o_res_start o) in
    let '(drvdata, k) := acquire_fb o fbsize drvdata pdata k in
    if fb_virt drvdata =? 0 then
      let k := dev_err "Could not allocate frame buffer memory" k in
      (- ENOMEM, drvdata, k)
    else
      let k := memset_io (fb_virt drvdata) 0 (size_t fbsize) k in
      let k := gslcd_fb_out32 drvdata REG_OFF_FB_PTR (fb_phys drvdata) k in
      let k := gslcd_fb_out32 drvdata REG_OFF_EN 1 k in
      let drvdata := fill_fb_info dev fbsize pdata drvdata in
      let '(rc, k) := fb_alloc_cmap o PALETTE_ENTRIES_NO 0 k in
      if negb (rc =? 0) then
        let k := dev_err "Fail to allocate colormap (16 entries)" k in
        err_cmap fbsize rc drvdata k
      else
        let '(rc, k) := register_framebuffer o k in
        if negb (rc =? 0) then
          let k := dev_err "Could not register frame buffer" k in
          err_regfb fbsize rc drvdata k
        else (0, drvdata, k).

(** The two build options [gslcdfb_release] is conditional on. *)
Record kconfig := {
  CONFIG_FRAMEBUFFER_CONSOLE : bool;
  CONFIG_LOGO : bool
}.

(** [gslcdfb_release]: status and kernel after the call. *)
Definition gslcdfb_release (cfg : kconfig) (drvdata : gslcdfb_drvdata)
  (k : kernel) : Z * kernel :=
  let k :=
    if negb (CONFIG_FRAMEBUFFER_CONSOLE cfg) && CONFIG_LOGO cfg then
      snd (gslcd_fb_blank VESA_POWERDOWN drvdata k)
    else k in
  let k := unregister_framebuffer k in
  let k := fb_dealloc_cmap k in
  let k :=
    if negb (fb_alloced drvdata =? 0) then
      dma_free_coherent
        (size_t (PAGE_ALIGN_u32 (smem_len (info_fix (info drvdata)))))
        (fb_virt drvdata) (fb_phys drvdata) k
    else iounmap (fb_virt drvdata) k in
  let k := gslcd_fb_out32 drvdata REG_OFF_EN 0 k in
  (0, k).

(** [gslcdfb_of_probe]: the driver data is [None] when it could not be
    allocated. *)
Definition gslcdfb_of_probe (o : oracle) (dev : Z) (k : kernel)
  : Z * option gslcdfb_drvdata * kernel :=
  let pdata := gslcd_fb_default_pdata in
  if negb (o_devm_kzalloc o) then (- ENOMEM, None, k)
  else
    let '(rc, drvdata, k) := gslcdfb_assign o dev drvdata_zero pdata k in
    (rc, Some drvdata, k).

Definition gslcdfb_of_remove (cfg : kconfig) (drvdata : gslcdfb_drvdata)
  (k : kernel) : Z * kernel :=
  gslcdfb_release cfg drvdata k.

(** ** Vocabulary of the specification *)

(** The ownership tag of the specification's [FrameBufferRegion]; the
    driver keeps it as the flag [fb_alloced]. *)
Inductive Ownership := Allocated | ExternallyProvided.

Definition ownership (drvdata : gslcdfb_drvdata) : Ownership :=
  if fb_alloced drvdata =? 0 then ExternallyProvided else Allocated.

(** The calls a driver entry point added to the log of [k], given the
    kernel [k'] it left behind. *)
Definition events_since (k k' : kernel) : list event :=
  drop (length (k_log k)) (k_log k').

Definition is_alloc_call (e : event) : bool :=
  match e with EvDmaAllocCoherent _ _ _ => true | _ => false end.

Definition is_free_call (e : event) : bool :=
  match e with EvDmaFreeCoherent _ _ _ => true | _ => false end.

Definition is_map_call (e : event) : bool :=
  match e with EvIoremap _ _ _ => true | _ => false end.

Definition is_unmap_call (e : event) : bool :=
  match e with EvIounmap _ => true | _ => false end.

(** The four calls that acquire or give back frame buffer memory. *)
Definition is_fb_call (e : event) : bool :=
  is_alloc_call e || is_free_call e || is_map_call e || is_unmap_call e.

Definition fb_calls (evs : list event) : list event :=
  filter (fun e => is_fb_call e = true) evs.

(** What a sequence of calls leaves held.  A release hands back the
    resource it names, and only that one: a coherent buffer freed under
    another size or handle stays on the list. *)
Inductive resource :=
| ResRegisters (virt : Z)
| ResMapping (virt : Z)
| ResCoherent (size virt handle : Z)
| ResColorMap
| ResSurface.

#[global] Instance resource_eq_dec : EqDecision resource.
Proof. solve_decision. Defined.

Fixpoint give_back (r : resource) (held : list resource) : list resource :=
  match held with
  | [] => []
  | r' :: held => if decide (r = r') then held else r' :: give_back r held
  end.

Definition track (held : list resource) (e : event) : list resource :=
  match e with
  | EvDevmIoremapResource ret =>
      if IS_ERR ret then held else held ++ [ResRegisters ret]
  | EvIoremap _ _ ret =>
      if ret =? 0 then held else held ++ [ResMapping ret]
  | EvDmaAllocCoherent size ret handle =>
      if ret =? 0 then held else held ++ [ResCoherent size ret handle]
  | EvFbAllocCmap _ _ rc =>
      if rc =? 0 then held ++ [ResColorMap] else held
  | EvRegisterFramebuffer rc =>
      if rc =? 0 then held ++ [ResSurface] else held
  | EvUnregisterFramebuffer => give_back ResSurface held
  | EvFbDeallocCmap => give_back ResColorMap held
  | EvDmaFreeCoherent size virt handle =>
      give_back (ResCoherent size virt handle) held
  | EvIounmap virt => give_back (ResMapping virt) held
  | EvDevErr _ | EvMemsetIo _ _ _ | EvIowrite32 _ _ => held
  end.

Definition outstanding (evs : list event) : list resource :=
  foldl track [] evs.

(** The call that gives the frame buffer back under a given tag. *)
Definition fb_release_call (tag : Ownership) (size : Z)
  (drvdata : gslcdfb_drvdata) : event :=
  match tag with
  | Allocated => EvDmaFreeCoherent size (fb_virt drvdata) (fb_phys drvdata)
  | ExternallyProvided => EvIounmap (fb_virt drvdata)
  end.

(** The call that obtains the frame buffer for a platform description. *)
Definition fb_acquire_call (o : oracle) (pdata : gslcdfb_platform_data)
  : event :=
  if pd_fb_phys pdata =? 0 then
    EvDmaAllocCoherent (size_t (PAGE_ALIGN_int (fbsize_of pdata)))
      (fst (o_dma_alloc_coherent o)) (snd (o_dma_alloc_coherent o))
  else
    EvIoremap (pd_fb_phys pdata) (size_t (fbsize_of pdata)) (o_ioremap o).

(** The frame buffer pointer and bus address that call yields. *)
Definition acquired_virt (o : oracle) (pdata : gslcdfb_platform_data) : Z :=
  if pd_fb_phys pdata =? 0 then fst (o_dma_alloc_coherent o) else o_ioremap o.

Definition acquired_phys (o : oracle) (pdata : gslcdfb_platform_data) : Z :=
  if pd_fb_phys pdata =? 0 then snd (o_dma_alloc_coherent o)
  else pd_fb_phys pdata.

(** The call that undoes an acquiring call, where the driver has one:
    unmapping for a mapping, freeing for an allocation, giving back the
    colour map, unregistering the surface, and writing 0 for the write of 1
    to the enable register at address [enable].  The device-managed
    register mapping and the other calls have none. *)
Definition undo_call (enable : Z) (e : event) : option event :=
  match e with
  | EvIoremap _ _ ret => Some (EvIounmap ret)
  | EvDmaAllocCoherent size ret handle =>
      Some (EvDmaFreeCoherent size ret handle)
  | EvIowrite32 val addr =>
      if (addr =? enable) && (val =? 1) then Some (EvIowrite32 0 addr)
      else None
  | EvFbAllocCmap _ _ _ => Some EvFbDeallocCmap
  | EvRegisterFramebuffer _ => Some EvUnregisterFramebuffer
  | _ => None
  end.

(** What unwinding a sequence of acquiring calls in strict reverse order
    would call: the undoing call of the last one first. *)
Fixpoint strict_reverse (enable : Z) (acq : list event) : list event :=
  match acq with
  | [] => []
  | e :: acq =>
      match undo_call enable e with
      | Some u => strict_reverse enable acq ++ [u]
      | None => strict_reverse enable acq
      end
  end.

(** The 8-bit colour fields of a packed palette entry. *)
Definition field8 (v shift : Z) : Z := Z.land (Z.shiftr v shift) 255.

(** ** Sample inputs *)

Definition kernel0 : kernel :=
  {| k_mmio := ∅; k_mem := fun _ => 255; k_log := [] |}.

Definition oracle_ok : oracle :=
  {| o_devm_kzalloc := true;
     o_res_start := 0x43C00000;
     o_devm_ioremap_resource := 0xF0000000;
     o_ioremap := 0xE0000000;
     o_dma_alloc_coherent := (0xD0000000, 0x1F000000);
     o_fb_alloc_cmap := 0;
     o_register_framebuffer := 0 |}.

Definition oracle_no_surface : oracle :=
  {| o_devm_kzalloc := true;
     o_res_start := 0x43C00000;
     o_devm_ioremap_resource := 0xF0000000;
     o_ioremap := 0xE0000000;
     o_dma_alloc_coherent := (0xD0000000, 0x1F000000);
     o_fb_alloc_cmap := 0;
     o_register_framebuffer := - EINVAL |}.

Definition oracle_no_memory : oracle :=
  {| o_devm_kzalloc := true;
     o_res_start := 0x43C00000;
     o_devm_ioremap_resource := 0xF0000000;
     o_ioremap := 0;
     o_dma_alloc_coherent := (0, 0);
     o_fb_alloc_cmap := 0;
     o_register_framebuffer := 0 |}.

Definition pdata_fixed : gslcdfb_platform_data :=
  {| screen_height_mm := 65; screen_width_mm := 108;
     xres := 800; yres := 480; xvirt := 800; yvirt := 480;
     pd_fb_phys := 0x1F000000 |}.

Definition kconfig_plain : kconfig :=
  {| CONFIG_FRAMEBUFFER_CONSOLE := true; CONFIG_LOGO := true |}.

Definition kconfig_logo_only : kconfig :=
  {| CONFIG_FRAMEBUFFER_CONSOLE := false; CONFIG_LOGO := true |}.

Definition status {A B : Type} (r : Z * A * B) : Z := r.1.1.
Definition drvdata_of {B : Type} (r : Z * gslcdfb_drvdata * B)
  : gslcdfb_drvdata := r.1.2.
Definition kernel_of {A : Type} (r : Z * A * kernel) : kernel := r.2.

Definition set_grayscale (fbi : fb_info) (g : Z) : fb_info :=
  {| device := device fbi; screen_base := screen_base fbi; fbops := fbops fbi;
     info_fix := info_fix fbi; pseudo_palette := pseudo_palette fbi;
     flags := flags fbi;
     info_var :=
       {| var_xres := var_xres (info_var fbi);
          var_yres := var_yres (info_var fbi);
          xres_virtual := xres_virtual (info_var fbi);
          yres_virtual := yres_virtual (info_var fbi);
          bits_per_pixel := bits_per_pixel (info_var fbi);
          grayscale := g;
          var_red := var_red (info_var fbi);
          var_green := var_green (info_var fbi);
          var_blue := var_blue (info_var fbi);
          var_transp := var_transp (info_var fbi);
          activate := activate (info_var fbi);
          var_height := var_height (info_var fbi);
          var_width := var_width (info_var fbi) |} |}.

Definition fb_info_gray : fb_info := set_grayscale fb_info_zero 1.

(** The register resource is refused: [ERR_PTR(-EBUSY)]. *)
Definition oracle_busy : oracle :=
  {| o_devm_kzalloc := true;
     o_res_start := 0x43C00000;
     o_devm_ioremap_resource := 2 ^ 32 - 16;
     o_ioremap := 0xE0000000;
     o_dma_alloc_coherent := (0xD0000000, 0x1F000000);
     o_fb_alloc_cmap := 0;
     o_register_framebuffer := 0 |}.

(** The colour map cannot be allocated. *)
Definition oracle_no_cmap : oracle :=
  {| o_devm_kzalloc := true;
     o_res_start := 0x43C00000;
     o_devm_ioremap_resource := 0xF0000000;
     o_ioremap := 0xE0000000;
     o_dma_alloc_coherent := (0xD0000000, 0x1F000000);
     o_fb_alloc_cmap := - ENOMEM;
     o_register_framebuffer := 0 |}.

(** The driver data itself cannot be allocated. *)
Definition oracle_no_drvdata : oracle :=
  {| o_devm_kzalloc := false;
     o_res_start := 0x43C00000;
     o_devm_ioremap_resource := 0xF0000000;
     o_ioremap := 0xE0000000;
     o_dma_alloc_coherent := (0xD0000000, 0x1F000000);
     o_fb_alloc_cmap := 0;
     o_register_framebuffer := 0 |}.

(** A geometry whose byte length, 3 * 0x55555555, is one short of 2^32. *)
Definition pdata_wrapping : gslcdfb_platform_data :=
  {| screen_height_mm := 65; screen_width_mm := 108;
     xres := 800; yres := 480; xvirt := 0x55555555; yvirt := 1;
     pd_fb_phys := 0 |}.

(** A geometry with no rows. *)
Definition pdata_empty : gslcdfb_platform_data :=
  {| screen_height_mm := 65; screen_width_mm := 108;
     xres := 800; yres := 480; xvirt := 800; yvirt := 0;
     pd_fb_phys := 0 |}.

(** The word the callback stores, for an index it accepts. *)
Definition stored_entry (fbi : fb_info) (red green blue : Z) : Z :=
  let y := Z.shiftr (u32 (red * 77 + green * 151 + blue * 28 + 127)) 8 in
  u32 (if grayscale (info_var fbi) =? 0
       then Z.lor (Z.lor (Z.shiftl (Z.shiftr red 8) 16)
                         (Z.shiftl (Z.shiftr green 8) 8))
                  (Z.shiftl (Z.shiftr blue 8) 0)
       else Z.lor (Z.lor (Z.shiftl (Z.shiftr y 8) 16)
                         (Z.shiftl (Z.shiftr y 8) 8))
                  (Z.shiftl (Z.shiftr y 8) 0)).

(** The byte length of the buffer as the kernel services receive it. *)
Definition fb_bytes (pdata : gslcdfb_platform_data) : Z :=
  (xvirt pdata * yvirt pdata * BYTES_PER_PIXEL) mod 2 ^ 32.

(** * Properties *)

(** ** Arithmetic on 32-bit words *)

Section Words.

Lemma u32_land x : u32 x = Z.land x (Z.ones 32).
Proof. unfold u32. now rewrite Z.land_ones by lia. Qed.

Lemma u32_range x : 0 <= u32 x < 2 ^ 32.
Proof. unfold u32. apply Z.mod_pos_bound. lia. Qed.

Lemma u32_small x : 0 <= x < 2 ^ 32 -> u32 x = x.
Proof. intros H. unfold u32. now apply Z.mod_small. Qed.

Lemma u32_idemp x : u32 (u32 x) = u32 x.
Proof. apply u32_small, u32_range. Qed.

Lemma u32_lor a b : u32 (Z.lor a b) = Z.lor (u32 a) (u32 b).
Proof. rewrite !u32_land. apply Z.land_lor_distr_l. Qed.

Lemma u32_land_distr a b : u32 (Z.land a b) = Z.land (u32 a) (u32 b).
Proof.
  rewrite !u32_land.
  apply Z.bits_inj'. intros n Hn.
  rewrite !Z.land_spec. destruct (Z.testbit a n), (Z.testbit b n),
    (Z.testbit (Z.ones 32) n); reflexivity.
Qed.

Lemma u32_s32 x : u32 (s32 x) = u32 x.
Proof.
  unfold u32, s32.
  change (2 ^ 32) with 4294967296. change (2 ^ 31) with 2147483648.
  Z.div_mod_to_equations. lia.
Qed.

Lemma u32_add_l a b : u32 (u32 a + b) = u32 (a + b).
Proof. unfold u32. now rewrite Zplus_mod_idemp_l. Qed.

Lemma s32_small x : - 2 ^ 31 <= x < 2 ^ 31 -> s32 x = x.
Proof. intros H. unfold s32. rewrite Z.mod_small; lia. Qed.

Lemma shiftr8_bound x n : 0 <= n -> 0 <= x < 2 ^ (n + 8) ->
  0 <= Z.shiftr x 8 < 2 ^ n.
Proof.
  intros Hn [H0 H1]. rewrite Z.shiftr_div_pow2 by lia.
  rewrite Z.pow_add_r in H1 by lia.
  split; [apply Z.div_pos; lia | apply Z.div_lt_upper_bound; lia].
Qed.

Lemma testbit_high x n i : 0 <= n -> 0 <= x < 2 ^ n -> n <= i ->
  Z.testbit x i = false.
Proof.
  intros Hn Hx Hi.
  rewrite <- (Z.mod_small x (2 ^ n)) by assumption.
  apply Z.mod_pow2_bits_high. lia.
Qed.

Lemma testbit_255 i : 0 <= i -> Z.testbit 255 i = (i <? 8).
Proof.
  intros Hi. change 255 with (Z.ones 8).
  destruct (Z.ltb_spec i 8).
  - apply Z.ones_spec_low. lia.
  - apply Z.ones_spec_high. lia.
Qed.

(** Three bytes packed side by side come apart again. *)
Lemma pack_fields r g b :
  0 <= r < 256 -> 0 <= g < 256 -> 0 <= b < 256 ->
  let v := Z.lor (Z.lor (Z.shiftl r 16) (Z.shiftl g 8)) (Z.shiftl b 0) in
  field8 v 16 = r /\ field8 v 8 = g /\ field8 v 0 = b /\ 0 <= v < 2 ^ 24.
Proof.
  intros Hr Hg Hb v.
  assert (Tr : forall i, 8 <= i -> Z.testbit r i = false)
    by (intros; apply (testbit_high r 8); lia).
  assert (Tg : forall i, 8 <= i -> Z.testbit g i = false)
    by (intros; apply (testbit_high g 8); lia).
  assert (Tb : forall i, 8 <= i -> Z.testbit b i = false)
    by (intros; apply (testbit_high b 8); lia).
  assert (Neg : forall x i, i < 0 -> Z.testbit x i = false)
    by (intros; now apply Z.testbit_neg_r).
  assert (F : forall s x, (s = 16 /\ x = r) \/ (s = 8 /\ x = g) \/
                          (s = 0 /\ x = b) -> field8 v s = x).
  { intros s x Hs. unfold field8, v.
    apply Z.bits_inj'. intros i Hi.
    rewrite Z.land_spec, Z.shiftr_spec, !Z.lor_spec, !Z.shiftl_spec,
      testbit_255 by lia.
    destruct (Z.ltb_spec i 8).
    - destruct Hs as [[-> ->]|[[-> ->]|[-> ->]]];
        rewrite ?Z.sub_0_r, ?Z.add_0_r, ?Bool.andb_true_r.
      + replace (i + 16 - 16) with i by lia.
        rewrite (Tg (i + 16 - 8)), (Tb (i + 16)) by lia.
        now rewrite !Bool.orb_false_r.
      + replace (i + 8 - 8) with i by lia.
        rewrite (Neg r (i + 8 - 16)), (Tb (i + 8)) by lia.
        now rewrite Bool.orb_false_r.
      + rewrite (Neg r (i - 16)), (Neg g (i - 8)) by lia.
        reflexivity.
    - rewrite Bool.andb_false_r. symmetry.
      destruct Hs as [[_ ->]|[[_ ->]|[_ ->]]]; auto. }
  repeat split; try (apply F; tauto).
  - unfold v.
    apply Z.lor_nonneg; split; [apply Z.lor_nonneg; split|];
      apply Z.shiftl_nonneg; lia.
  - unfold v. apply Z.log2_lt_cancel.
    destruct (Z.eq_dec (Z.lor (Z.lor (Z.shiftl r 16) (Z.shiftl g 8))
                              (Z.shiftl b 0)) 0) as [->|Hne]; [reflexivity|].
    rewrite Z.log2_pow2 by lia.
    assert (Hs : forall x s, 0 <= x < 256 -> 0 <= s <= 16 ->
                             Z.log2 (Z.shiftl x s) < 24).
    { intros x s Hx Hs'. destruct (Z.eq_dec x 0) as [->|Hx0].
      - rewrite Z.shiftl_0_l. reflexivity.
      - rewrite Z.log2_shiftl by lia.
        assert (Z.log2 x < 8) by (apply Z.log2_lt_pow2; lia). lia. }
    assert (0 <= Z.shiftl r 16) by (apply Z.shiftl_nonneg; lia).
    assert (0 <= Z.shiftl g 8) by (apply Z.shiftl_nonneg; lia).
    assert (0 <= Z.shiftl b 0) by (apply Z.shiftl_nonneg; lia).
    rewrite !Z.log2_lor by (try (apply Z.lor_nonneg; split); assumption).
    pose proof (Hs r 16 Hr). pose proof (Hs g 8 Hg). pose proof (Hs b 0 Hb).
    lia.
Qed.

End Words.

(** ** The palette callback *)

Section Palette.

Implicit Types (fbi : fb_info) (regno red green blue transp : Z).

(** The sum of the weighted components wraps once, at the end. *)
Lemma luma_sum red green blue :
  add32 (add32 (add32 (mul32 red 77) (mul32 green 151)) (mul32 blue 28)) 127
  = u32 (red * 77 + green * 151 + blue * 28 + 127).
Proof.
  unfold add32, mul32, u32. change (2 ^ 32) with 4294967296.
  Z.div_mod_to_equations. lia.
Qed.

(** Packing wraps once, at the end. *)
Lemma pack_wrap r g b :
  or32 (or32 (shl32 r RED_SHIFT) (shl32 g GREEN_SHIFT)) (shl32 b BLUE_SHIFT)
  = u32 (Z.lor (Z.lor (Z.shiftl r 16) (Z.shiftl g 8)) (Z.shiftl b 0)).
Proof. unfold or32, shl32. now rewrite !u32_lor. Qed.

Lemma pack_no_wrap r g b :
  0 <= r < 2 ^ 16 -> 0 <= g < 2 ^ 24 -> 0 <= b < 2 ^ 32 ->
  u32 (Z.lor (Z.lor (Z.shiftl r 16) (Z.shiftl g 8)) (Z.shiftl b 0))
  = Z.lor (Z.lor (Z.shiftl r 16) (Z.shiftl g 8)) (Z.shiftl b 0).
Proof.
  intros Hr Hg Hb. rewrite !u32_lor.
  rewrite !u32_small; [reflexivity| | |]; rewrite Z.shiftl_mul_pow2; lia.
Qed.

(** What an in-range call does, in one equation. *)
Lemma setcolreg_in_range regno red green blue transp fbi :
  0 <= regno < 16 ->
  gslcd_fb_setcolreg regno red green blue transp fbi =
  let y := Z.shiftr (u32 (red * 77 + green * 151 + blue * 28 + 127)) 8 in
  let '(r, g, b) :=
    if grayscale (info_var fbi) =? 0 then (red, green, blue) else (y, y, y) in
  (0, set_pseudo_palette fbi
        (<[Z.to_nat regno :=
             u32 (Z.lor (Z.lor (Z.shiftl (Z.shiftr r 8) 16)
                               (Z.shiftl (Z.shiftr g 8) 8))
                        (Z.shiftl (Z.shiftr b 8) 0))]>
           (pseudo_palette fbi))).
Proof.
  intros Hreg. unfold gslcd_fb_setcolreg, PALETTE_ENTRIES_NO.
  destruct (Z.leb_spec 16 regno) as [?|_]; [lia|].
  rewrite luma_sum. unfold shr32.
  destruct (grayscale (info_var fbi) =? 0); cbn [negb];
    now rewrite pack_wrap.
Qed.

Lemma palette_slot regno (l : list Z) :
  0 <= regno < 16 -> length l = 16%nat -> (Z.to_nat regno < length l)%nat.
Proof. lia. Qed.

End Palette.

(** C3.  With grayscale off and the index below 16, the callback succeeds
    and stores [((red>>8)<<16) | ((green>>8)<<8) | ((blue>>8)<<0)], as a
    32-bit word, in the slot of that index and in no other; the
    transparency argument has no influence on the outcome.  The 32-bit
    word is the unbounded value of that expression as soon as [red] stays
    below 2^24, which covers the 16-bit components a colour map holds. *)
Theorem setcolreg_truecolor_packs (regno red green blue transp : Z)
  (fbi : fb_info) :
  0 <= regno < 16 ->
  is_u32 red -> is_u32 green -> is_u32 blue ->
  grayscale (info_var fbi) = 0 ->
  length (pseudo_palette fbi) = 16%nat ->
  let packed := Z.lor (Z.lor (Z.shiftl (Z.shiftr red 8) 16)
                             (Z.shiftl (Z.shiftr green 8) 8))
                      (Z.shiftl (Z.shiftr blue 8) 0) in
  let r := gslcd_fb_setcolreg regno red green blue transp fbi in
  r.1 = 0 /\
  pseudo_palette r.2 !! Z.to_nat regno = Some (u32 packed) /\
  (forall j : nat, j <> Z.to_nat regno ->
     pseudo_palette r.2 !! j = pseudo_palette fbi !! j) /\
  r.2 = set_pseudo_palette fbi (pseudo_palette r.2) /\
  (forall transp',
     gslcd_fb_setcolreg regno red green blue transp' fbi = r) /\
  (red < 2 ^ 24 -> u32 packed = packed).
Proof.
  intros Hreg Hr Hg Hb Hgray Hlen packed r.
  subst r. rewrite setcolreg_in_range by assumption.
  rewrite Hgray. cbn [Z.eqb fst snd pseudo_palette set_pseudo_palette].
  repeat split.
  - apply list_lookup_insert_eq. now apply palette_slot.
  - intros j Hj. now apply list_lookup_insert_ne.
  - intros transp'. rewrite setcolreg_in_range by assumption.
    now rewrite Hgray.
  - intros Hsmall. unfold is_u32 in *. apply pack_no_wrap.
    + apply shiftr8_bound; simpl; lia.
    + apply shiftr8_bound; simpl; lia.
    + pose proof (shiftr8_bound blue 24). simpl in *. lia.
Qed.

Lemma setcolreg_truecolor_packs_witness :
  let r := gslcd_fb_setcolreg 3 0xFFFF 0x80FF 0x1234 0xABCD fb_info_zero in
  r.1 = 0 /\ pseudo_palette r.2 !! 3%nat = Some 0xFF8012.
Proof.
  pose proof (setcolreg_truecolor_packs 3 0xFFFF 0x80FF 0x1234 0xABCD
                fb_info_zero) as H.
  destruct H as (H1 & H2 & _).
  - lia.
  - unfold is_u32. lia.
  - unfold is_u32. lia.
  - unfold is_u32. lia.
  - reflexivity.
  - reflexivity.
  - split; [exact H1 | exact H2].
Defined.

(** C4.  An index of 16 or more is refused with [-EINVAL] and the surface,
    its palette included, is handed back as it was: every entry reads as
    before. *)
Theorem setcolreg_index_out_of_range (regno red green blue transp : Z)
  (fbi : fb_info) :
  16 <= regno ->
  let r := gslcd_fb_setcolreg regno red green blue transp fbi in
  r.1 = - EINVAL /\ r.2 = fbi /\
  (forall j : nat, pseudo_palette r.2 !! j = pseudo_palette fbi !! j).
Proof.
  intros Hreg r. subst r. unfold gslcd_fb_setcolreg, PALETTE_ENTRIES_NO.
  destruct (Z.leb_spec 16 regno) as [_|?]; [|lia].
  cbn [fst snd]. auto.
Qed.

Lemma setcolreg_index_out_of_range_witness :
  gslcd_fb_setcolreg 16 0xFFFF 0xFFFF 0xFFFF 0 fb_info_zero
  = (- EINVAL, fb_info_zero).
Proof.
  pose proof (setcolreg_index_out_of_range 16 0xFFFF 0xFFFF 0xFFFF 0
                fb_info_zero) as H.
  destruct H as (H1 & H2 & _).
  - lia.
  - apply injective_projections; [exact H1 | exact H2].
Defined.

(** C5, as stated, fails.  With grayscale on and the three components at
    65536, a value the [unsigned] parameters admit, the luminance is 65536
    and its top part, 256, no longer fits a byte: the stored word is
    0x01010100, whose red and green fields are 1 and whose blue field
    is 0. *)
Lemma setcolreg_grayscale_fields_differ :
  let r := gslcd_fb_setcolreg 3 65536 65536 65536 0 fb_info_gray in
  r.1 = 0 /\
  exists v, pseudo_palette r.2 !! 3%nat = Some v /\
    ~ (field8 v 16 = field8 v 8 /\ field8 v 8 = field8 v 0).
Proof.
  split; [reflexivity|].
  exists 0x01010100. split; [reflexivity|].
  intros [_ H]. vm_compute in H. discriminate H.
Qed.

(** C5, amended.  With grayscale on and the index below 16, the callback
    succeeds and stores the word packed from three copies of the top part
    of the luminance [(red*77 + green*151 + blue*28 + 127) >> 8], the sum
    taken in 32-bit unsigned arithmetic on the inputs as passed.  When the
    components are 16-bit values, the sum does not wrap and the red, green
    and blue fields of the stored word all equal that top part. *)
Theorem setcolreg_grayscale (regno red green blue transp : Z)
  (fbi : fb_info) :
  0 <= regno < 16 ->
  is_u32 red -> is_u32 green -> is_u32 blue ->
  grayscale (info_var fbi) <> 0 ->
  length (pseudo_palette fbi) = 16%nat ->
  let y := Z.shiftr (u32 (red * 77 + green * 151 + blue * 28 + 127)) 8 in
  let g := Z.shiftr y 8 in
  let r := gslcd_fb_setcolreg regno red green blue transp fbi in
  r.1 = 0 /\
  exists v, pseudo_palette r.2 !! Z.to_nat regno = Some v /\
    v = u32 (Z.lor (Z.lor (Z.shiftl g 16) (Z.shiftl g 8)) (Z.shiftl g 0)) /\
    (red < 2 ^ 16 -> green < 2 ^ 16 -> blue < 2 ^ 16 ->
       y = Z.shiftr (red * 77 + green * 151 + blue * 28 + 127) 8 /\
       0 <= g < 256 /\
       field8 v 16 = g /\ field8 v 8 = g /\ field8 v 0 = g).
Proof.
  intros Hreg Hr Hg Hb Hgray Hlen y g r.
  subst r. rewrite setcolreg_in_range by assumption.
  destruct (Z.eqb_spec (grayscale (info_var fbi)) 0) as [?|_]; [contradiction|].
  cbn [fst snd pseudo_palette set_pseudo_palette].
  split; [reflexivity|].
  eexists. split; [apply list_lookup_insert_eq; now apply palette_slot|].
  split; [reflexivity|].
  intros Hr16 Hg16 Hb16. unfold is_u32 in *.
  assert (Hsum : 0 <= red * 77 + green * 151 + blue * 28 + 127 < 2 ^ 24)
    by lia.
  assert (Hy : y = Z.shiftr (red * 77 + green * 151 + blue * 28 + 127) 8).
  { subst y. rewrite u32_small by lia. reflexivity. }
  assert (Hy16 : 0 <= y < 2 ^ 16).
  { rewrite Hy. apply shiftr8_bound; simpl; lia. }
  assert (Hg8 : 0 <= g < 256).
  { subst g. change 256 with (2 ^ 8). apply shiftr8_bound; simpl; lia. }
  destruct (pack_fields g g g Hg8 Hg8 Hg8) as (F16 & F8 & F0 & Hv).
  fold y. fold g.
  rewrite u32_small by lia.
  auto.
Qed.

Lemma setcolreg_grayscale_witness :
  let r := gslcd_fb_setcolreg 3 0xFFFF 0x8000 0x1234 0 fb_info_gray in
  r.1 = 0 /\
  exists v, pseudo_palette r.2 !! 3%nat = Some v /\
    field8 v 16 = 0x9A /\ field8 v 8 = 0x9A /\ field8 v 0 = 0x9A.
Proof.
  pose proof (setcolreg_grayscale 3 0xFFFF 0x8000 0x1234 0 fb_info_gray) as H.
  destruct H as (H1 & v & Hv & _ & H3).
  - lia.
  - unfold is_u32. lia.
  - unfold is_u32. lia.
  - unfold is_u32. lia.
  - discriminate.
  - reflexivity.
  - split; [exact H1|]. exists v. split; [exact Hv|].
    destruct H3 as (_ & _ & F16 & F8 & F0); [lia | lia | lia |].
    exact (conj F16 (conj F8 F0)).
Defined.

(** ** Logs and registers *)

Section Logs.

Lemma events_since_app (k k' : kernel) (evs : list event) :
  k_log k' = k_log k ++ evs -> events_since k k' = evs.
Proof. intros H. unfold events_since. rewrite H. apply drop_app_length. Qed.

Lemma events_since_refl (k : kernel) : events_since k k = [].
Proof. apply events_since_app. now rewrite app_nil_r. Qed.

(** The byte address [gslcd_fb_out32] computes for the two registers. *)
Lemma reg_addr_en (p : Z) : ptr_add p (shl32 REG_OFF_EN 2) = u32 p.
Proof. unfold ptr_add. f_equal. change (shl32 REG_OFF_EN 2) with 0. lia. Qed.

Lemma reg_addr_fb_ptr (p : Z) :
  ptr_add p (shl32 REG_OFF_FB_PTR 2) = u32 (p + 4).
Proof. reflexivity. Qed.

Lemma out32_log (d : gslcdfb_drvdata) (offset val : Z) (k : kernel) :
  k_log (gslcd_fb_out32 d offset val k)
  = k_log k ++ [EvIowrite32 (u32 val) (ptr_add (regs d) (shl32 offset 2))].
Proof. reflexivity. Qed.

Lemma out32_readback (d : gslcdfb_drvdata) (offset val : Z) (k : kernel) :
  gslcd_fb_in32 d offset (gslcd_fb_out32 d offset val k) = u32 val.
Proof.
  unfold gslcd_fb_in32, gslcd_fb_out32, ioread32, iowrite32, emit.
  cbn [k_mmio]. now rewrite lookup_insert_eq.
Qed.

End Logs.

(** ** Blanking *)

(** C6.  Blanking always reports success.  [FB_BLANK_UNBLANK] makes exactly
    one register write, of 1 to the enable register, and leaves the display
    [Enabled]; each of [FB_BLANK_NORMAL], [FB_BLANK_VSYNC_SUSPEND],
    [FB_BLANK_HSYNC_SUSPEND] and [FB_BLANK_POWERDOWN] makes exactly one
    register write, of 0 to the enable register, and leaves it
    [Disabled]. *)
Theorem blank_state_machine (blank_mode : Z) (drvdata : gslcdfb_drvdata)
  (k : kernel) :
  let r := gslcd_fb_blank blank_mode drvdata k in
  let enable := u32 (regs drvdata + 4 * REG_OFF_EN) in
  r.1 = 0 /\
  (blank_mode = FB_BLANK_UNBLANK ->
     events_since k r.2 = [EvIowrite32 1 enable] /\
     gslcd_fb_in32 drvdata REG_OFF_EN r.2 = 1 /\
     display_state drvdata r.2 = Enabled) /\
  (blank_mode = FB_BLANK_NORMAL \/ blank_mode = FB_BLANK_VSYNC_SUSPEND \/
   blank_mode = FB_BLANK_HSYNC_SUSPEND \/ blank_mode = FB_BLANK_POWERDOWN ->
     events_since k r.2 = [EvIowrite32 0 enable] /\
     gslcd_fb_in32 drvdata REG_OFF_EN r.2 = 0 /\
     display_state drvdata r.2 = Disabled).
Proof.
  intros r enable.
  assert (Henable : ptr_add (regs drvdata) (shl32 REG_OFF_EN 2) = enable).
  { rewrite reg_addr_en. unfold enable. f_equal. change (4 * REG_OFF_EN) with 0.
    lia. }
  split; [|split].
  - subst r. unfold gslcd_fb_blank.
    repeat match goal with |- context [if ?b then _ else _] => destruct b end;
      reflexivity.
  - intros ->. subst r. cbn [gslcd_fb_blank Z.eqb FB_BLANK_UNBLANK snd].
    unfold display_state. rewrite out32_readback.
    repeat split.
    apply events_since_app. now rewrite out32_log, Henable.
  - intros Hmode. subst r.
    assert (Hr : gslcd_fb_blank blank_mode drvdata k
                 = (0, gslcd_fb_out32 drvdata REG_OFF_EN 0 k))
      by (destruct Hmode as [-> | [-> | [-> | ->]]]; reflexivity).
    rewrite Hr. cbn [snd]. unfold display_state. rewrite out32_readback.
    repeat split.
    apply events_since_app. now rewrite out32_log, Henable.
Qed.

Lemma blank_state_machine_witness :
  display_state (set_regs drvdata_zero 0xF0000000)
    (gslcd_fb_blank FB_BLANK_UNBLANK (set_regs drvdata_zero 0xF0000000)
       kernel0).2 = Enabled /\
  display_state (set_regs drvdata_zero 0xF0000000)
    (gslcd_fb_blank FB_BLANK_POWERDOWN (set_regs drvdata_zero 0xF0000000)
       kernel0).2 = Disabled.
Proof.
  split.
  - pose proof (blank_state_machine FB_BLANK_UNBLANK
                  (set_regs drvdata_zero 0xF0000000) kernel0) as H.
    destruct H as (_ & H & _). destruct H as (_ & _ & H).
    + reflexivity.
    + exact H.
  - pose proof (blank_state_machine FB_BLANK_POWERDOWN
                  (set_regs drvdata_zero 0xF0000000) kernel0) as H.
    destruct H as (_ & _ & H). destruct H as (_ & _ & H).
    + right. right. right. reflexivity.
    + exact H.
Defined.

(** C10.  For a mode that is none of the five named ones, blanking reports
    success and does nothing else: no register is written, and the kernel
    state, log included, is the one it was given. *)
Theorem blank_unknown_mode_is_noop (blank_mode : Z)
  (drvdata : gslcdfb_drvdata) (k : kernel) :
  blank_mode <> FB_BLANK_UNBLANK ->
  blank_mode <> FB_BLANK_NORMAL ->
  blank_mode <> FB_BLANK_VSYNC_SUSPEND ->
  blank_mode <> FB_BLANK_HSYNC_SUSPEND ->
  blank_mode <> FB_BLANK_POWERDOWN ->
  gslcd_fb_blank blank_mode drvdata k = (0, k) /\
  events_since k (gslcd_fb_blank blank_mode drvdata k).2 = [] /\
  gslcd_fb_in32 drvdata REG_OFF_EN (gslcd_fb_blank blank_mode drvdata k).2
  = gslcd_fb_in32 drvdata REG_OFF_EN k.
Proof.
  intros H0 H1 H2 H3 H4.
  assert (Hr : gslcd_fb_blank blank_mode drvdata k = (0, k)).
  { unfold gslcd_fb_blank.
    destruct (Z.eqb_spec blank_mode FB_BLANK_UNBLANK); [contradiction|].
    destruct (Z.eqb_spec blank_mode FB_BLANK_NORMAL); [contradiction|].
    destruct (Z.eqb_spec blank_mode FB_BLANK_VSYNC_SUSPEND); [contradiction|].
    destruct (Z.eqb_spec blank_mode FB_BLANK_HSYNC_SUSPEND); [contradiction|].
    destruct (Z.eqb_spec blank_mode FB_BLANK_POWERDOWN); [contradiction|].
    reflexivity. }
  rewrite Hr. cbn [snd]. rewrite events_since_refl. auto.
Qed.

Lemma blank_unknown_mode_is_noop_witness :
  gslcd_fb_blank 5 (set_regs drvdata_zero 0xF0000000) kernel0 = (0, kernel0) /\
  gslcd_fb_blank (-1) (set_regs drvdata_zero 0xF0000000) kernel0
  = (0, kernel0).
Proof.
  split.
  - apply (blank_unknown_mode_is_noop 5); discriminate.
  - apply (blank_unknown_mode_is_noop (-1)); discriminate.
Defined.

(** ** How the kernel services change the state *)

Section Services.

Implicit Types (k : kernel) (e : event) (d : gslcdfb_drvdata).

Lemma k_log_emit e k : k_log (emit e k) = k_log k ++ [e].
Proof. reflexivity. Qed.

Lemma k_log_dev_err msg k : k_log (dev_err msg k) = k_log k ++ [EvDevErr msg].
Proof. reflexivity. Qed.

Lemma k_log_memset_io dst c n k :
  k_log (memset_io dst c n k) = k_log k ++ [EvMemsetIo dst c n].
Proof. reflexivity. Qed.

Lemma k_log_unregister_framebuffer k :
  k_log (unregister_framebuffer k) = k_log k ++ [EvUnregisterFramebuffer].
Proof. reflexivity. Qed.

Lemma k_log_fb_dealloc_cmap k :
  k_log (fb_dealloc_cmap k) = k_log k ++ [EvFbDeallocCmap].
Proof. reflexivity. Qed.

Lemma k_log_dma_free_coherent size virt handle k :
  k_log (dma_free_coherent size virt handle k)
  = k_log k ++ [EvDmaFreeCoherent size virt handle].
Proof. reflexivity. Qed.

Lemma k_log_iounmap virt k : k_log (iounmap virt k) = k_log k ++ [EvIounmap virt].
Proof. reflexivity. Qed.

Lemma k_mem_emit e k : k_mem (emit e k) = k_mem k.
Proof. reflexivity. Qed.

Lemma k_mem_out32 d offset val k :
  k_mem (gslcd_fb_out32 d offset val k) = k_mem k.
Proof. reflexivity. Qed.

Lemma k_mem_memset_io dst c n k a :
  dst <= a < dst + n -> k_mem (memset_io dst c n k) a = c mod 256.
Proof.
  intros [H1 H2]. cbn [memset_io emit k_mem].
  destruct (Z.leb_spec dst a); [|lia].
  destruct (Z.ltb_spec a (dst + n)); [reflexivity|lia].
Qed.

Lemma k_mem_dev_err msg k : k_mem (dev_err msg k) = k_mem k.
Proof. reflexivity. Qed.

Lemma k_mem_fb_dealloc_cmap k : k_mem (fb_dealloc_cmap k) = k_mem k.
Proof. reflexivity. Qed.

Lemma k_mem_err_cmap fbsize rc d k : k_mem (err_cmap fbsize rc d k).2 = k_mem k.
Proof.
  unfold err_cmap. cbn [snd]. rewrite k_mem_out32.
  now destruct (negb (fb_alloced d =? 0)).
Qed.

Lemma k_mem_err_regfb fbsize rc d k :
  k_mem (err_regfb fbsize rc d k).2 = k_mem k.
Proof. unfold err_regfb. now rewrite k_mem_err_cmap. Qed.

End Services.

Create Rewrite HintDb klog.
#[global] Hint Rewrite k_log_emit k_log_dev_err k_log_memset_io out32_log
  k_log_unregister_framebuffer k_log_fb_dealloc_cmap k_log_dma_free_coherent
  k_log_iounmap reg_addr_en reg_addr_fb_ptr : klog.

Create Rewrite HintDb kmem.
#[global] Hint Rewrite k_mem_emit k_mem_out32 k_mem_dev_err
  k_mem_fb_dealloc_cmap k_mem_err_cmap k_mem_err_regfb : kmem.

(** Rewrites the log of a kernel built from service calls into the log it
    started from followed by the list of calls. *)
Ltac log_of := autorewrite with klog; rewrite <- ?app_assoc; cbn [app].

(** ** Page rounding *)

Section Pages.

(** The size [gslcdfb_release] rounds, from [smem_len], is the size
    [gslcdfb_assign] rounded, from [fbsize]. *)
Lemma page_align_same fbsize :
  size_t (PAGE_ALIGN_u32 (u32 fbsize)) = size_t (PAGE_ALIGN_int fbsize).
Proof.
  unfold size_t, PAGE_ALIGN_u32, PAGE_ALIGN_int.
  rewrite !u32_idemp, u32_s32, !u32_land_distr, !u32_idemp, u32_s32, u32_add_l.
  reflexivity.
Qed.

(** Away from the ends of the [int] range it rounds up to the next multiple
    of the page size. *)
Lemma page_align_rounds_up fbsize :
  0 <= fbsize < 2 ^ 31 - PAGE_SIZE ->
  size_t (PAGE_ALIGN_int fbsize)
  = PAGE_SIZE * ((fbsize + PAGE_SIZE - 1) / PAGE_SIZE).
Proof.
  intros H. unfold size_t, PAGE_ALIGN_int, PAGE_SIZE in *.
  rewrite u32_s32, (s32_small (fbsize + _)) by lia.
  change (4096 - 1) with (Z.ones 12).
  rewrite <- Z.ldiff_land, Z.ldiff_ones_r by lia.
  rewrite Z.shiftl_mul_pow2, Z.shiftr_div_pow2 by lia.
  change (2 ^ 12) with 4096.
  change (Z.ones 12) with 4095.
  replace (fbsize + 4095) with (fbsize + 4096 - 1) by lia.
  pose proof (Z.mul_div_le (fbsize + 4096 - 1) 4096).
  pose proof (Z.div_pos (fbsize + 4096 - 1) 4096).
  rewrite u32_small; lia.
Qed.

End Pages.

(** ** The paths through bring-up *)

Section Paths.

Variables (o : oracle) (dev : Z) (d : gslcdfb_drvdata)
  (pdata : gslcdfb_platform_data) (k : kernel).

Local Abbreviation p := (o_devm_ioremap_resource o).
Local Abbreviation fbsize := (fbsize_of pdata).
Local Abbreviation d0 := (set_regs_phys (set_regs d p) (o_res_start o)).
Local Abbreviation k0 := (emit (EvDevmIoremapResource p) k).
Local Abbreviation da := (acquire_fb o fbsize d0 pdata k0).1.
Local Abbreviation ka := (acquire_fb o fbsize d0 pdata k0).2.
Local Abbreviation kb :=
  (gslcd_fb_out32 da REG_OFF_EN 1
     (gslcd_fb_out32 da REG_OFF_FB_PTR (fb_phys da)
        (memset_io (fb_virt da) 0 (size_t fbsize) ka))).
Local Abbreviation df := (fill_fb_info dev fbsize pdata da).

Lemma acquire_fb_fixed (sz : Z) (d1 : gslcdfb_drvdata) (k1 : kernel) :
  pd_fb_phys pdata <> 0 ->
  acquire_fb o sz d1 pdata k1
  = (set_fb_virt (set_fb_phys d1 (pd_fb_phys pdata)) (o_ioremap o),
     emit (EvIoremap (pd_fb_phys pdata) (size_t sz) (o_ioremap o)) k1).
Proof.
  intros H. unfold acquire_fb.
  destruct (Z.eqb_spec (pd_fb_phys pdata) 0); [contradiction|reflexivity].
Qed.

Lemma acquire_fb_dynamic (sz : Z) (d1 : gslcdfb_drvdata) (k1 : kernel) :
  pd_fb_phys pdata = 0 ->
  acquire_fb o sz d1 pdata k1
  = (set_fb_virt (set_fb_phys (set_fb_alloced d1 1)
                    (snd (o_dma_alloc_coherent o)))
       (fst (o_dma_alloc_coherent o)),
     emit (EvDmaAllocCoherent (size_t (PAGE_ALIGN_int sz))
             (fst (o_dma_alloc_coherent o)) (snd (o_dma_alloc_coherent o)))
       k1).
Proof.
  intros H. unfold acquire_fb, dma_alloc_coherent. rewrite H.
  destruct (o_dma_alloc_coherent o). reflexivity.
Qed.

Lemma assign_regs_failed :
  IS_ERR p = true ->
  gslcdfb_assign o dev d pdata k = (PTR_ERR p, set_regs d p, k0).
Proof.
  intros H. unfold gslcdfb_assign, devm_ioremap_resource.
  cbn [regs set_regs]. now rewrite H.
Qed.

Lemma assign_no_memory :
  IS_ERR p = false -> fb_virt da = 0 ->
  gslcdfb_assign o dev d pdata k
  = (- ENOMEM, da, dev_err "Could not allocate frame buffer memory" ka).
Proof.
  intros H Hv. unfold gslcdfb_assign, devm_ioremap_resource.
  cbn [regs set_regs]. rewrite H.
  destruct (acquire_fb o fbsize d0 pdata k0) as [d1 k1]. cbn [fst snd] in *.
  now rewrite Hv.
Qed.

Lemma assign_cmap_failed :
  IS_ERR p = false -> fb_virt da <> 0 -> o_fb_alloc_cmap o <> 0 ->
  gslcdfb_assign o dev d pdata k
  = err_cmap fbsize (o_fb_alloc_cmap o) df
      (dev_err "Fail to allocate colormap (16 entries)"
         (emit (EvFbAllocCmap PALETTE_ENTRIES_NO 0 (o_fb_alloc_cmap o)) kb)).
Proof.
  intros H Hv Hc. unfold gslcdfb_assign, devm_ioremap_resource, fb_alloc_cmap.
  cbn [regs set_regs]. rewrite H.
  destruct (acquire_fb o fbsize d0 pdata k0) as [d1 k1]. cbn [fst snd] in *.
  destruct (Z.eqb_spec (fb_virt d1) 0); [contradiction|].
  destruct (Z.eqb_spec (o_fb_alloc_cmap o) 0); [contradiction|].
  reflexivity.
Qed.

Lemma assign_register_failed :
  IS_ERR p = false -> fb_virt da <> 0 -> o_fb_alloc_cmap o = 0 ->
  o_register_framebuffer o <> 0 ->
  gslcdfb_assign o dev d pdata k
  = err_regfb fbsize (o_register_framebuffer o) df
      (dev_err "Could not register frame buffer"
         (emit (EvRegisterFramebuffer (o_register_framebuffer o))
            (emit (EvFbAllocCmap PALETTE_ENTRIES_NO 0 0) kb))).
Proof.
  intros H Hv Hc Hr.
  unfold gslcdfb_assign, devm_ioremap_resource, fb_alloc_cmap,
    register_framebuffer.
  cbn [regs set_regs]. rewrite H, Hc.
  destruct (acquire_fb o fbsize d0 pdata k0) as [d1 k1]. cbn [fst snd] in *.
  destruct (Z.eqb_spec (fb_virt d1) 0); [contradiction|].
  destruct (Z.eqb_spec (o_register_framebuffer o) 0); [contradiction|].
  reflexivity.
Qed.

Lemma assign_success :
  IS_ERR p = false -> fb_virt da <> 0 -> o_fb_alloc_cmap o = 0 ->
  o_register_framebuffer o = 0 ->
  gslcdfb_assign o dev d pdata k
  = (0, df,
     emit (EvRegisterFramebuffer 0)
       (emit (EvFbAllocCmap PALETTE_ENTRIES_NO 0 0) kb)).
Proof.
  intros H Hv Hc Hr.
  unfold gslcdfb_assign, devm_ioremap_resource, fb_alloc_cmap,
    register_framebuffer.
  cbn [regs set_regs]. rewrite H, Hc, Hr.
  destruct (acquire_fb o fbsize d0 pdata k0) as [d1 k1]. cbn [fst snd] in *.
  destruct (Z.eqb_spec (fb_virt d1) 0); [contradiction|].
  reflexivity.
Qed.

(** The status is 0 on the last path only. *)
Lemma assign_status_zero :
  oracle_wf o ->
  status (gslcdfb_assign o dev d pdata k) = 0 ->
  IS_ERR p = false /\ fb_virt da <> 0 /\ o_fb_alloc_cmap o = 0 /\
  o_register_framebuffer o = 0.
Proof.
  intros (Hp & _) Hs.
  destruct (IS_ERR p) eqn:E.
  { rewrite assign_regs_failed in Hs by assumption.
    unfold status, PTR_ERR, IS_ERR in *. cbn [fst] in Hs.
    apply Z.leb_le in E. unfold is_u32 in Hp.
    change (u32 (- MAX_ERRNO)) with 4294963201 in E.
    unfold s32 in Hs. change (2 ^ 31) with 2147483648 in Hs.
    change (2 ^ 32) with 4294967296 in *.
    Z.div_mod_to_equations. lia. }
  destruct (Z.eq_dec (fb_virt da) 0) as [Hv|Hv].
  { rewrite assign_no_memory in Hs by assumption. discriminate Hs. }
  destruct (Z.eq_dec (o_fb_alloc_cmap o) 0) as [Hc|Hc].
  2: { rewrite assign_cmap_failed in Hs by assumption.
       unfold err_cmap, status in Hs. cbn [fst] in Hs. contradiction. }
  destruct (Z.eq_dec (o_register_framebuffer o) 0) as [Hr|Hr].
  2: { rewrite assign_register_failed in Hs by assumption.
       unfold err_regfb, err_cmap, status in Hs. cbn [fst] in Hs.
       contradiction. }
  auto.
Qed.

End Paths.

(** ** The calls made on each path *)

Section Traces.

Variables (o : oracle) (dev : Z) (d : gslcdfb_drvdata)
  (pdata : gslcdfb_platform_data) (k : kernel).

Local Abbreviation p := (o_devm_ioremap_resource o).
Local Abbreviation fbsize := (fbsize_of pdata).
Local Abbreviation d0 := (set_regs_phys (set_regs d p) (o_res_start o)).
Local Abbreviation k0 := (emit (EvDevmIoremapResource p) k).
Local Abbreviation da := (acquire_fb o fbsize d0 pdata k0).1.
Local Abbreviation ka := (acquire_fb o fbsize d0 pdata k0).2.
Local Abbreviation rounded := (size_t (PAGE_ALIGN_int fbsize)).
Local Abbreviation virt_a := (acquired_virt o pdata).
Local Abbreviation phys_a := (acquired_phys o pdata).

Lemma acquire_fb_fields :
  regs da = p /\ fb_virt da = virt_a /\ fb_phys da = phys_a /\
  fb_alloced da = (if pd_fb_phys pdata =? 0 then 1 else fb_alloced d) /\
  info da = info d /\
  k_log ka = k_log k ++ [EvDevmIoremapResource p; fb_acquire_call o pdata] /\
  k_mem ka = k_mem k /\ k_mmio ka = k_mmio k.
Proof.
  unfold acquired_virt, acquired_phys, fb_acquire_call.
  destruct (Z.eqb_spec (pd_fb_phys pdata) 0) as [E|E].
  - rewrite acquire_fb_dynamic by assumption. cbn [fst snd].
    repeat split. log_of. reflexivity.
  - rewrite acquire_fb_fixed by assumption. cbn [fst snd].
    repeat split. log_of. reflexivity.
Qed.

Lemma ownership_acquired :
  ownership da
  = if pd_fb_phys pdata =? 0 then Allocated else ownership d.
Proof.
  destruct acquire_fb_fields as (_ & _ & _ & H & _).
  unfold ownership. rewrite H.
  destruct (pd_fb_phys pdata =? 0); reflexivity.
Qed.

(** Filling in the surface description leaves the rest of the driver data
    alone. *)
Lemma fill_fb_info_fields (sz : Z) (d1 : gslcdfb_drvdata) :
  regs (fill_fb_info dev sz pdata d1) = regs d1 /\
  ownership (fill_fb_info dev sz pdata d1) = ownership d1 /\
  forall tag n,
    fb_release_call tag n (fill_fb_info dev sz pdata d1)
    = fb_release_call tag n d1.
Proof. repeat split. Qed.

Lemma err_cmap_events (rc : Z) (d1 : gslcdfb_drvdata) (k1 : kernel) :
  k_log (err_cmap fbsize rc (fill_fb_info dev fbsize pdata d1) k1).2
  = k_log k1 ++ [fb_release_call (ownership d1) rounded d1;
                 EvIowrite32 0 (u32 (regs d1))].
Proof.
  unfold err_cmap, ownership, fb_release_call. cbn [snd].
  cbn [fill_fb_info set_info fb_alloced fb_virt fb_phys].
  destruct (fb_alloced d1 =? 0); cbn [negb]; log_of; reflexivity.
Qed.

Lemma assign_events_regs_failed :
  IS_ERR p = true ->
  events_since k (kernel_of (gslcdfb_assign o dev d pdata k))
  = [EvDevmIoremapResource p].
Proof.
  intros H. rewrite assign_regs_failed by assumption.
  apply events_since_app. reflexivity.
Qed.

Lemma assign_events_no_memory :
  IS_ERR p = false -> virt_a = 0 ->
  events_since k (kernel_of (gslcdfb_assign o dev d pdata k))
  = [EvDevmIoremapResource p; fb_acquire_call o pdata;
     EvDevErr "Could not allocate frame buffer memory"].
Proof.
  intros H Hv.
  destruct acquire_fb_fields as (Hregs & Hvirt & Hphys & _ & _ & Hlog & _).
  rewrite assign_no_memory by congruence.
  apply events_since_app. unfold kernel_of. cbn [snd].
  log_of. rewrite Hlog. log_of. reflexivity.
Qed.

Lemma assign_events_cmap_failed :
  IS_ERR p = false -> virt_a <> 0 -> o_fb_alloc_cmap o <> 0 ->
  events_since k (kernel_of (gslcdfb_assign o dev d pdata k))
  = [EvDevmIoremapResource p; fb_acquire_call o pdata;
     EvMemsetIo virt_a 0 (size_t fbsize);
     EvIowrite32 (u32 phys_a) (u32 (p + 4));
     EvIowrite32 1 (u32 p);
     EvFbAllocCmap PALETTE_ENTRIES_NO 0 (o_fb_alloc_cmap o);
     EvDevErr "Fail to allocate colormap (16 entries)";
     fb_release_call (ownership da) rounded da;
     EvIowrite32 0 (u32 p)].
Proof.
  intros H Hv Hc.
  destruct acquire_fb_fields as (Hregs & Hvirt & Hphys & _ & _ & Hlog & _).
  rewrite assign_cmap_failed by congruence.
  apply events_since_app. unfold kernel_of.
  rewrite err_cmap_events. log_of.
  rewrite Hlog, Hregs, Hvirt, Hphys. log_of. reflexivity.
Qed.

Lemma assign_events_register_failed :
  IS_ERR p = false -> virt_a <> 0 -> o_fb_alloc_cmap o = 0 ->
  o_register_framebuffer o <> 0 ->
  events_since k (kernel_of (gslcdfb_assign o dev d pdata k))
  = [EvDevmIoremapResource p; fb_acquire_call o pdata;
     EvMemsetIo virt_a 0 (size_t fbsize);
     EvIowrite32 (u32 phys_a) (u32 (p + 4));
     EvIowrite32 1 (u32 p);
     EvFbAllocCmap PALETTE_ENTRIES_NO 0 0;
     EvRegisterFramebuffer (o_register_framebuffer o);
     EvDevErr "Could not register frame buffer";
     EvFbDeallocCmap;
     fb_release_call (ownership da) rounded da;
     EvIowrite32 0 (u32 p)].
Proof.
  intros H Hv Hc Hr.
  destruct acquire_fb_fields as (Hregs & Hvirt & Hphys & _ & _ & Hlog & _).
  rewrite assign_register_failed by congruence.
  apply events_since_app. unfold kernel_of, err_regfb.
  rewrite err_cmap_events. log_of.
  rewrite Hlog, Hregs, Hvirt, Hphys. log_of. reflexivity.
Qed.

Lemma assign_events_success :
  IS_ERR p = false -> virt_a <> 0 -> o_fb_alloc_cmap o = 0 ->
  o_register_framebuffer o = 0 ->
  events_since k (kernel_of (gslcdfb_assign o dev d pdata k))
  = [EvDevmIoremapResource p; fb_acquire_call o pdata;
     EvMemsetIo virt_a 0 (size_t fbsize);
     EvIowrite32 (u32 phys_a) (u32 (p + 4));
     EvIowrite32 1 (u32 p);
     EvFbAllocCmap PALETTE_ENTRIES_NO 0 0;
     EvRegisterFramebuffer 0].
Proof.
  intros H Hv Hc Hr.
  destruct acquire_fb_fields as (Hregs & Hvirt & Hphys & _ & _ & Hlog & _).
  rewrite assign_success by congruence.
  apply events_since_app. unfold kernel_of. cbn [snd]. log_of.
  rewrite Hlog, Hregs, Hvirt, Hphys. log_of. reflexivity.
Qed.

End Traces.

(** ** The driver data bring-up leaves behind *)

Section DriverData.

Variables (o : oracle) (dev : Z) (d : gslcdfb_drvdata)
  (pdata : gslcdfb_platform_data) (k : kernel).

Local Abbreviation p := (o_devm_ioremap_resource o).
Local Abbreviation r := (gslcdfb_assign o dev d pdata k).

(** Once the registers are mapped, every path records the mapped registers
    and the acquired buffer, and raises [fb_alloced] exactly when the buffer
    was allocated. *)
Lemma assign_fields :
  IS_ERR p = false ->
  regs (drvdata_of r) = p /\
  fb_virt (drvdata_of r) = acquired_virt o pdata /\
  fb_phys (drvdata_of r) = acquired_phys o pdata /\
  ownership (drvdata_of r)
  = (if pd_fb_phys pdata =? 0 then Allocated else ownership d).
Proof.
  intros H.
  destruct (acquire_fb_fields o d pdata k) as (Hregs & Hvirt & Hphys & _).
  pose proof (ownership_acquired o d pdata k) as Hown.
  destruct (Z.eq_dec (acquired_virt o pdata) 0) as [Hv|Hv].
  { rewrite assign_no_memory by congruence. unfold drvdata_of. cbn [fst snd].
    auto. }
  destruct (Z.eq_dec (o_fb_alloc_cmap o) 0) as [Hc|Hc].
  2: { rewrite assign_cmap_failed by congruence. unfold drvdata_of, err_cmap.
       cbn [fst snd]. auto. }
  destruct (Z.eq_dec (o_register_framebuffer o) 0) as [Hr|Hr].
  2: { rewrite assign_register_failed by congruence.
       unfold drvdata_of, err_regfb, err_cmap. cbn [fst snd]. auto. }
  rewrite assign_success by congruence. unfold drvdata_of. cbn [fst snd].
  auto.
Qed.

Lemma assign_fields_regs_failed :
  IS_ERR p = true -> ownership (drvdata_of r) = ownership d.
Proof. intros H. now rewrite assign_regs_failed. Qed.

(** On success the surface description carries the geometry of the
    platform data and the byte length of the buffer. *)
Lemma assign_surface :
  status r = 0 -> oracle_wf o ->
  let fbi := info (drvdata_of r) in
  smem_len (info_fix fbi) = u32 (fbsize_of pdata) /\
  smem_start (info_fix fbi) = u32 (acquired_phys o pdata) /\
  line_length (info_fix fbi) = mul32 (xvirt pdata) BYTES_PER_PIXEL /\
  screen_base fbi = acquired_virt o pdata /\
  bits_per_pixel (info_var fbi) = 24 /\
  pseudo_palette fbi = pseudo_palette (info d).
Proof.
  intros Hs Hwf fbi. subst fbi.
  destruct (assign_status_zero o dev d pdata k Hwf Hs) as (H & Hv & Hc & Hr).
  destruct (acquire_fb_fields o d pdata k)
    as (Hregs & Hvirt & Hphys & _ & Hinfo & _).
  rewrite assign_success by assumption. unfold drvdata_of.
  cbn [fst snd fill_fb_info set_info info info_fix info_var smem_len
         smem_start line_length screen_base bits_per_pixel pseudo_palette].
  rewrite Hphys, Hvirt, Hinfo. repeat split.
Qed.

End DriverData.

(** ** Tear-down *)

Section Release.

Variables (cfg : kconfig) (d : gslcdfb_drvdata) (k : kernel).

Lemma release_events :
  events_since k (gslcdfb_release cfg d k).2
  = (if negb (CONFIG_FRAMEBUFFER_CONSOLE cfg) && CONFIG_LOGO cfg
     then [EvIowrite32 0 (u32 (regs d))] else [])
    ++ [EvUnregisterFramebuffer; EvFbDeallocCmap;
        fb_release_call (ownership d)
          (size_t (PAGE_ALIGN_u32 (smem_len (info_fix (info d))))) d;
        EvIowrite32 0 (u32 (regs d))].
Proof.
  apply events_since_app. unfold gslcdfb_release, ownership, fb_release_call.
  cbn [snd].
  destruct (fb_alloced d =? 0); cbn [negb];
    destruct (negb (CONFIG_FRAMEBUFFER_CONSOLE cfg) && CONFIG_LOGO cfg);
    cbn [gslcd_fb_blank VESA_POWERDOWN FB_BLANK_UNBLANK FB_BLANK_NORMAL
           FB_BLANK_VSYNC_SUSPEND FB_BLANK_HSYNC_SUSPEND FB_BLANK_POWERDOWN
           Z.eqb Pos.eqb orb snd];
    log_of; reflexivity.
Qed.

End Release.

(** C8.  Tear-down reports success for every handle.  It unregisters the
    surface, gives back the colour map, gives back the frame buffer by the
    call the handle's ownership tag selects, and last writes 0 to the enable
    register, in that order; when the build has the boot logo without the
    frame buffer console, one more write of 0 to the enable register comes
    first.  The display is [Disabled] afterwards. *)
Theorem release_never_fails (cfg : kconfig) (drvdata : gslcdfb_drvdata)
  (k : kernel) :
  let r := gslcdfb_release cfg drvdata k in
  let enable := u32 (regs drvdata + 4 * REG_OFF_EN) in
  let size :=
    size_t (PAGE_ALIGN_u32 (smem_len (info_fix (info drvdata)))) in
  let blank_first :=
    if negb (CONFIG_FRAMEBUFFER_CONSOLE cfg) && CONFIG_LOGO cfg
    then [EvIowrite32 0 enable] else [] in
  r.1 = 0 /\
  events_since k r.2
  = blank_first
    ++ [EvUnregisterFramebuffer;
        EvFbDeallocCmap;
        match ownership drvdata with
        | Allocated =>
            EvDmaFreeCoherent size (fb_virt drvdata) (fb_phys drvdata)
        | ExternallyProvided => EvIounmap (fb_virt drvdata)
        end;
        EvIowrite32 0 enable] /\
  gslcd_fb_in32 drvdata REG_OFF_EN r.2 = 0 /\
  display_state drvdata r.2 = Disabled.
Proof.
  intros r enable size blank_first.
  assert (Henable : enable = u32 (regs drvdata)).
  { unfold enable. f_equal. change (4 * REG_OFF_EN) with 0. lia. }
  assert (Hread : gslcd_fb_in32 drvdata REG_OFF_EN r.2 = 0).
  { subst r. unfold gslcdfb_release. cbn [snd]. now rewrite out32_readback. }
  split; [reflexivity|]. split; [|split].
  - subst r blank_first. rewrite release_events, Henable. reflexivity.
  - exact Hread.
  - unfold display_state. now rewrite Hread.
Qed.

(** ** Ownership of the frame buffer *)

(** Splits on how far bring-up got once the registers are mapped, and
    rewrites the calls it made accordingly. *)
Ltac assign_paths o pdata :=
  let Hv := fresh "Hv" in
  let Hc := fresh "Hc" in
  let Hr := fresh "Hr" in
  destruct (Z.eq_dec (acquired_virt o pdata) 0) as [Hv|Hv];
  [ rewrite assign_events_no_memory by assumption
  | destruct (Z.eq_dec (o_fb_alloc_cmap o) 0) as [Hc|Hc];
    [ destruct (Z.eq_dec (o_register_framebuffer o) 0) as [Hr|Hr];
      [ rewrite assign_events_success by assumption
      | rewrite assign_events_register_failed by assumption ]
    | rewrite assign_events_cmap_failed by assumption ] ].

Lemma give_back_here (r : resource) (held : list resource) :
  give_back r (r :: held) = held.
Proof. cbn [give_back]. now rewrite decide_True. Qed.

Lemma give_back_skip (r r' : resource) (held : list resource) :
  r <> r' -> give_back r (r' :: held) = r' :: give_back r held.
Proof. intros H. cbn [give_back]. now rewrite decide_False. Qed.

(** Evaluates [outstanding] on an explicit list of calls. *)
Ltac run_outstanding :=
  unfold outstanding; cbn [foldl track app Z.eqb];
  repeat first [ rewrite give_back_here
               | rewrite give_back_skip by discriminate ];
  try reflexivity.

(** C1.  Bring-up from zeroed driver data, for every platform description.
    With a nonzero fixed address it never calls the coherent allocator, maps
    that address as its first frame buffer call, and leaves the tag
    [ExternallyProvided].  With a zero address it never maps, calls the
    coherent allocator with the page-rounded size, and leaves the tag
    [Allocated].  Tear-down of what a successful bring-up produced gives the
    buffer back by the one call matching the tag: a coherent free of the
    same page-rounded size, pointer and bus address when [Allocated], an
    unmap of the mapped pointer when [ExternallyProvided]; it makes no
    other frame buffer call, and afterwards only the device-managed register
    mapping is still held. *)
Theorem ownership_pairing (o : oracle) (dev : Z)
  (pdata : gslcdfb_platform_data) (k : kernel) :
  oracle_wf o ->
  let r := gslcdfb_assign o dev drvdata_zero pdata k in
  let d := drvdata_of r in
  let evs := events_since k (kernel_of r) in
  let rounded := size_t (PAGE_ALIGN_int (fbsize_of pdata)) in
  (pd_fb_phys pdata <> 0 ->
     Forall (fun e => is_alloc_call e = false) evs /\
     ownership d = ExternallyProvided /\
     (IS_ERR (o_devm_ioremap_resource o) = false ->
        head (fb_calls evs)
        = Some (EvIoremap (pd_fb_phys pdata) (size_t (fbsize_of pdata))
                  (o_ioremap o)))) /\
  (pd_fb_phys pdata = 0 ->
     Forall (fun e => is_map_call e = false) evs /\
     (IS_ERR (o_devm_ioremap_resource o) = false ->
        ownership d = Allocated /\
        head (fb_calls evs)
        = Some (EvDmaAllocCoherent rounded (fst (o_dma_alloc_coherent o))
                  (snd (o_dma_alloc_coherent o))))) /\
  (status r = 0 -> forall cfg k1,
     let evs' := events_since k1 (gslcdfb_release cfg d k1).2 in
     fb_calls evs'
     = [match ownership d with
        | Allocated => EvDmaFreeCoherent rounded (fb_virt d) (fb_phys d)
        | ExternallyProvided => EvIounmap (fb_virt d)
        end] /\
     fb_virt d = acquired_virt o pdata /\
     fb_phys d = acquired_phys o pdata /\
     outstanding (evs ++ evs') = [ResRegisters (o_devm_ioremap_resource o)]).
Proof.
  intros Hwf r d evs rounded.
  pose proof (ownership_acquired o drvdata_zero pdata k) as Hown'.
  split; [|split].
  - intros Hphys.
    assert (Hb : (pd_fb_phys pdata =? 0) = false) by now apply Z.eqb_neq.
    rewrite Hb in Hown'.
    destruct (IS_ERR (o_devm_ioremap_resource o)) eqn:E.
    { subst evs d r.
      rewrite assign_events_regs_failed, assign_fields_regs_failed
        by assumption.
      split; [repeat constructor|]. split; [reflexivity|discriminate]. }
    destruct (assign_fields o dev drvdata_zero pdata k E) as (_ & _ & _ & Hown).
    rewrite Hb in Hown.
    assert (Hevs : Forall (fun e => is_alloc_call e = false) evs /\
                   head (fb_calls evs)
                   = Some (EvIoremap (pd_fb_phys pdata)
                             (size_t (fbsize_of pdata)) (o_ioremap o))).
    { subst evs r. assign_paths o pdata;
        rewrite ?Hown'; unfold fb_acquire_call; rewrite Hb;
        (split; [repeat constructor|reflexivity]). }
    destruct Hevs. auto.
  - intros Hphys.
    assert (Hb : (pd_fb_phys pdata =? 0) = true) by now apply Z.eqb_eq.
    rewrite Hb in Hown'.
    destruct (IS_ERR (o_devm_ioremap_resource o)) eqn:E.
    { subst evs d r. rewrite assign_events_regs_failed by assumption.
      split; [repeat constructor|discriminate]. }
    destruct (assign_fields o dev drvdata_zero pdata k E) as (_ & _ & _ & Hown).
    rewrite Hb in Hown.
    assert (Hevs : Forall (fun e => is_map_call e = false) evs /\
                   head (fb_calls evs)
                   = Some (EvDmaAllocCoherent rounded
                             (fst (o_dma_alloc_coherent o))
                             (snd (o_dma_alloc_coherent o)))).
    { subst evs r. assign_paths o pdata;
        rewrite ?Hown'; unfold fb_acquire_call; rewrite Hb;
        (split; [repeat constructor|reflexivity]). }
    destruct Hevs. auto.
  - intros Hs cfg k1 evs'.
    destruct (assign_status_zero o dev drvdata_zero pdata k Hwf Hs)
      as (E & Hv & Hc & Hr).
    destruct (acquire_fb_fields o drvdata_zero pdata k) as (_ & Hvirt & _).
    rewrite Hvirt in Hv.
    destruct (assign_fields o dev drvdata_zero pdata k E)
      as (Hregs & Hvirt' & Hp & Hown).
    destruct (assign_surface o dev drvdata_zero pdata k Hs Hwf) as (Hlen & _).
    fold r in Hregs, Hvirt', Hp, Hown, Hlen.
    fold d in Hregs, Hvirt', Hp, Hown, Hlen.
    assert (Hevs' :
      evs' = (if negb (CONFIG_FRAMEBUFFER_CONSOLE cfg) && CONFIG_LOGO cfg
              then [EvIowrite32 0 (u32 (regs d))] else [])
             ++ [EvUnregisterFramebuffer; EvFbDeallocCmap;
                 fb_release_call (ownership d) rounded d;
                 EvIowrite32 0 (u32 (regs d))]).
    { subst evs'. rewrite release_events, Hlen, page_align_same.
      reflexivity. }
    assert (Hevs : evs = _) by (apply assign_events_success; assumption).
    split; [|split; [exact Hvirt'|split; [exact Hp|]]].
    + rewrite Hevs'. unfold fb_release_call.
      destruct (ownership d),
        (negb (CONFIG_FRAMEBUFFER_CONSOLE cfg) && CONFIG_LOGO cfg);
        reflexivity.
    + rewrite Hevs, Hevs'. clear Hevs Hevs'.
      rewrite Hown, Hregs. subst rounded.
      unfold fb_release_call, fb_acquire_call. rewrite Hvirt', Hp.
      unfold acquired_virt, acquired_phys in *.
      apply Z.eqb_neq in Hv. revert Hv.
      destruct (pd_fb_phys pdata =? 0),
        (negb (CONFIG_FRAMEBUFFER_CONSOLE cfg) && CONFIG_LOGO cfg);
        cbn [ownership Z.eqb drvdata_zero fb_alloced app]; intros Hv.
      all: unfold outstanding; cbn [foldl track app]; rewrite E, Hv.
      all: run_outstanding.
Qed.

Lemma oracle_ok_wf : oracle_wf oracle_ok.
Proof. unfold oracle_wf, is_u32, is_int. cbn. lia. Qed.

Lemma ownership_pairing_witness :
  ownership
    (drvdata_of (gslcdfb_assign oracle_ok 7 drvdata_zero pdata_fixed kernel0))
  = ExternallyProvided /\
  ownership
    (drvdata_of
       (gslcdfb_assign oracle_ok 7 drvdata_zero gslcd_fb_default_pdata
          kernel0))
  = Allocated /\
  fb_calls
    (events_since kernel0
       (gslcdfb_release kconfig_plain
          (drvdata_of
             (gslcdfb_assign oracle_ok 7 drvdata_zero gslcd_fb_default_pdata
                kernel0))
          kernel0).2)
  = [EvDmaFreeCoherent 1155072 0xD0000000 0x1F000000].
Proof.
  split; [|split].
  - pose proof (ownership_pairing oracle_ok 7 pdata_fixed kernel0
                  oracle_ok_wf) as (H & _ & _).
    destruct H as (_ & H & _); [discriminate | exact H].
  - pose proof (ownership_pairing oracle_ok 7 gslcd_fb_default_pdata kernel0
                  oracle_ok_wf) as (_ & H & _).
    destruct H as (_ & H); [reflexivity|].
    destruct H as (H & _); [reflexivity | exact H].
  - pose proof (ownership_pairing oracle_ok 7 gslcd_fb_default_pdata kernel0
                  oracle_ok_wf) as (_ & _ & H).
    destruct (H eq_refl kconfig_plain kernel0) as (H1 & _).
    exact H1.
Defined.

(** ** Failure during bring-up *)

Section Retry.

Variables (o : oracle) (dev : Z) (d : gslcdfb_drvdata)
  (pdata : gslcdfb_platform_data) (k : kernel).

Local Abbreviation p := (o_devm_ioremap_resource o).
Local Abbreviation rounded := (size_t (PAGE_ALIGN_int (fbsize_of pdata))).

(** The frame pointer register is not the enable register. *)
Lemma fb_ptr_addr_not_enable (q : Z) : u32 (q + 4) <> u32 q.
Proof.
  unfold u32. change (2 ^ 32) with 4294967296.
  intros H. Z.div_mod_to_equations. lia.
Qed.

(** The call that gives the buffer back after a failure, with what the
    acquisition recorded written out. *)
Lemma unwind_release_call :
  let da := (acquire_fb o (fbsize_of pdata)
               (set_regs_phys (set_regs d p) (o_res_start o)) pdata
               (emit (EvDevmIoremapResource p) k)).1 in
  fb_release_call (ownership da) rounded da
  = match (if pd_fb_phys pdata =? 0 then Allocated else ownership d) with
    | Allocated =>
        EvDmaFreeCoherent rounded (acquired_virt o pdata)
          (acquired_phys o pdata)
    | ExternallyProvided => EvIounmap (acquired_virt o pdata)
    end.
Proof.
  intros da. subst da.
  destruct (acquire_fb_fields o d pdata k) as (_ & Hv & Hp & _).
  rewrite ownership_acquired. unfold fb_release_call. now rewrite Hv, Hp.
Qed.

(** Driver data whose flag agrees with the platform description behaves
    like zeroed data: bring-up returns the same status and makes the same
    calls. *)
Lemma assign_from_stale :
  (pd_fb_phys pdata <> 0 -> ownership d = ExternallyProvided) ->
  status (gslcdfb_assign o dev d pdata k)
  = status (gslcdfb_assign o dev drvdata_zero pdata k) /\
  events_since k (kernel_of (gslcdfb_assign o dev d pdata k))
  = events_since k (kernel_of (gslcdfb_assign o dev drvdata_zero pdata k)).
Proof.
  intros Hd.
  assert (Hrel :
    (if pd_fb_phys pdata =? 0 then Allocated else ownership d)
    = (if pd_fb_phys pdata =? 0 then Allocated else ownership drvdata_zero)).
  { destruct (Z.eqb_spec (pd_fb_phys pdata) 0); [reflexivity|].
    now rewrite Hd. }
  pose proof (unwind_release_call) as Hu. cbv zeta in Hu.
  destruct (acquire_fb_fields o d pdata k) as (_ & Hv1 & _).
  destruct (acquire_fb_fields o drvdata_zero pdata k) as (_ & Hv0 & _).
  destruct (IS_ERR p) eqn:E.
  { rewrite !assign_events_regs_failed, !assign_regs_failed by assumption.
    auto. }
  destruct (Z.eq_dec (acquired_virt o pdata) 0) as [Hv|Hv].
  { rewrite !assign_events_no_memory by assumption.
    rewrite !assign_no_memory by congruence. auto. }
  destruct (Z.eq_dec (o_fb_alloc_cmap o) 0) as [Hc|Hc];
    [destruct (Z.eq_dec (o_register_framebuffer o) 0) as [Hr|Hr]|].
  - rewrite !assign_events_success by assumption.
    rewrite !assign_success by congruence. auto.
  - rewrite !assign_events_register_failed by assumption.
    rewrite !assign_register_failed by congruence.
    split; [reflexivity|].
    rewrite Hu. rewrite Hrel.
    destruct (acquire_fb_fields o drvdata_zero pdata k) as (_ & Hv' & Hp' & _).
    rewrite ownership_acquired. unfold fb_release_call.
    now rewrite Hv', Hp'.
  - rewrite !assign_events_cmap_failed by assumption.
    rewrite !assign_cmap_failed by congruence.
    split; [reflexivity|].
    rewrite Hu. rewrite Hrel.
    destruct (acquire_fb_fields o drvdata_zero pdata k) as (_ & Hv' & Hp' & _).
    rewrite ownership_acquired. unfold fb_release_call.
    now rewrite Hv', Hp'.
Qed.

End Retry.

(** C2, as stated, fails.  On the default platform description with a
    registration that is refused, the register mapping is still held after
    the unwinding, and the unwinding is not the strict reverse of the
    bring-up: the display was switched on after the buffer was allocated,
    yet it is switched off only after the buffer has been freed. *)
Lemma registration_unwind_not_strict_reverse :
  let r := gslcdfb_assign oracle_no_surface 7 drvdata_zero
             gslcd_fb_default_pdata kernel0 in
  let acquisition :=
    [EvDevmIoremapResource 0xF0000000;
     EvDmaAllocCoherent 1155072 0xD0000000 0x1F000000;
     EvMemsetIo 0xD0000000 0 1152000;
     EvIowrite32 0x1F000000 0xF0000004;
     EvIowrite32 1 0xF0000000;
     EvFbAllocCmap 16 0 0] in
  let unwind :=
    [EvFbDeallocCmap;
     EvDmaFreeCoherent 1155072 0xD0000000 0x1F000000;
     EvIowrite32 0 0xF0000000] in
  events_since kernel0 (kernel_of r)
  = acquisition
    ++ [EvRegisterFramebuffer (- EINVAL);
        EvDevErr "Could not register frame buffer"]
    ++ unwind /\
  strict_reverse 0xF0000000 acquisition
  = [EvFbDeallocCmap;
     EvIowrite32 0 0xF0000000;
     EvDmaFreeCoherent 1155072 0xD0000000 0x1F000000] /\
  unwind <> strict_reverse 0xF0000000 acquisition /\
  outstanding (events_since kernel0 (kernel_of r)) <> [].
Proof.
  split; [reflexivity|]. split; [reflexivity|].
  split; intros H; discriminate H.
Qed.

(** C2, amended.  Bring-up from zeroed driver data on which registering the
    surface fails.  The status is the one [register_framebuffer] returned.
    After the failed registration the driver reports the error, gives back
    the colour map, gives back the frame buffer by the call its ownership
    tag selects, and last writes 0 to the enable register, in that order.
    Colour map and frame buffer are given back in the reverse order of
    their acquisition; the display, switched on after the buffer was
    acquired, is switched off only after the buffer is given back, where
    the strict reverse would switch it off before.  Afterwards the display
    is [Disabled] and frame buffer and colour map are no longer held; the
    device-managed register mapping, which the driver never releases
    itself, still is.  The driver data left behind has no influence on a
    further bring-up with the same platform description: it returns the
    same status and makes the same calls as one from fresh driver data, and
    returns 0 when the kernel services succeed. *)
Theorem registration_failure_unwinds (o : oracle) (dev : Z)
  (pdata : gslcdfb_platform_data) (k : kernel) :
  IS_ERR (o_devm_ioremap_resource o) = false ->
  acquired_virt o pdata <> 0 ->
  o_fb_alloc_cmap o = 0 ->
  o_register_framebuffer o <> 0 ->
  let r := gslcdfb_assign o dev drvdata_zero pdata k in
  let d := drvdata_of r in
  let evs := events_since k (kernel_of r) in
  let p := o_devm_ioremap_resource o in
  let enable := u32 (p + 4 * REG_OFF_EN) in
  let rounded := size_t (PAGE_ALIGN_int (fbsize_of pdata)) in
  let tag := if pd_fb_phys pdata =? 0 then Allocated else ExternallyProvided in
  let buffer :=
    match tag with
    | Allocated =>
        ResCoherent rounded (acquired_virt o pdata) (acquired_phys o pdata)
    | ExternallyProvided => ResMapping (acquired_virt o pdata)
    end in
  let give_back_buffer :=
    match tag with
    | Allocated =>
        EvDmaFreeCoherent rounded (acquired_virt o pdata)
          (acquired_phys o pdata)
    | ExternallyProvided => EvIounmap (acquired_virt o pdata)
    end in
  let acquisition :=
    [EvDevmIoremapResource p; fb_acquire_call o pdata;
     EvMemsetIo (acquired_virt o pdata) 0 (size_t (fbsize_of pdata));
     EvIowrite32 (u32 (acquired_phys o pdata)) (u32 (p + 4 * REG_OFF_FB_PTR));
     EvIowrite32 1 enable;
     EvFbAllocCmap PALETTE_ENTRIES_NO 0 0] in
  let unwind := [EvFbDeallocCmap; give_back_buffer; EvIowrite32 0 enable] in
  status r = o_register_framebuffer o /\
  ownership d = tag /\
  evs = acquisition
        ++ [EvRegisterFramebuffer (o_register_framebuffer o);
            EvDevErr "Could not register frame buffer"]
        ++ unwind /\
  strict_reverse enable acquisition
  = [EvFbDeallocCmap; EvIowrite32 0 enable; give_back_buffer] /\
  outstanding acquisition = [ResRegisters p; buffer; ResColorMap] /\
  outstanding evs = [ResRegisters p] /\
  display_state d (kernel_of r) = Disabled /\
  (forall o' dev',
     status (gslcdfb_assign o' dev' d pdata (kernel_of r))
     = status (gslcdfb_assign o' dev' drvdata_zero pdata (kernel_of r)) /\
     events_since (kernel_of r)
       (kernel_of (gslcdfb_assign o' dev' d pdata (kernel_of r)))
     = events_since (kernel_of r)
         (kernel_of (gslcdfb_assign o' dev' drvdata_zero pdata (kernel_of r)))
     /\
     (IS_ERR (o_devm_ioremap_resource o') = false ->
      acquired_virt o' pdata <> 0 ->
      o_fb_alloc_cmap o' = 0 ->
      o_register_framebuffer o' = 0 ->
      status (gslcdfb_assign o' dev' d pdata (kernel_of r)) = 0)).
Proof.
  intros E Hv Hc Hr r d evs p enable rounded tag buffer give_back_buffer
    acquisition unwind.
  destruct (assign_fields o dev drvdata_zero pdata k E)
    as (Hregs & Hvirt & Hphys & Hown).
  fold r in Hregs, Hvirt, Hphys, Hown. fold d in Hregs, Hvirt, Hphys, Hown.
  assert (Htag : ownership d = tag).
  { rewrite Hown. subst tag. now destruct (pd_fb_phys pdata =? 0). }
  assert (Hen : enable = u32 p).
  { subst enable. change (4 * REG_OFF_EN) with 0. now rewrite Z.add_0_r. }
  assert (Hevs : evs = acquisition
                       ++ [EvRegisterFramebuffer (o_register_framebuffer o);
                           EvDevErr "Could not register frame buffer"]
                       ++ unwind).
  { subst evs r. rewrite assign_events_register_failed by assumption.
    rewrite ownership_acquired.
    destruct (acquire_fb_fields o drvdata_zero pdata k) as (_ & Hv' & Hp' & _).
    subst acquisition unwind give_back_buffer tag rounded.
    rewrite Hen. subst p. unfold fb_release_call.
    rewrite Hv', Hp'. change (4 * REG_OFF_FB_PTR) with 4.
    destruct (pd_fb_phys pdata =? 0); reflexivity. }
  assert (Hb : (acquired_virt o pdata =? 0) = false) by now apply Z.eqb_neq.
  assert (Hda : fb_virt
                  (acquire_fb o (fbsize_of pdata)
                     (set_regs_phys (set_regs drvdata_zero p) (o_res_start o))
                     pdata (emit (EvDevmIoremapResource p) k)).1 <> 0).
  { destruct (acquire_fb_fields o drvdata_zero pdata k) as (_ & Hv' & _).
    subst p. now rewrite Hv'. }
  assert (Hres : r = _)
    by (apply assign_register_failed; assumption).
  split; [now rewrite Hres|]. split; [exact Htag|]. split; [exact Hevs|].
  split; [|split; [|split; [|split]]].
  - subst acquisition give_back_buffer tag. rewrite Hen.
    change (4 * REG_OFF_FB_PTR) with 4.
    assert (Hne : (u32 (p + 4) =? u32 p) = false)
      by (apply Z.eqb_neq, fb_ptr_addr_not_enable).
    subst rounded. unfold fb_acquire_call, acquired_virt, acquired_phys.
    destruct (pd_fb_phys pdata =? 0);
      cbn [strict_reverse undo_call app]; rewrite Hne, Z.eqb_refl;
      cbn [andb Z.eqb Pos.eqb app]; reflexivity.
  - subst acquisition buffer tag. unfold fb_acquire_call.
    unfold acquired_virt, acquired_phys in *.
    destruct (pd_fb_phys pdata =? 0);
      subst p; unfold outstanding; cbn [foldl track app]; rewrite E, Hb;
      reflexivity.
  - rewrite Hevs.
    subst acquisition unwind give_back_buffer buffer tag.
    unfold fb_acquire_call. unfold acquired_virt, acquired_phys in *.
    destruct (pd_fb_phys pdata =? 0);
      subst p; unfold outstanding; cbn [foldl track app]; rewrite E, Hb;
      apply Z.eqb_neq in Hr; rewrite Hr; run_outstanding.
  - unfold display_state. subst d. rewrite Hres.
    unfold drvdata_of, kernel_of, err_regfb, err_cmap. cbn [fst snd].
    now rewrite out32_readback.
  - intros o' dev'.
    assert (Hstale : pd_fb_phys pdata <> 0 -> ownership d = ExternallyProvided).
    { intros Hne. rewrite Htag. subst tag.
      now destruct (Z.eqb_spec (pd_fb_phys pdata) 0). }
    destruct (assign_from_stale o' dev' d pdata (kernel_of r) Hstale)
      as (Hst & Hev).
    split; [exact Hst|]. split; [exact Hev|].
    intros E' Hv' Hc' Hr'.
    rewrite assign_success; [reflexivity|assumption| |assumption|assumption].
    destruct (acquire_fb_fields o' d pdata (kernel_of r)) as (_ & H & _).
    now rewrite H.
Qed.

Lemma registration_failure_unwinds_witness :
  let r := gslcdfb_assign oracle_no_surface 7 drvdata_zero
             gslcd_fb_default_pdata kernel0 in
  status r = - EINVAL /\
  outstanding (events_since kernel0 (kernel_of r)) = [ResRegisters 0xF0000000] /\
  status (gslcdfb_assign oracle_ok 7 (drvdata_of r) gslcd_fb_default_pdata
            (kernel_of r)) = 0.
Proof.
  pose proof (registration_failure_unwinds oracle_no_surface 7
                gslcd_fb_default_pdata kernel0) as H.
  destruct H as (H1 & _ & _ & _ & _ & H6 & _ & H8).
  - reflexivity.
  - discriminate.
  - reflexivity.
  - discriminate.
  - split; [exact H1|]. split; [exact H6|].
    destruct (H8 oracle_ok 7) as (_ & _ & H).
    apply H.
    + reflexivity.
    + discriminate.
    + reflexivity.
    + reflexivity.
Defined.

(** C7, as stated, fails.  A fixed address whose mapping fails and a
    dynamic allocation that fails give the same status: the two failures are
    not told apart. *)
Lemma map_failure_not_distinct :
  let map_failed :=
    status (gslcdfb_assign oracle_no_memory 7 drvdata_zero pdata_fixed
              kernel0) in
  let out_of_memory :=
    status (gslcdfb_assign oracle_no_memory 7 drvdata_zero
              gslcd_fb_default_pdata kernel0) in
  map_failed = - ENOMEM /\ ~ (map_failed <> out_of_memory).
Proof.
  split; [reflexivity|]. intros H. apply H. reflexivity.
Qed.

(** C7, amended.  Once the registers are mapped, a frame buffer that cannot
    be obtained ends bring-up with [-ENOMEM], whichever way it was sought:
    by mapping a nonzero fixed address or by allocating a coherent buffer.
    In both cases the only calls made are the register mapping, the failed
    acquisition and the error report "Could not allocate frame buffer
    memory"; no register is written. *)
Theorem acquisition_failure_is_enomem (o : oracle) (dev : Z)
  (pdata : gslcdfb_platform_data) (k : kernel) :
  IS_ERR (o_devm_ioremap_resource o) = false ->
  let r := gslcdfb_assign o dev drvdata_zero pdata k in
  let evs := events_since k (kernel_of r) in
  let report := EvDevErr "Could not allocate frame buffer memory" in
  (pd_fb_phys pdata <> 0 -> o_ioremap o = 0 ->
     status r = - ENOMEM /\
     evs = [EvDevmIoremapResource (o_devm_ioremap_resource o);
            EvIoremap (pd_fb_phys pdata) (size_t (fbsize_of pdata)) 0;
            report] /\
     k_mmio (kernel_of r) = k_mmio k) /\
  (pd_fb_phys pdata = 0 -> fst (o_dma_alloc_coherent o) = 0 ->
     status r = - ENOMEM /\
     evs = [EvDevmIoremapResource (o_devm_ioremap_resource o);
            EvDmaAllocCoherent (size_t (PAGE_ALIGN_int (fbsize_of pdata))) 0
              (snd (o_dma_alloc_coherent o));
            report] /\
     k_mmio (kernel_of r) = k_mmio k).
Proof.
  intros E r evs report.
  destruct (acquire_fb_fields o drvdata_zero pdata k)
    as (_ & Hvirt & _ & _ & _ & _ & _ & Hmmio).
  split; intros Hphys Hnull.
  - assert (Hb : (pd_fb_phys pdata =? 0) = false) by now apply Z.eqb_neq.
    assert (Hv : acquired_virt o pdata = 0)
      by (unfold acquired_virt; now rewrite Hb).
    subst evs r. rewrite assign_events_no_memory by assumption.
    rewrite assign_no_memory by congruence.
    unfold fb_acquire_call. rewrite Hb, Hnull.
    repeat split. exact Hmmio.
  - assert (Hb : (pd_fb_phys pdata =? 0) = true) by now apply Z.eqb_eq.
    assert (Hv : acquired_virt o pdata = 0)
      by (unfold acquired_virt; now rewrite Hb).
    subst evs r. rewrite assign_events_no_memory by assumption.
    rewrite assign_no_memory by congruence.
    unfold fb_acquire_call. rewrite Hb, Hnull.
    repeat split. exact Hmmio.
Qed.

Lemma acquisition_failure_is_enomem_witness :
  status (gslcdfb_assign oracle_no_memory 7 drvdata_zero pdata_fixed kernel0)
  = - ENOMEM /\
  status (gslcdfb_assign oracle_no_memory 7 drvdata_zero
            gslcd_fb_default_pdata kernel0)
  = - ENOMEM.
Proof.
  split.
  - pose proof (acquisition_failure_is_enomem oracle_no_memory 7 pdata_fixed
                  kernel0 eq_refl) as (H & _).
    destruct H as (H & _); [discriminate | reflexivity | exact H].
  - pose proof (acquisition_failure_is_enomem oracle_no_memory 7
                  gslcd_fb_default_pdata kernel0 eq_refl) as (_ & H).
    destruct H as (H & _); [reflexivity | reflexivity | exact H].
Defined.

(** ** The default geometry *)

(** C9.  With the default platform description (800 by 480, visible and
    virtual, no fixed address) the byte length is 800 * 480 * 3 = 1152000.
    When the registers are mapped and the coherent allocator, asked for the
    page-rounded 1155072 bytes, returns a buffer, the driver clears exactly
    1152000 bytes from the buffer's start and only then makes its first
    register write, which programs the frame pointer register with the
    buffer's bus address.  Every byte of the region reads 0 from then on,
    and on success the surface is published with that length. *)
Theorem default_region_zeroed (o : oracle) (dev : Z) (k : kernel) :
  IS_ERR (o_devm_ioremap_resource o) = false ->
  fst (o_dma_alloc_coherent o) <> 0 ->
  let r := gslcdfb_assign o dev drvdata_zero gslcd_fb_default_pdata k in
  let d := drvdata_of r in
  let evs := events_since k (kernel_of r) in
  let p := o_devm_ioremap_resource o in
  let virt := fst (o_dma_alloc_coherent o) in
  let handle := snd (o_dma_alloc_coherent o) in
  fbsize_of gslcd_fb_default_pdata
  = xvirt gslcd_fb_default_pdata * yvirt gslcd_fb_default_pdata * 3 /\
  fbsize_of gslcd_fb_default_pdata = 1152000 /\
  fb_virt d = virt /\
  (exists rest,
     evs = [EvDevmIoremapResource p;
            EvDmaAllocCoherent 1155072 virt handle;
            EvMemsetIo virt 0 1152000;
            EvIowrite32 (u32 handle) (u32 (p + 4 * REG_OFF_FB_PTR))]
           ++ rest) /\
  (forall a, virt <= a < virt + 1152000 -> k_mem (kernel_of r) a = 0) /\
  (forall a, ~ (virt <= a < virt + 1152000) ->
     k_mem (kernel_of r) a = k_mem k a) /\
  (status r = 0 ->
     smem_len (info_fix (info d)) = 1152000 /\
     screen_base (info d) = virt /\
     line_length (info_fix (info d)) = 2400).
Proof.
  intros E Hv r d evs p virt handle. subst p virt handle.
  set (pdata := gslcd_fb_default_pdata) in *.
  assert (Hav : acquired_virt o pdata = fst (o_dma_alloc_coherent o))
    by reflexivity.
  assert (Hap : acquired_phys o pdata = snd (o_dma_alloc_coherent o))
    by reflexivity.
  assert (Hacq : fb_acquire_call o pdata
                 = EvDmaAllocCoherent 1155072 (fst (o_dma_alloc_coherent o))
                     (snd (o_dma_alloc_coherent o))) by reflexivity.
  destruct (assign_fields o dev drvdata_zero pdata k E) as (_ & Hvirt & _).
  destruct (acquire_fb_fields o drvdata_zero pdata k)
    as (_ & Hv' & _ & _ & _ & _ & Hm & _).
  rewrite Hav in Hv'.
  assert (Hda : acquired_virt o pdata <> 0) by (rewrite Hav; exact Hv).
  assert (Hda' := Hv). rewrite <- Hv' in Hda'.
  assert (Hevs : exists rest,
    evs = [EvDevmIoremapResource (o_devm_ioremap_resource o);
           EvDmaAllocCoherent 1155072 (fst (o_dma_alloc_coherent o))
             (snd (o_dma_alloc_coherent o));
           EvMemsetIo (fst (o_dma_alloc_coherent o)) 0 1152000;
           EvIowrite32 (u32 (snd (o_dma_alloc_coherent o)))
             (u32 (o_devm_ioremap_resource o + 4 * REG_OFF_FB_PTR))]
          ++ rest).
  { subst evs r.
    assign_paths o pdata; [contradiction| | |];
      rewrite Hacq, Hav, Hap; eexists; reflexivity. }
  assert (Hmem : forall a,
    k_mem (kernel_of r) a
    = if (fst (o_dma_alloc_coherent o) <=? a)
         && (a <? fst (o_dma_alloc_coherent o) + 1152000)
      then 0 else k_mem k a).
  { intros a. rewrite <- Hm. subst r.
    destruct (Z.eq_dec (o_fb_alloc_cmap o) 0) as [Hc|Hc];
      [destruct (Z.eq_dec (o_register_framebuffer o) 0) as [Hr|Hr]|].
    - rewrite assign_success by assumption. unfold kernel_of. cbn [snd].
      autorewrite with kmem. cbn [memset_io emit k_mem]. now rewrite Hv'.
    - rewrite assign_register_failed by assumption. unfold kernel_of.
      autorewrite with kmem. cbn [memset_io emit k_mem]. now rewrite Hv'.
    - rewrite assign_cmap_failed by assumption. unfold kernel_of.
      autorewrite with kmem. cbn [memset_io emit k_mem]. now rewrite Hv'. }
  split; [reflexivity|]. split; [reflexivity|].
  split; [exact Hvirt|]. split; [exact Hevs|].
  split; [|split].
  - intros a Ha. rewrite Hmem.
    destruct (Z.leb_spec (fst (o_dma_alloc_coherent o)) a); [|lia].
    destruct (Z.ltb_spec a (fst (o_dma_alloc_coherent o) + 1152000));
      [reflexivity|lia].
  - intros a Ha. rewrite Hmem.
    destruct (Z.leb_spec (fst (o_dma_alloc_coherent o)) a);
      cbn [andb]; [|reflexivity].
    destruct (Z.ltb_spec a (fst (o_dma_alloc_coherent o) + 1152000));
      [lia|reflexivity].
  - intros Hs.
    assert (Hok : o_fb_alloc_cmap o = 0 /\ o_register_framebuffer o = 0).
    { destruct (Z.eq_dec (o_fb_alloc_cmap o) 0) as [Hc|Hc];
        [destruct (Z.eq_dec (o_register_framebuffer o) 0) as [Hr|Hr]|];
        [auto| |]; exfalso; subst r.
      - rewrite assign_register_failed in Hs by assumption.
        now apply Hr.
      - rewrite assign_cmap_failed in Hs by assumption.
        now apply Hc. }
    destruct Hok as (Hc & Hr).
    subst d r. rewrite assign_success by assumption.
    unfold drvdata_of. cbn [fst snd fill_fb_info set_info info info_fix
                              smem_len screen_base line_length].
    rewrite Hv'. repeat split.
Qed.

Lemma default_region_zeroed_witness :
  let r := gslcdfb_assign oracle_ok 7 drvdata_zero gslcd_fb_default_pdata
             kernel0 in
  fbsize_of gslcd_fb_default_pdata = 1152000 /\
  k_mem (kernel_of r) 0xD0000000 = 0 /\
  k_mem (kernel_of r) (0xD0000000 + 1151999) = 0 /\
  smem_len (info_fix (info (drvdata_of r))) = 1152000.
Proof.
  pose proof (default_region_zeroed oracle_ok 7 kernel0) as H.
  destruct H as (_ & H2 & _ & _ & H5 & _ & H7).
  - reflexivity.
  - discriminate.
  - split; [exact H2|]. split; [|split].
    + apply H5. cbn. lia.
    + apply H5. cbn. lia.
    + destruct H7 as (H & _); [reflexivity | exact H].
Defined.

(** ** Probing *)

(** The probe routine is bring-up on zeroed driver data with a copy of the
    default platform description. *)
Lemma probe_is_assign_on_zeroed_data (o : oracle) (dev : Z) (k : kernel) :
  o_devm_kzalloc o = true ->
  gslcdfb_of_probe o dev k
  = (status (gslcdfb_assign o dev drvdata_zero gslcd_fb_default_pdata k),
     Some (drvdata_of
             (gslcdfb_assign o dev drvdata_zero gslcd_fb_default_pdata k)),
     kernel_of (gslcdfb_assign o dev drvdata_zero gslcd_fb_default_pdata k)).
Proof.
  intros H. unfold gslcdfb_of_probe. rewrite H. cbn [negb].
  now destruct (gslcdfb_assign o dev drvdata_zero gslcd_fb_default_pdata k)
    as [[rc d] k'].
Qed.

Lemma probe_without_memory (o : oracle) (dev : Z) (k : kernel) :
  o_devm_kzalloc o = false -> gslcdfb_of_probe o dev k = (- ENOMEM, None, k).
Proof. intros H. unfold gslcdfb_of_probe. now rewrite H. Qed.

(** ** Worked runs *)

(** A successful probe followed by removal, on a build with the boot logo
    and without the frame buffer console: the display is blanked first, and
    the buffer is freed under the size it was allocated with. *)
Example probe_then_remove_calls :
  let r := gslcdfb_assign oracle_ok 7 drvdata_zero gslcd_fb_default_pdata
             kernel0 in
  events_since kernel0
    (gslcdfb_of_remove kconfig_logo_only (drvdata_of r) (kernel_of r)).2
  = [EvDevmIoremapResource 0xF0000000;
     EvDmaAllocCoherent 1155072 0xD0000000 0x1F000000;
     EvMemsetIo 0xD0000000 0 1152000;
     EvIowrite32 0x1F000000 0xF0000004;
     EvIowrite32 1 0xF0000000;
     EvFbAllocCmap 16 0 0;
     EvRegisterFramebuffer 0;
     EvIowrite32 0 0xF0000000;
     EvUnregisterFramebuffer;
     EvFbDeallocCmap;
     EvDmaFreeCoherent 1155072 0xD0000000 0x1F000000;
     EvIowrite32 0 0xF0000000].
Proof. reflexivity. Qed.

(** Bring-up on a fixed address whose registration is refused. *)
Example fixed_address_refused_calls :
  let r := gslcdfb_assign oracle_no_surface 7 drvdata_zero pdata_fixed
             kernel0 in
  status r = - EINVAL /\
  events_since kernel0 (kernel_of r)
  = [EvDevmIoremapResource 0xF0000000;
     EvIoremap 0x1F000000 1152000 0xE0000000;
     EvMemsetIo 0xE0000000 0 1152000;
     EvIowrite32 0x1F000000 0xF0000004;
     EvIowrite32 1 0xF0000000;
     EvFbAllocCmap 16 0 0;
     EvRegisterFramebuffer (-22);
     EvDevErr "Could not register frame buffer";
     EvFbDeallocCmap;
     EvIounmap 0xE0000000;
     EvIowrite32 0 0xF0000000].
Proof. split; reflexivity. Qed.

(** The palette callback on the three primaries and on mid grey. *)
Example setcolreg_samples :
  pseudo_palette
    (gslcd_fb_setcolreg 1 0xFFFF 0 0 0 fb_info_zero).2 !! 1%nat
  = Some 0xFF0000 /\
  pseudo_palette
    (gslcd_fb_setcolreg 2 0 0xFFFF 0 0 fb_info_zero).2 !! 2%nat
  = Some 0x00FF00 /\
  pseudo_palette
    (gslcd_fb_setcolreg 4 0 0 0xFFFF 0 fb_info_zero).2 !! 4%nat
  = Some 0x0000FF /\
  pseudo_palette
    (gslcd_fb_setcolreg 7 0x8000 0x8000 0x8000 0 fb_info_gray).2 !! 7%nat
  = Some 0x808080.
Proof. repeat split. Qed.

(** * Further properties *)

(** ** Registers, sizes and memory *)

Section Machine.

Implicit Types (k : kernel) (d : gslcdfb_drvdata).

Lemma k_mmio_out32 d offset val k :
  k_mmio (gslcd_fb_out32 d offset val k)
  = <[ptr_add (regs d) (shl32 offset 2) := u32 val]> (k_mmio k).
Proof. reflexivity. Qed.

Lemma k_mmio_memset_io dst c n k : k_mmio (memset_io dst c n k) = k_mmio k.
Proof. reflexivity. Qed.

Lemma k_mmio_err_cmap fbsize rc d k :
  k_mmio (err_cmap fbsize rc d k).2
  = <[ptr_add (regs d) (shl32 REG_OFF_EN 2) := 0]> (k_mmio k).
Proof.
  unfold err_cmap. cbn [snd]. rewrite k_mmio_out32.
  now destruct (negb (fb_alloced d =? 0)).
Qed.

(** The byte offset of a register below 2^30 is four times its index. *)
Lemma shl32_offset offset :
  0 <= offset < 2 ^ 30 -> shl32 offset 2 = 4 * offset.
Proof.
  intros H. unfold shl32. rewrite Z.shiftl_mul_pow2 by lia.
  rewrite u32_small; lia.
Qed.

Lemma reg_addr_distinct p o1 o2 :
  0 <= o1 < 2 ^ 30 -> 0 <= o2 < 2 ^ 30 -> o1 <> o2 ->
  ptr_add p (shl32 o1 2) <> ptr_add p (shl32 o2 2).
Proof.
  intros H1 H2 Hne. rewrite !shl32_offset by assumption.
  unfold ptr_add, u32. change (2 ^ 32) with 4294967296.
  change (2 ^ 30) with 1073741824 in *.
  intros Heq. Z.div_mod_to_equations. lia.
Qed.

Lemma fb_ptr_not_enable p :
  ptr_add p (shl32 REG_OFF_FB_PTR 2) <> ptr_add p (shl32 REG_OFF_EN 2).
Proof. apply reg_addr_distinct; unfold REG_OFF_FB_PTR, REG_OFF_EN; lia. Qed.

(** What the memory-clearing and size arguments amount to. *)
Lemma size_t_fbsize pdata : size_t (fbsize_of pdata) = fb_bytes pdata.
Proof.
  unfold size_t, fbsize_of, fb_bytes, mul32, BYTES_PER_PIXEL.
  rewrite u32_s32, u32_idemp. unfold u32.
  now rewrite Z.mul_mod_idemp_l by lia.
Qed.

Lemma fb_bytes_range pdata : 0 <= fb_bytes pdata < 2 ^ 32.
Proof. unfold fb_bytes. apply Z.mod_pos_bound. lia. Qed.

(** Clearing the low twelve bits of an unsigned word. *)
Lemma land_page_mask y :
  0 <= y < 2 ^ 32 ->
  Z.land y (u32 (Z.lnot (PAGE_SIZE - 1))) = PAGE_SIZE * (y / PAGE_SIZE).
Proof.
  intros H. unfold PAGE_SIZE.
  rewrite <- (u32_small y) at 1 by assumption.
  rewrite <- u32_land_distr.
  change (4096 - 1) with (Z.ones 12).
  rewrite <- Z.ldiff_land, Z.ldiff_ones_r by lia.
  rewrite Z.shiftl_mul_pow2, Z.shiftr_div_pow2 by lia.
  change (2 ^ 12) with 4096.
  pose proof (Z.mul_div_le y 4096). pose proof (Z.div_pos y 4096).
  rewrite u32_small; lia.
Qed.

(** The size the coherent allocator is asked for, in terms of the byte
    length: rounded up to a page, modulo 2^32. *)
Lemma rounded_size pdata :
  size_t (PAGE_ALIGN_int (fbsize_of pdata))
  = u32 (PAGE_SIZE * ((fb_bytes pdata + (PAGE_SIZE - 1)) / PAGE_SIZE)).
Proof.
  rewrite <- page_align_same. fold (size_t (fbsize_of pdata)).
  rewrite size_t_fbsize. pose proof (fb_bytes_range pdata) as Hb.
  unfold size_t, PAGE_ALIGN_u32. rewrite u32_idemp.
  destruct (Z_lt_le_dec (fb_bytes pdata + (PAGE_SIZE - 1)) (2 ^ 32)) as [Hs|Hs].
  - rewrite (u32_small (_ + _)) by (unfold PAGE_SIZE in *; lia).
    rewrite land_page_mask by (unfold PAGE_SIZE in *; lia).
    reflexivity.
  - unfold PAGE_SIZE in *. change (4096 - 1) with 4095 in *.
    assert (Hq : (fb_bytes pdata + 4095) / 4096 = 1048576).
    { change (2 ^ 32) with 4294967296 in *. Z.div_mod_to_equations. lia. }
    rewrite Hq.
    assert (Hw : u32 (fb_bytes pdata + 4095) = fb_bytes pdata + 4095 - 2 ^ 32).
    { unfold u32. change (2 ^ 32) with 4294967296 in *.
      Z.div_mod_to_equations. lia. }
    rewrite Hw.
    assert (Hl : Z.land (fb_bytes pdata + 4095 - 2 ^ 32) (u32 (Z.lnot 4095)) = 0).
    { pose proof (land_page_mask (fb_bytes pdata + 4095 - 2 ^ 32)) as Hm.
      unfold PAGE_SIZE in Hm. change (4096 - 1) with 4095 in Hm.
      rewrite Hm by lia. rewrite Z.div_small; lia. }
    rewrite Hl. reflexivity.
Qed.

End Machine.

(** ** Bring-up, path by path *)

(** X1.  When the register resource cannot be mapped, bring-up stops at once
    with the error the mapping encoded, a value from -4095 to -1.  The
    mapping attempt is the only call made: no frame buffer is sought, no
    register or memory is written, nothing is held, and of the driver data
    only [regs] changed. *)
Theorem assign_register_mapping_failure (o : oracle) (dev : Z)
  (d : gslcdfb_drvdata) (pdata : gslcdfb_platform_data) (k : kernel) :
  is_u32 (o_devm_ioremap_resource o) ->
  IS_ERR (o_devm_ioremap_resource o) = true ->
  let p := o_devm_ioremap_resource o in
  let r := gslcdfb_assign o dev d pdata k in
  status r = p - 2 ^ 32 /\
  - MAX_ERRNO <= status r <= -1 /\
  events_since k (kernel_of r) = [EvDevmIoremapResource p] /\
  outstanding (events_since k (kernel_of r)) = [] /\
  k_mmio (kernel_of r) = k_mmio k /\
  (forall a, k_mem (kernel_of r) a = k_mem k a) /\
  drvdata_of r = set_regs d p.
Proof.
  intros Hu E p r. subst p.
  set (p := o_devm_ioremap_resource o) in *.
  assert (Hr : r = (PTR_ERR p, set_regs d p,
                    emit (EvDevmIoremapResource p) k))
    by (apply assign_regs_failed; exact E).
  assert (Hp : 2 ^ 32 - MAX_ERRNO <= p < 2 ^ 32).
  { unfold IS_ERR in E. apply Z.leb_le in E. unfold is_u32 in Hu.
    change (u32 (- MAX_ERRNO)) with (2 ^ 32 - MAX_ERRNO) in E. lia. }
  assert (Hs : PTR_ERR p = p - 2 ^ 32).
  { unfold PTR_ERR, s32, MAX_ERRNO in *.
    change (2 ^ 32) with 4294967296 in *. change (2 ^ 31) with 2147483648.
    Z.div_mod_to_equations. lia. }
  assert (Hev : events_since k (kernel_of r) = [EvDevmIoremapResource p]).
  { rewrite Hr. apply events_since_app. reflexivity. }
  rewrite Hev. rewrite Hr. unfold status, kernel_of, drvdata_of. cbn [fst snd].
  rewrite Hs. unfold MAX_ERRNO in *.
  split; [reflexivity|]. split; [lia|]. split; [reflexivity|].
  split; [|repeat split].
  unfold outstanding. cbn [foldl track]. now rewrite E.
Qed.

Lemma assign_register_mapping_failure_witness :
  status (gslcdfb_assign oracle_busy 7 drvdata_zero gslcd_fb_default_pdata
            kernel0) = -16.
Proof.
  pose proof (assign_register_mapping_failure oracle_busy 7 drvdata_zero
                gslcd_fb_default_pdata kernel0) as H.
  destruct H as (H & _).
  - unfold is_u32. cbn. lia.
  - reflexivity.
  - exact H.
Defined.

(** X2.  When the colour map cannot be allocated, bring-up returns the
    status of that allocation.  The surface is never offered for
    registration and the colour map is not given back, there being none;
    the frame buffer is given back by the call its tag selects and the
    enable register is written 0 last.  Only the device-managed register
    mapping is still held, and the display is [Disabled]. *)
Theorem assign_colormap_failure (o : oracle) (dev : Z)
  (pdata : gslcdfb_platform_data) (k : kernel) :
  IS_ERR (o_devm_ioremap_resource o) = false ->
  acquired_virt o pdata <> 0 ->
  o_fb_alloc_cmap o <> 0 ->
  let p := o_devm_ioremap_resource o in
  let r := gslcdfb_assign o dev drvdata_zero pdata k in
  let evs := events_since k (kernel_of r) in
  let rounded := size_t (PAGE_ALIGN_int (fbsize_of pdata)) in
  status r = o_fb_alloc_cmap o /\
  evs = [EvDevmIoremapResource p; fb_acquire_call o pdata;
         EvMemsetIo (acquired_virt o pdata) 0 (size_t (fbsize_of pdata));
         EvIowrite32 (u32 (acquired_phys o pdata)) (u32 (p + 4));
         EvIowrite32 1 (u32 p);
         EvFbAllocCmap PALETTE_ENTRIES_NO 0 (o_fb_alloc_cmap o);
         EvDevErr "Fail to allocate colormap (16 entries)";
         if pd_fb_phys pdata =? 0
         then EvDmaFreeCoherent rounded (acquired_virt o pdata)
                (acquired_phys o pdata)
         else EvIounmap (acquired_virt o pdata);
         EvIowrite32 0 (u32 p)] /\
  outstanding evs = [ResRegisters p] /\
  display_state (drvdata_of r) (kernel_of r) = Disabled.
Proof.
  intros E Hv Hc p r evs rounded. subst p.
  destruct (acquire_fb_fields o drvdata_zero pdata k)
    as (_ & Hv' & Hp' & _).
  assert (Hda : fb_virt
                  (acquire_fb o (fbsize_of pdata)
                     (set_regs_phys
                        (set_regs drvdata_zero (o_devm_ioremap_resource o))
                        (o_res_start o))
                     pdata
                     (emit (EvDevmIoremapResource (o_devm_ioremap_resource o))
                        k)).1 <> 0) by now rewrite Hv'.
  assert (Hevs : evs = _) by (apply assign_events_cmap_failed; assumption).
  rewrite ownership_acquired in Hevs. unfold fb_release_call in Hevs.
  rewrite Hv', Hp' in Hevs.
  assert (Hevs' : evs = [EvDevmIoremapResource (o_devm_ioremap_resource o);
         fb_acquire_call o pdata;
         EvMemsetIo (acquired_virt o pdata) 0 (size_t (fbsize_of pdata));
         EvIowrite32 (u32 (acquired_phys o pdata))
           (u32 (o_devm_ioremap_resource o + 4));
         EvIowrite32 1 (u32 (o_devm_ioremap_resource o));
         EvFbAllocCmap PALETTE_ENTRIES_NO 0 (o_fb_alloc_cmap o);
         EvDevErr "Fail to allocate colormap (16 entries)";
         if pd_fb_phys pdata =? 0
         then EvDmaFreeCoherent rounded (acquired_virt o pdata)
                (acquired_phys o pdata)
         else EvIounmap (acquired_virt o pdata);
         EvIowrite32 0 (u32 (o_devm_ioremap_resource o))]).
  { rewrite Hevs. now destruct (pd_fb_phys pdata =? 0). }
  clear Hevs.
  assert (Hr : r = _) by (apply assign_cmap_failed; assumption).
  split; [now rewrite Hr|]. split; [exact Hevs'|]. split.
  - rewrite Hevs'. subst rounded. unfold fb_acquire_call.
    unfold acquired_virt, acquired_phys in *.
    apply Z.eqb_neq in Hv, Hc.
    destruct (pd_fb_phys pdata =? 0);
      unfold outstanding; cbn [foldl track app]; rewrite E, Hv, Hc;
      run_outstanding.
  - rewrite Hr. unfold display_state, drvdata_of, kernel_of, err_cmap.
    cbn [fst snd]. now rewrite out32_readback.
Qed.

Lemma assign_colormap_failure_witness :
  let r := gslcdfb_assign oracle_no_cmap 7 drvdata_zero pdata_fixed kernel0 in
  status r = - ENOMEM /\
  outstanding (events_since kernel0 (kernel_of r)) = [ResRegisters 0xF0000000].
Proof.
  pose proof (assign_colormap_failure oracle_no_cmap 7 pdata_fixed kernel0)
    as H.
  destruct H as (H1 & _ & H3 & _).
  - reflexivity.
  - discriminate.
  - discriminate.
  - split; [exact H1 | exact H3].
Defined.

(** X3.  A bring-up on which every service succeeds returns 0 and leaves the
    display [Enabled], the frame pointer register reading the buffer's bus
    address as a 32-bit word, and the physical address of the registers
    recorded.  Registers, frame buffer, colour map and registered surface
    are held, acquired in that order. *)
Theorem assign_success_state (o : oracle) (dev : Z)
  (pdata : gslcdfb_platform_data) (k : kernel) :
  IS_ERR (o_devm_ioremap_resource o) = false ->
  acquired_virt o pdata <> 0 ->
  o_fb_alloc_cmap o = 0 ->
  o_register_framebuffer o = 0 ->
  let p := o_devm_ioremap_resource o in
  let r := gslcdfb_assign o dev drvdata_zero pdata k in
  let d := drvdata_of r in
  let rounded := size_t (PAGE_ALIGN_int (fbsize_of pdata)) in
  status r = 0 /\
  display_state d (kernel_of r) = Enabled /\
  gslcd_fb_in32 d REG_OFF_EN (kernel_of r) = 1 /\
  gslcd_fb_in32 d REG_OFF_FB_PTR (kernel_of r) = u32 (acquired_phys o pdata) /\
  regs d = p /\ regs_phys d = o_res_start o /\
  outstanding (events_since k (kernel_of r))
  = [ResRegisters p;
     if pd_fb_phys pdata =? 0
     then ResCoherent rounded (acquired_virt o pdata) (acquired_phys o pdata)
     else ResMapping (acquired_virt o pdata);
     ResColorMap; ResSurface].
Proof.
  intros E Hv Hc Hr p r d rounded. subst p.
  destruct (acquire_fb_fields o drvdata_zero pdata k)
    as (Hregs & Hv' & Hp' & _).
  assert (Hda : fb_virt
                  (acquire_fb o (fbsize_of pdata)
                     (set_regs_phys
                        (set_regs drvdata_zero (o_devm_ioremap_resource o))
                        (o_res_start o))
                     pdata
                     (emit (EvDevmIoremapResource (o_devm_ioremap_resource o))
                        k)).1 <> 0) by now rewrite Hv'.
  assert (Hevs : events_since k (kernel_of r) = _)
    by (apply assign_events_success; assumption).
  assert (Hres : r = _) by (apply assign_success; assumption).
  assert (Hen : gslcd_fb_in32 d REG_OFF_EN (kernel_of r) = 1).
  { subst d. rewrite Hres. unfold drvdata_of, kernel_of. cbn [fst snd].
    unfold gslcd_fb_in32, ioread32.
    cbn [fill_fb_info set_info regs emit k_mmio].
    rewrite k_mmio_out32, lookup_insert_eq. reflexivity. }
  assert (Hptr : gslcd_fb_in32 d REG_OFF_FB_PTR (kernel_of r)
                 = u32 (acquired_phys o pdata)).
  { subst d. rewrite Hres. unfold drvdata_of, kernel_of. cbn [fst snd].
    unfold gslcd_fb_in32, ioread32.
    cbn [fill_fb_info set_info regs emit k_mmio].
    rewrite k_mmio_out32, lookup_insert_ne
      by (apply not_eq_sym, fb_ptr_not_enable).
    rewrite k_mmio_out32, lookup_insert_eq, Hp'. reflexivity. }
  split; [now rewrite Hres|].
  split; [unfold display_state; now rewrite Hen|].
  split; [exact Hen|]. split; [exact Hptr|].
  split; [subst d; now rewrite Hres|].
  split.
  - subst d. rewrite Hres. unfold drvdata_of. cbn [fst snd].
    cbn [fill_fb_info set_info regs_phys].
    unfold acquire_fb.
    destruct (pd_fb_phys pdata =? 0); cbn [negb];
      unfold dma_alloc_coherent, ioremap;
      destruct (o_dma_alloc_coherent o); reflexivity.
  - rewrite Hevs. subst rounded. unfold fb_acquire_call.
    unfold acquired_virt, acquired_phys in *.
    apply Z.eqb_neq in Hv.
    destruct (pd_fb_phys pdata =? 0);
      unfold outstanding; cbn [foldl track app]; rewrite E, Hv;
      reflexivity.
Qed.

Lemma assign_success_state_witness :
  let r := gslcdfb_assign oracle_ok 7 drvdata_zero gslcd_fb_default_pdata
             kernel0 in
  display_state (drvdata_of r) (kernel_of r) = Enabled /\
  gslcd_fb_in32 (drvdata_of r) REG_OFF_FB_PTR (kernel_of r) = 0x1F000000.
Proof.
  pose proof (assign_success_state oracle_ok 7 gslcd_fb_default_pdata kernel0)
    as H.
  destruct H as (_ & H2 & _ & H4 & _).
  - reflexivity.
  - discriminate.
  - reflexivity.
  - reflexivity.
  - split; [exact H2 | exact H4].
Defined.

(** ** What bring-up does to memory *)

Section Clearing.

Variables (o : oracle) (dev : Z) (d : gslcdfb_drvdata)
  (pdata : gslcdfb_platform_data) (k : kernel).

Local Abbreviation p := (o_devm_ioremap_resource o).
Local Abbreviation virt := (acquired_virt o pdata).
Local Abbreviation r := (gslcdfb_assign o dev d pdata k).

Lemma acquired_buffer :
  virt <> 0 ->
  fb_virt
    (acquire_fb o (fbsize_of pdata) (set_regs_phys (set_regs d p) (o_res_start o))
       pdata (emit (EvDevmIoremapResource p) k)).1 <> 0.
Proof.
  intros H. destruct (acquire_fb_fields o d pdata k) as (_ & Hv & _).
  now rewrite Hv.
Qed.

(** Whatever happens later, a bring-up that obtained its buffer starts with
    the same four calls. *)
Lemma assign_events_prefix :
  IS_ERR p = false -> virt <> 0 ->
  exists rest,
    events_since k (kernel_of r)
    = [EvDevmIoremapResource p; fb_acquire_call o pdata;
       EvMemsetIo virt 0 (fb_bytes pdata);
       EvIowrite32 (u32 (acquired_phys o pdata)) (u32 (p + 4))] ++ rest.
Proof.
  intros E Hv. rewrite <- size_t_fbsize.
  destruct (Z.eq_dec (o_fb_alloc_cmap o) 0) as [Hc|Hc];
    [destruct (Z.eq_dec (o_register_framebuffer o) 0) as [Hr|Hr]|].
  - rewrite assign_events_success by assumption. eexists. reflexivity.
  - rewrite assign_events_register_failed by assumption. eexists. reflexivity.
  - rewrite assign_events_cmap_failed by assumption. eexists. reflexivity.
Qed.

Lemma assign_k_mem (a : Z) :
  k_mem (kernel_of r) a
  = if negb (IS_ERR p) && negb (virt =? 0)
       && (virt <=? a) && (a <? virt + fb_bytes pdata)
    then 0 else k_mem k a.
Proof.
  destruct (acquire_fb_fields o d pdata k)
    as (_ & Hv' & _ & _ & _ & _ & Hm & _).
  destruct (IS_ERR p) eqn:E.
  { rewrite assign_regs_failed by assumption. reflexivity. }
  cbn [negb andb].
  destruct (Z.eqb_spec virt 0) as [Hv|Hv].
  { rewrite assign_no_memory by congruence. cbn [negb andb].
    unfold kernel_of. cbn [snd]. autorewrite with kmem. now rewrite Hm. }
  cbn [negb andb]. pose proof (acquired_buffer Hv) as Hda.
  rewrite <- Hm, <- size_t_fbsize.
  destruct (Z.eq_dec (o_fb_alloc_cmap o) 0) as [Hc|Hc];
    [destruct (Z.eq_dec (o_register_framebuffer o) 0) as [Hr|Hr]|].
  - rewrite assign_success by assumption. unfold kernel_of. cbn [snd].
    autorewrite with kmem. cbn [memset_io emit k_mem]. now rewrite Hv'.
  - rewrite assign_register_failed by assumption. unfold kernel_of.
    autorewrite with kmem. cbn [memset_io emit k_mem]. now rewrite Hv'.
  - rewrite assign_cmap_failed by assumption. unfold kernel_of.
    autorewrite with kmem. cbn [memset_io emit k_mem]. now rewrite Hv'.
Qed.

End Clearing.

(** X4.  The only memory bring-up ever writes is the frame buffer it
    obtained: when the registers were mapped and the buffer pointer is not
    null, the [xvirt * yvirt * 3 mod 2^32] bytes from that pointer read 0
    afterwards, whether or not the later steps succeed; every other byte,
    and every byte on the two earlier failure paths, is as it was. *)
Theorem assign_memory_effect (o : oracle) (dev : Z) (d : gslcdfb_drvdata)
  (pdata : gslcdfb_platform_data) (k : kernel) (a : Z) :
  let r := gslcdfb_assign o dev d pdata k in
  let virt := acquired_virt o pdata in
  let obtained :=
    negb (IS_ERR (o_devm_ioremap_resource o)) && negb (virt =? 0) in
  (obtained = true -> virt <= a < virt + fb_bytes pdata ->
     k_mem (kernel_of r) a = 0) /\
  (obtained = true -> ~ (virt <= a < virt + fb_bytes pdata) ->
     k_mem (kernel_of r) a = k_mem k a) /\
  (obtained = false -> k_mem (kernel_of r) a = k_mem k a).
Proof.
  intros r virt obtained. subst r.
  rewrite assign_k_mem. fold virt. fold obtained.
  split; [|split].
  - intros -> [H1 H2]. cbn [andb].
    destruct (Z.leb_spec virt a); [|lia].
    destruct (Z.ltb_spec a (virt + fb_bytes pdata)); [reflexivity|lia].
  - intros -> H. cbn [andb].
    destruct (Z.leb_spec virt a); cbn [andb]; [|reflexivity].
    destruct (Z.ltb_spec a (virt + fb_bytes pdata)); [lia|reflexivity].
  - intros ->. reflexivity.
Qed.

Lemma assign_memory_effect_witness :
  let r := gslcdfb_assign oracle_no_surface 7 drvdata_zero pdata_fixed
             kernel0 in
  k_mem (kernel_of r) (0xE0000000 + 1151999) = 0 /\
  k_mem (kernel_of r) (0xE0000000 + 1152000) = 255 /\
  k_mem (kernel_of (gslcdfb_assign oracle_busy 7 drvdata_zero pdata_fixed
                      kernel0)) 0xE0000000 = 255.
Proof.
  split; [|split].
  - pose proof (assign_memory_effect oracle_no_surface 7 drvdata_zero
                  pdata_fixed kernel0 (0xE0000000 + 1151999)) as (H & _).
    apply H; [reflexivity|].
    change (0xE0000000 <= 0xE0000000 + 1151999 < 0xE0000000 + 1152000). lia.
  - pose proof (assign_memory_effect oracle_no_surface 7 drvdata_zero
                  pdata_fixed kernel0 (0xE0000000 + 1152000)) as (_ & H & _).
    apply H; [reflexivity|].
    change (~ (0xE0000000 <= 0xE0000000 + 1152000 < 0xE0000000 + 1152000)).
    lia.
  - pose proof (assign_memory_effect oracle_busy 7 drvdata_zero
                  pdata_fixed kernel0 0xE0000000) as (_ & _ & H).
    apply H. reflexivity.
Defined.

(** X5.  Without a fixed address, and with a byte length of at most
    2^32 - 4096, the coherent allocator is asked for the byte length rounded
    up to a whole number of pages, so the region cleared next lies inside
    the buffer requested. *)
Theorem allocation_covers_cleared_region (o : oracle) (dev : Z)
  (pdata : gslcdfb_platform_data) (k : kernel) :
  pd_fb_phys pdata = 0 ->
  IS_ERR (o_devm_ioremap_resource o) = false ->
  fst (o_dma_alloc_coherent o) <> 0 ->
  fb_bytes pdata <= 2 ^ 32 - PAGE_SIZE ->
  let r := gslcdfb_assign o dev drvdata_zero pdata k in
  let rounded := size_t (PAGE_ALIGN_int (fbsize_of pdata)) in
  (exists rest,
     events_since k (kernel_of r)
     = [EvDevmIoremapResource (o_devm_ioremap_resource o);
        EvDmaAllocCoherent rounded (fst (o_dma_alloc_coherent o))
          (snd (o_dma_alloc_coherent o));
        EvMemsetIo (fst (o_dma_alloc_coherent o)) 0 (fb_bytes pdata)]
       ++ rest) /\
  fb_bytes pdata <= rounded < fb_bytes pdata + PAGE_SIZE /\
  rounded mod PAGE_SIZE = 0.
Proof.
  intros Hphys E Hv Hfit r rounded.
  assert (Hb : (pd_fb_phys pdata =? 0) = true) by now apply Z.eqb_eq.
  assert (Hav : acquired_virt o pdata = fst (o_dma_alloc_coherent o))
    by (unfold acquired_virt; now rewrite Hb).
  split.
  - destruct (assign_events_prefix o dev drvdata_zero pdata k E) as [rest Hr].
    { now rewrite Hav. }
    fold r in Hr. rewrite Hr. unfold fb_acquire_call. rewrite Hb, Hav.
    eexists. reflexivity.
  - subst rounded. rewrite rounded_size.
    pose proof (fb_bytes_range pdata) as Hr. unfold PAGE_SIZE in *.
    change (4096 - 1) with 4095.
    pose proof (Z.mul_div_le (fb_bytes pdata + 4095) 4096).
    pose proof (Z.mul_succ_div_gt (fb_bytes pdata + 4095) 4096).
    rewrite u32_small by lia.
    split; [lia|]. rewrite Z.mul_comm. apply Z_mod_mult.
Qed.

Lemma allocation_covers_cleared_region_witness :
  1152000 <= size_t (PAGE_ALIGN_int (fbsize_of gslcd_fb_default_pdata))
    < 1152000 + 4096.
Proof.
  pose proof (allocation_covers_cleared_region oracle_ok 7
                gslcd_fb_default_pdata kernel0) as H.
  destruct H as (_ & H & _).
  - reflexivity.
  - reflexivity.
  - discriminate.
  - change (1152000 <= 2 ^ 32 - 4096). lia.
  - exact H.
Defined.

(** X6.  At the top of the range the rounding wraps: for a byte length
    above 2^32 - 4096 the coherent allocator is asked for 0 bytes, while the
    clearing that follows still covers the whole byte length. *)
Theorem allocation_request_wraps (o : oracle) (dev : Z)
  (pdata : gslcdfb_platform_data) (k : kernel) :
  pd_fb_phys pdata = 0 ->
  IS_ERR (o_devm_ioremap_resource o) = false ->
  fst (o_dma_alloc_coherent o) <> 0 ->
  2 ^ 32 - PAGE_SIZE < fb_bytes pdata ->
  let r := gslcdfb_assign o dev drvdata_zero pdata k in
  exists rest,
    events_since k (kernel_of r)
    = [EvDevmIoremapResource (o_devm_ioremap_resource o);
       EvDmaAllocCoherent 0 (fst (o_dma_alloc_coherent o))
         (snd (o_dma_alloc_coherent o));
       EvMemsetIo (fst (o_dma_alloc_coherent o)) 0 (fb_bytes pdata)]
      ++ rest.
Proof.
  intros Hphys E Hv Hbig r.
  assert (Hb : (pd_fb_phys pdata =? 0) = true) by now apply Z.eqb_eq.
  assert (Hav : acquired_virt o pdata = fst (o_dma_alloc_coherent o))
    by (unfold acquired_virt; now rewrite Hb).
  assert (Hz : size_t (PAGE_ALIGN_int (fbsize_of pdata)) = 0).
  { rewrite rounded_size. pose proof (fb_bytes_range pdata) as Hr.
    unfold PAGE_SIZE in *. change (4096 - 1) with 4095.
    assert (Hq : (fb_bytes pdata + 4095) / 4096 = 1048576).
    { change (2 ^ 32) with 4294967296 in *. Z.div_mod_to_equations. lia. }
    rewrite Hq. reflexivity. }
  destruct (assign_events_prefix o dev drvdata_zero pdata k E) as [rest Hr].
  { now rewrite Hav. }
  fold r in Hr. rewrite Hr. unfold fb_acquire_call. rewrite Hb, Hav, Hz.
  eexists. reflexivity.
Qed.

Lemma allocation_request_wraps_witness :
  exists rest,
    events_since kernel0
      (kernel_of (gslcdfb_assign oracle_ok 7 drvdata_zero pdata_wrapping
                    kernel0))
    = [EvDevmIoremapResource 0xF0000000;
       EvDmaAllocCoherent 0 0xD0000000 0x1F000000;
       EvMemsetIo 0xD0000000 0 0xFFFFFFFF] ++ rest.
Proof.
  apply (allocation_request_wraps oracle_ok 7 pdata_wrapping kernel0).
  - reflexivity.
  - reflexivity.
  - discriminate.
  - change (2 ^ 32 - 4096 < 0xFFFFFFFF). lia.
Defined.

(** ** The published surface *)

(** X7.  On success the surface is published as 24-bit packed true colour
    with red, green and blue in bits 16-23, 8-15 and 0-7 and no
    transparency, with grayscale off, with the geometry and physical size of
    the platform data, and with the buffer's pointer, bus address and byte
    length.  Unless the byte length overflowed 32 bits it equals the line
    length times the number of virtual rows. *)
Theorem published_surface (o : oracle) (dev : Z)
  (pdata : gslcdfb_platform_data) (k : kernel) :
  oracle_wf o ->
  let r := gslcdfb_assign o dev drvdata_zero pdata k in
  let fbi := info (drvdata_of r) in
  status r = 0 ->
  (visual (info_fix fbi) = FB_VISUAL_TRUECOLOR /\
   fix_type (info_fix fbi) = FB_TYPE_PACKED_PIXELS /\
   bits_per_pixel (info_var fbi) = 24 /\
   var_red (info_var fbi)
   = {| bf_offset := 16; bf_length := 8; bf_msb_right := 0 |} /\
   var_green (info_var fbi)
   = {| bf_offset := 8; bf_length := 8; bf_msb_right := 0 |} /\
   var_blue (info_var fbi)
   = {| bf_offset := 0; bf_length := 8; bf_msb_right := 0 |} /\
   var_transp (info_var fbi)
   = {| bf_offset := 0; bf_length := 0; bf_msb_right := 0 |} /\
   grayscale (info_var fbi) = 0) /\
  (var_xres (info_var fbi) = xres pdata /\
   var_yres (info_var fbi) = yres pdata /\
   xres_virtual (info_var fbi) = xvirt pdata /\
   yres_virtual (info_var fbi) = yvirt pdata /\
   var_height (info_var fbi) = screen_height_mm pdata /\
   var_width (info_var fbi) = screen_width_mm pdata) /\
  (screen_base fbi = acquired_virt o pdata /\
   smem_start (info_fix fbi) = u32 (acquired_phys o pdata) /\
   smem_len (info_fix fbi) = fb_bytes pdata /\
   line_length (info_fix fbi) = (xvirt pdata * 3) mod 2 ^ 32 /\
   fbops fbi = Some gslcdfb_ops /\ device fbi = dev) /\
  (0 <= xvirt pdata -> 0 <= yvirt pdata ->
   xvirt pdata * yvirt pdata * 3 < 2 ^ 32 ->
   smem_len (info_fix fbi)
   = line_length (info_fix fbi) * yres_virtual (info_var fbi)).
Proof.
  intros Hwf r fbi Hs. subst fbi.
  destruct (assign_status_zero o dev drvdata_zero pdata k Hwf Hs)
    as (E & Hv & Hc & Hr).
  destruct (acquire_fb_fields o drvdata_zero pdata k)
    as (_ & Hvirt & Hphys & _).
  assert (Hres : r = _) by (apply assign_success; assumption).
  rewrite Hres. unfold drvdata_of.
  cbn [fst snd fill_fb_info set_info info info_fix info_var smem_len
         smem_start line_length screen_base bits_per_pixel visual fix_type
         var_red var_green var_blue var_transp grayscale var_xres var_yres
         xres_virtual yres_virtual var_height var_width fbops device].
  rewrite Hvirt, Hphys. fold (size_t (fbsize_of pdata)).
  rewrite size_t_fbsize.
  split; [repeat split|]. split; [repeat split|]. split; [repeat split|].
  intros Hx Hy Hfit. unfold fb_bytes, mul32, u32, BYTES_PER_PIXEL.
  destruct (Z.eq_dec (yvirt pdata) 0) as [Hy0|Hy0].
  - rewrite Hy0, !Z.mul_0_r. reflexivity.
  - assert (xvirt pdata * 3 < 2 ^ 32) by nia.
    rewrite !Z.mod_small by nia. ring.
Qed.

Lemma published_surface_witness :
  let fbi := info (drvdata_of (gslcdfb_assign oracle_ok 7 drvdata_zero
                                 gslcd_fb_default_pdata kernel0)) in
  smem_len (info_fix fbi) = 1152000 /\
  smem_len (info_fix fbi)
  = line_length (info_fix fbi) * yres_virtual (info_var fbi).
Proof.
  pose proof (published_surface oracle_ok 7 gslcd_fb_default_pdata kernel0
                oracle_ok_wf eq_refl) as (_ & _ & H3 & H4).
  destruct H3 as (_ & _ & H & _).
  split; [exact H|].
  apply H4.
  - discriminate.
  - discriminate.
  - reflexivity.
Defined.

(** X8.  A geometry with no columns or no rows still brings the device up:
    the byte length and its page-rounded size are 0, no byte of memory is
    changed, and when every service succeeds the status is 0 and the surface
    is published with length 0. *)
Theorem empty_geometry (o : oracle) (dev : Z)
  (pdata : gslcdfb_platform_data) (k : kernel) :
  xvirt pdata = 0 \/ yvirt pdata = 0 ->
  let r := gslcdfb_assign o dev drvdata_zero pdata k in
  fb_bytes pdata = 0 /\
  size_t (PAGE_ALIGN_int (fbsize_of pdata)) = 0 /\
  (forall a, k_mem (kernel_of r) a = k_mem k a) /\
  (IS_ERR (o_devm_ioremap_resource o) = false ->
   acquired_virt o pdata <> 0 ->
   o_fb_alloc_cmap o = 0 -> o_register_framebuffer o = 0 ->
   status r = 0 /\ smem_len (info_fix (info (drvdata_of r))) = 0).
Proof.
  intros Hz r.
  assert (Hb : fb_bytes pdata = 0).
  { unfold fb_bytes. destruct Hz as [-> | ->];
      rewrite ?Z.mul_0_l, ?Z.mul_0_r, ?Z.mul_0_l; reflexivity. }
  split; [exact Hb|]. split; [rewrite rounded_size, Hb; reflexivity|].
  split.
  - intros a. subst r. rewrite assign_k_mem, Hb.
    destruct (negb (IS_ERR (o_devm_ioremap_resource o))
              && negb (acquired_virt o pdata =? 0)); [|reflexivity].
    cbn [andb].
    destruct (Z.leb_spec (acquired_virt o pdata) a); cbn [andb];
      [|reflexivity].
    destruct (Z.ltb_spec a (acquired_virt o pdata + 0)); [lia|reflexivity].
  - intros E Hv Hc Hr.
    assert (Hres : r = _)
      by (apply assign_success; try assumption; now apply acquired_buffer).
    rewrite Hres. unfold status, drvdata_of.
    cbn [fst snd fill_fb_info set_info info info_fix smem_len].
    fold (size_t (fbsize_of pdata)). rewrite size_t_fbsize. auto.
Qed.

Lemma empty_geometry_witness :
  let r := gslcdfb_assign oracle_ok 7 drvdata_zero pdata_empty kernel0 in
  status r = 0 /\ smem_len (info_fix (info (drvdata_of r))) = 0.
Proof.
  pose proof (empty_geometry oracle_ok 7 pdata_empty kernel0) as H.
  destruct H as (_ & _ & _ & H).
  - right. reflexivity.
  - apply H; [reflexivity | discriminate | reflexivity | reflexivity].
Defined.

(** ** More on the palette callback *)

Section PaletteShape.

Implicit Types (fbi : fb_info) (regno red green blue transp : Z).

Lemma setcolreg_accepted regno red green blue transp fbi :
  regno < 16 ->
  gslcd_fb_setcolreg regno red green blue transp fbi
  = (0, set_pseudo_palette fbi
          (<[Z.to_nat regno := stored_entry fbi red green blue]>
             (pseudo_palette fbi))).
Proof.
  intros Hreg. unfold gslcd_fb_setcolreg, PALETTE_ENTRIES_NO, stored_entry.
  destruct (Z.leb_spec 16 regno) as [?|_]; [lia|].
  rewrite luma_sum. unfold shr32.
  destruct (grayscale (info_var fbi) =? 0); cbn [negb];
    now rewrite pack_wrap.
Qed.

Lemma setcolreg_refused regno red green blue transp fbi :
  16 <= regno ->
  gslcd_fb_setcolreg regno red green blue transp fbi = (- EINVAL, fbi).
Proof.
  intros Hreg. unfold gslcd_fb_setcolreg, PALETTE_ENTRIES_NO.
  destruct (Z.leb_spec 16 regno) as [_|?]; [reflexivity|lia].
Qed.

End PaletteShape.

(** X9.  For every index and every colour the callback either stores one
    entry and returns 0, when the index is below 16, or changes nothing and
    returns [-EINVAL].  Either way the palette keeps its number of entries,
    a palette of 32-bit words stays one, and the rest of the surface
    description, the grayscale switch included, is untouched. *)
Theorem setcolreg_keeps_surface (regno red green blue transp : Z)
  (fbi : fb_info) :
  let r := gslcd_fb_setcolreg regno red green blue transp fbi in
  (r.1 = 0 <-> regno < 16) /\
  (r.1 = - EINVAL <-> 16 <= regno) /\
  length (pseudo_palette r.2) = length (pseudo_palette fbi) /\
  (Forall is_u32 (pseudo_palette fbi) -> Forall is_u32 (pseudo_palette r.2)) /\
  r.2 = set_pseudo_palette fbi (pseudo_palette r.2) /\
  info_var r.2 = info_var fbi /\ info_fix r.2 = info_fix fbi.
Proof.
  intros r. subst r.
  destruct (Z_lt_le_dec regno 16) as [Hreg|Hreg].
  - rewrite setcolreg_accepted by assumption.
    cbn [fst snd pseudo_palette set_pseudo_palette info_var info_fix].
    split; [tauto|]. split; [split; [discriminate|lia]|].
    split; [apply length_insert|]. split; [|auto].
    intros Hall. apply Forall_insert; [assumption|].
    unfold stored_entry. apply u32_range.
  - rewrite setcolreg_refused by assumption. cbn [fst snd].
    split; [split; [discriminate|lia]|]. split; [tauto|].
    split; [reflexivity|]. split; [auto|].
    split; [now destruct fbi|auto].
Qed.

Lemma setcolreg_keeps_surface_witness :
  Forall is_u32
    (pseudo_palette
       (gslcd_fb_setcolreg 5 0xFFFFFFFF 0xFFFFFFFF 0xFFFFFFFF 0
          fb_info_gray).2).
Proof.
  pose proof (setcolreg_keeps_surface 5 0xFFFFFFFF 0xFFFFFFFF 0xFFFFFFFF 0
                fb_info_gray) as (_ & _ & _ & H & _).
  apply H. repeat constructor; discriminate.
Defined.

(** X10.  With grayscale off and 16-bit components, the entry stored fits
    in 24 bits and its red, green and blue fields are the high bytes of the
    three components: the packing loses nothing but the low bytes. *)
Theorem setcolreg_truecolor_unpacks (regno red green blue transp : Z)
  (fbi : fb_info) :
  0 <= regno < 16 ->
  0 <= red < 2 ^ 16 -> 0 <= green < 2 ^ 16 -> 0 <= blue < 2 ^ 16 ->
  grayscale (info_var fbi) = 0 ->
  length (pseudo_palette fbi) = 16%nat ->
  exists v,
    pseudo_palette (gslcd_fb_setcolreg regno red green blue transp fbi).2
      !! Z.to_nat regno = Some v /\
    0 <= v < 2 ^ 24 /\
    field8 v 16 = red / 256 /\
    field8 v 8 = green / 256 /\
    field8 v 0 = blue / 256.
Proof.
  intros Hreg Hr Hg Hb Hgray Hlen.
  rewrite setcolreg_accepted by lia.
  cbn [snd pseudo_palette set_pseudo_palette].
  eexists. split; [apply list_lookup_insert_eq; now apply palette_slot|].
  unfold stored_entry. rewrite Hgray. cbn [Z.eqb].
  assert (Br : 0 <= Z.shiftr red 8 < 256)
    by (change 256 with (2 ^ 8); apply shiftr8_bound; simpl; lia).
  assert (Bg : 0 <= Z.shiftr green 8 < 256)
    by (change 256 with (2 ^ 8); apply shiftr8_bound; simpl; lia).
  assert (Bb : 0 <= Z.shiftr blue 8 < 256)
    by (change 256 with (2 ^ 8); apply shiftr8_bound; simpl; lia).
  destruct (pack_fields _ _ _ Br Bg Bb) as (F16 & F8 & F0 & Hv).
  rewrite u32_small by lia. split; [exact Hv|].
  rewrite F16, F8, F0, !Z.shiftr_div_pow2 by lia.
  change (2 ^ 8) with 256. auto.
Qed.

Lemma setcolreg_truecolor_unpacks_witness :
  exists v,
    pseudo_palette (gslcd_fb_setcolreg 3 0xABCD 0x1234 0xFF00 0 fb_info_zero).2
      !! 3%nat = Some v /\
    0 <= v < 2 ^ 24 /\
    field8 v 16 = 0xAB /\ field8 v 8 = 0x12 /\ field8 v 0 = 0xFF.
Proof.
  apply (setcolreg_truecolor_unpacks 3 0xABCD 0x1234 0xFF00 0 fb_info_zero);
    try lia; reflexivity.
Defined.

(** X11.  With grayscale on and 16-bit components, the luminance lies
    between the smallest and the largest component, and so does the byte
    stored in each field between their high bytes: the conversion never
    leaves the range of its inputs. *)
Theorem grayscale_within_components (regno red green blue transp : Z)
  (fbi : fb_info) :
  0 <= regno < 16 ->
  0 <= red < 2 ^ 16 -> 0 <= green < 2 ^ 16 -> 0 <= blue < 2 ^ 16 ->
  grayscale (info_var fbi) <> 0 ->
  length (pseudo_palette fbi) = 16%nat ->
  let lo := Z.min red (Z.min green blue) in
  let hi := Z.max red (Z.max green blue) in
  let y := (red * 77 + green * 151 + blue * 28 + 127) / 256 in
  lo <= y <= hi /\
  exists v,
    pseudo_palette (gslcd_fb_setcolreg regno red green blue transp fbi).2
      !! Z.to_nat regno = Some v /\
    field8 v 16 = y / 256 /\ field8 v 8 = y / 256 /\ field8 v 0 = y / 256 /\
    lo / 256 <= y / 256 <= hi / 256.
Proof.
  intros Hreg Hr Hg Hb Hgray Hlen lo hi y.
  assert (Hy : lo <= y <= hi).
  { subst y lo hi. split.
    - apply Z.div_le_lower_bound; lia.
    - apply Z.lt_succ_r, Z.div_lt_upper_bound; lia. }
  split; [exact Hy|].
  rewrite setcolreg_accepted by lia.
  cbn [snd pseudo_palette set_pseudo_palette].
  eexists. split; [apply list_lookup_insert_eq; now apply palette_slot|].
  unfold stored_entry.
  destruct (Z.eqb_spec (grayscale (info_var fbi)) 0) as [?|_]; [contradiction|].
  rewrite (u32_small (red * 77 + green * 151 + blue * 28 + 127)) by lia.
  rewrite (Z.shiftr_div_pow2 (red * 77 + green * 151 + blue * 28 + 127) 8)
    by lia.
  change (2 ^ 8) with 256. fold y.
  assert (Hhi : hi < 2 ^ 16) by (subst hi; lia).
  assert (Hlo : 0 <= lo) by (subst lo; lia).
  assert (Bg : 0 <= Z.shiftr y 8 < 256)
    by (change 256 with (2 ^ 8); apply shiftr8_bound; simpl; lia).
  destruct (pack_fields _ _ _ Bg Bg Bg) as (F16 & F8 & F0 & Hv).
  rewrite u32_small by lia.
  rewrite F16, F8, F0, Z.shiftr_div_pow2 by lia. change (2 ^ 8) with 256.
  repeat split; apply Z.div_le_mono; lia.
Qed.

Lemma grayscale_within_components_witness :
  let y := (0xFFFF * 77 + 0x8000 * 151 + 0x1234 * 28 + 127) / 256 in
  0x1234 <= y <= 0xFFFF.
Proof.
  pose proof (grayscale_within_components 3 0xFFFF 0x8000 0x1234 0
                fb_info_gray) as H.
  destruct H as (H & _);
    [lia | lia | lia | lia | discriminate | reflexivity | exact H].
Defined.

(** X12.  A grey, all three 16-bit components equal, is its own luminance,
    the weights adding up to 256: with grayscale on the callback stores for
    it exactly the entry it stores with grayscale off. *)
Theorem grayscale_fixes_greys (regno c transp : Z) (fbi : fb_info) :
  0 <= regno < 16 -> 0 <= c < 2 ^ 16 ->
  (c * 77 + c * 151 + c * 28 + 127) / 256 = c /\
  pseudo_palette (gslcd_fb_setcolreg regno c c c transp fbi).2
  = pseudo_palette
      (gslcd_fb_setcolreg regno c c c transp (set_grayscale fbi 0)).2.
Proof.
  intros Hreg Hc.
  assert (Hy : (c * 77 + c * 151 + c * 28 + 127) / 256 = c).
  { replace (c * 77 + c * 151 + c * 28 + 127) with (c * 256 + 127) by lia.
    rewrite Z.div_add_l by lia. rewrite (Z.div_small 127 256) by lia. lia. }
  split; [exact Hy|].
  rewrite !setcolreg_accepted by lia.
  cbn [snd pseudo_palette set_pseudo_palette set_grayscale].
  f_equal. unfold stored_entry.
  cbn [info_var set_grayscale grayscale Z.eqb].
  destruct (grayscale (info_var fbi) =? 0); [reflexivity|].
  rewrite (u32_small (c * 77 + c * 151 + c * 28 + 127)) by lia.
  rewrite (Z.shiftr_div_pow2 (c * 77 + c * 151 + c * 28 + 127) 8) by lia.
  change (2 ^ 8) with 256. now rewrite Hy.
Qed.

Lemma grayscale_fixes_greys_witness :
  pseudo_palette (gslcd_fb_setcolreg 7 0x8000 0x8000 0x8000 0 fb_info_gray).2
  = pseudo_palette
      (gslcd_fb_setcolreg 7 0x8000 0x8000 0x8000 0
         (set_grayscale fb_info_gray 0)).2.
Proof.
  apply (grayscale_fixes_greys 7 0x8000 0 fb_info_gray); lia.
Defined.

(** X13.  Palette updates compose as array stores: a second update of the
    same index replaces the first, and updates of two different indices
    give the same palette in either order. *)
Theorem setcolreg_updates_compose (i j r1 g1 b1 t1 r2 g2 b2 t2 : Z)
  (fbi : fb_info) :
  0 <= i < 16 -> 0 <= j < 16 ->
  let first := (gslcd_fb_setcolreg i r1 g1 b1 t1 fbi).2 in
  (gslcd_fb_setcolreg i r2 g2 b2 t2 first).2
  = (gslcd_fb_setcolreg i r2 g2 b2 t2 fbi).2 /\
  (i <> j ->
   (gslcd_fb_setcolreg j r2 g2 b2 t2 first).2
   = (gslcd_fb_setcolreg i r1 g1 b1 t1
        (gslcd_fb_setcolreg j r2 g2 b2 t2 fbi).2).2).
Proof.
  intros Hi Hj first. subst first.
  rewrite !setcolreg_accepted by lia.
  cbn [snd]. rewrite ?setcolreg_accepted by lia.
  cbn [snd pseudo_palette set_pseudo_palette].
  unfold stored_entry, set_pseudo_palette. cbn [info_var].
  split.
  - cbn [device screen_base fbops info_fix flags pseudo_palette].
    now rewrite list_insert_insert_eq.
  - intros Hne. cbn [device screen_base fbops info_fix flags pseudo_palette].
    rewrite list_insert_insert_ne; [reflexivity|]. lia.
Qed.

Lemma setcolreg_updates_compose_witness :
  (gslcd_fb_setcolreg 2 0 0xFFFF 0 0
     (gslcd_fb_setcolreg 1 0xFFFF 0 0 0 fb_info_zero).2).2
  = (gslcd_fb_setcolreg 1 0xFFFF 0 0 0
       (gslcd_fb_setcolreg 2 0 0xFFFF 0 0 fb_info_zero).2).2.
Proof.
  pose proof (setcolreg_updates_compose 1 2 0xFFFF 0 0 0 0 0xFFFF 0 0
                fb_info_zero) as H.
  destruct H as (_ & H); try lia.
  apply H. lia.
Defined.

(** ** The register block *)

(** X14.  Registers are addressed by word index: a write to index [o1]
    below 2^30 makes one 32-bit store of the value modulo 2^32 at byte
    address [regs + 4 * o1], reads back from the same index, and leaves
    every other index below 2^30, and all memory, as it was.  The byte
    offset is computed in 32 bits, so index [o1 + 2^30] names the same
    register as [o1]. *)
Theorem register_block_is_word_indexed (d : gslcdfb_drvdata)
  (o1 o2 val : Z) (k : kernel) :
  0 <= o1 < 2 ^ 30 -> 0 <= o2 < 2 ^ 30 ->
  let k' := gslcd_fb_out32 d o1 val k in
  events_since k k' = [EvIowrite32 (val mod 2 ^ 32) (u32 (regs d + 4 * o1))] /\
  gslcd_fb_in32 d o1 k' = val mod 2 ^ 32 /\
  (o1 <> o2 -> gslcd_fb_in32 d o2 k' = gslcd_fb_in32 d o2 k) /\
  (forall a, k_mem k' a = k_mem k a) /\
  gslcd_fb_out32 d (o1 + 2 ^ 30) val k = k'.
Proof.
  intros H1 H2 k'. subst k'.
  split; [|split; [|split; [|split]]].
  - apply events_since_app. rewrite out32_log, shl32_offset by assumption.
    reflexivity.
  - apply out32_readback.
  - intros Hne. unfold gslcd_fb_in32, ioread32.
    rewrite k_mmio_out32, lookup_insert_ne; [reflexivity|].
    now apply reg_addr_distinct.
  - reflexivity.
  - unfold gslcd_fb_out32. f_equal. f_equal.
    unfold shl32, u32. rewrite !Z.shiftl_mul_pow2 by lia.
    replace ((o1 + 2 ^ 30) * 2 ^ 2) with (o1 * 2 ^ 2 + 1 * 2 ^ 32) by lia.
    now rewrite Z.mod_add by lia.
Qed.

Lemma register_block_is_word_indexed_witness :
  let d := set_regs drvdata_zero 0xF0000000 in
  let k' := gslcd_fb_out32 d REG_OFF_FB_PTR 0x1F000000 kernel0 in
  gslcd_fb_in32 d REG_OFF_FB_PTR k' = 0x1F000000 /\
  gslcd_fb_in32 d REG_OFF_EN k' = gslcd_fb_in32 d REG_OFF_EN kernel0.
Proof.
  pose proof (register_block_is_word_indexed (set_regs drvdata_zero 0xF0000000)
                REG_OFF_FB_PTR REG_OFF_EN 0x1F000000 kernel0) as H.
  destruct H as (_ & H2 & H3 & _).
  - unfold REG_OFF_FB_PTR. lia.
  - unfold REG_OFF_EN. lia.
  - split; [exact H2|]. apply H3. discriminate.
Defined.

(** ** What blanking and tear-down leave alone *)

Section Frames.

Variables (d : gslcdfb_drvdata) (k : kernel).

Lemma blank_cases (blank_mode : Z) :
  (gslcd_fb_blank blank_mode d k).2 = k \/
  (gslcd_fb_blank blank_mode d k).2 = gslcd_fb_out32 d REG_OFF_EN 1 k \/
  (gslcd_fb_blank blank_mode d k).2 = gslcd_fb_out32 d REG_OFF_EN 0 k.
Proof.
  unfold gslcd_fb_blank.
  destruct (blank_mode =? FB_BLANK_UNBLANK); [auto|].
  destruct ((blank_mode =? FB_BLANK_NORMAL)
            || (blank_mode =? FB_BLANK_VSYNC_SUSPEND)
            || (blank_mode =? FB_BLANK_HSYNC_SUSPEND)
            || (blank_mode =? FB_BLANK_POWERDOWN)); auto.
Qed.

Lemma out32_en_frame (val : Z) (addr : Z) :
  addr <> u32 (regs d) ->
  k_mmio (gslcd_fb_out32 d REG_OFF_EN val k) !! addr = k_mmio k !! addr.
Proof.
  intros H. rewrite k_mmio_out32, reg_addr_en. now rewrite lookup_insert_ne.
Qed.

Lemma release_k_mmio (cfg : kconfig) :
  k_mmio (gslcdfb_release cfg d k).2 = <[u32 (regs d) := 0]> (k_mmio k).
Proof.
  unfold gslcdfb_release. cbn [snd]. rewrite k_mmio_out32, reg_addr_en.
  change (u32 0) with 0.
  destruct (negb (fb_alloced d =? 0));
    destruct (negb (CONFIG_FRAMEBUFFER_CONSOLE cfg) && CONFIG_LOGO cfg);
    cbn [gslcd_fb_blank VESA_POWERDOWN FB_BLANK_UNBLANK FB_BLANK_NORMAL
           FB_BLANK_VSYNC_SUSPEND FB_BLANK_HSYNC_SUSPEND FB_BLANK_POWERDOWN
           Z.eqb Pos.eqb orb snd];
    cbn [dma_free_coherent iounmap fb_dealloc_cmap unregister_framebuffer
           emit k_mmio];
    rewrite ?k_mmio_out32, ?reg_addr_en, ?insert_insert_eq; reflexivity.
Qed.

End Frames.

(** X15.  Blanking, in whatever mode, writes nothing but 0 or 1 to the
    enable register: every other register, the frame pointer among them,
    and all memory are as before. *)
Theorem blank_touches_only_enable (blank_mode : Z) (d : gslcdfb_drvdata)
  (k : kernel) :
  let k' := (gslcd_fb_blank blank_mode d k).2 in
  Forall (fun e => e = EvIowrite32 0 (u32 (regs d)) \/
                   e = EvIowrite32 1 (u32 (regs d)))
    (events_since k k') /\
  (forall addr, addr <> u32 (regs d) -> k_mmio k' !! addr = k_mmio k !! addr) /\
  gslcd_fb_in32 d REG_OFF_FB_PTR k' = gslcd_fb_in32 d REG_OFF_FB_PTR k /\
  (forall a, k_mem k' a = k_mem k a).
Proof.
  intros k'. subst k'.
  assert (Hfp : ptr_add (regs d) (shl32 REG_OFF_FB_PTR 2) <> u32 (regs d))
    by (rewrite <- reg_addr_en; apply fb_ptr_not_enable).
  destruct (blank_cases d k blank_mode) as [-> | [-> | ->]].
  - rewrite events_since_refl. repeat split. constructor.
  - split; [|split; [|split]].
    + erewrite events_since_app by (rewrite out32_log, reg_addr_en; reflexivity).
      constructor; [now right | constructor].
    + intros addr H. now apply out32_en_frame.
    + unfold gslcd_fb_in32, ioread32. now rewrite out32_en_frame.
    + reflexivity.
  - split; [|split; [|split]].
    + erewrite events_since_app by (rewrite out32_log, reg_addr_en; reflexivity).
      constructor; [now left | constructor].
    + intros addr H. now apply out32_en_frame.
    + unfold gslcd_fb_in32, ioread32. now rewrite out32_en_frame.
    + reflexivity.
Qed.

(** X16.  Of two blanking calls in a row the later one decides, when its
    mode is one of the five named ones: registers and display state are
    what that call alone would have left. *)
Theorem blank_last_call_wins (m1 m2 : Z) (d : gslcdfb_drvdata) (k : kernel) :
  FB_BLANK_UNBLANK <= m2 <= FB_BLANK_POWERDOWN ->
  let twice := (gslcd_fb_blank m2 d (gslcd_fb_blank m1 d k).2).2 in
  let once := (gslcd_fb_blank m2 d k).2 in
  k_mmio twice = k_mmio once /\
  display_state d twice = display_state d once /\
  display_state d twice
  = (if m2 =? FB_BLANK_UNBLANK then Enabled else Disabled).
Proof.
  intros Hm twice once.
  assert (Hcase : forall k1,
    (gslcd_fb_blank m2 d k1).2
    = gslcd_fb_out32 d REG_OFF_EN (if m2 =? FB_BLANK_UNBLANK then 1 else 0) k1).
  { intros k1. unfold gslcd_fb_blank, FB_BLANK_UNBLANK, FB_BLANK_NORMAL,
      FB_BLANK_VSYNC_SUSPEND, FB_BLANK_HSYNC_SUSPEND, FB_BLANK_POWERDOWN in *.
    destruct (Z.eqb_spec m2 0); [reflexivity|].
    destruct (Z.eqb_spec m2 1); [reflexivity|].
    destruct (Z.eqb_spec m2 2); [reflexivity|].
    destruct (Z.eqb_spec m2 3); [reflexivity|].
    destruct (Z.eqb_spec m2 4); [reflexivity|lia]. }
  assert (Hmm : k_mmio twice = k_mmio once).
  { subst twice once. rewrite !Hcase, !k_mmio_out32.
    destruct (blank_cases d k m1) as [-> | [-> | ->]];
      rewrite ?k_mmio_out32, ?insert_insert_eq; reflexivity. }
  assert (Hds : forall k1 k2, k_mmio k1 = k_mmio k2 ->
                              display_state d k1 = display_state d k2).
  { intros k1 k2 H. unfold display_state, gslcd_fb_in32, ioread32.
    now rewrite H. }
  split; [exact Hmm|]. split; [now apply Hds|].
  rewrite (Hds twice once Hmm). subst once. rewrite Hcase.
  unfold display_state. rewrite out32_readback.
  now destruct (m2 =? FB_BLANK_UNBLANK).
Qed.

Lemma blank_last_call_wins_witness :
  let d := set_regs drvdata_zero 0xF0000000 in
  display_state d
    (gslcd_fb_blank FB_BLANK_UNBLANK d
       (gslcd_fb_blank FB_BLANK_POWERDOWN d kernel0).2).2 = Enabled.
Proof.
  pose proof (blank_last_call_wins FB_BLANK_POWERDOWN FB_BLANK_UNBLANK
                (set_regs drvdata_zero 0xF0000000) kernel0) as H.
  destruct H as (_ & _ & H).
  - unfold FB_BLANK_UNBLANK, FB_BLANK_POWERDOWN. lia.
  - exact H.
Defined.

(** X17.  Tear-down writes the enable register and no other: afterwards the
    register map is the one before with 0 stored at the enable register, so
    the frame pointer register still reads the address of the buffer that
    was given back, and no byte of memory has changed. *)
Theorem release_touches_only_enable (cfg : kconfig) (d : gslcdfb_drvdata)
  (k : kernel) :
  let k' := (gslcdfb_release cfg d k).2 in
  k_mmio k' = <[u32 (regs d) := 0]> (k_mmio k) /\
  gslcd_fb_in32 d REG_OFF_FB_PTR k' = gslcd_fb_in32 d REG_OFF_FB_PTR k /\
  (forall a, k_mem k' a = k_mem k a).
Proof.
  intros k'. subst k'.
  split; [apply release_k_mmio|]. split.
  - unfold gslcd_fb_in32, ioread32. rewrite release_k_mmio.
    rewrite lookup_insert_ne; [reflexivity|].
    rewrite <- reg_addr_en. apply not_eq_sym, fb_ptr_not_enable.
  - intros a. unfold gslcdfb_release. cbn [snd]. rewrite k_mem_out32.
    destruct (negb (fb_alloced d =? 0));
      destruct (negb (CONFIG_FRAMEBUFFER_CONSOLE cfg) && CONFIG_LOGO cfg);
      cbn [gslcd_fb_blank VESA_POWERDOWN FB_BLANK_UNBLANK FB_BLANK_NORMAL
             FB_BLANK_VSYNC_SUSPEND FB_BLANK_HSYNC_SUSPEND FB_BLANK_POWERDOWN
             Z.eqb Pos.eqb orb snd];
      reflexivity.
Qed.

Lemma blank_touches_only_enable_witness :
  let d := set_regs drvdata_zero 0xF0000000 in
  let k := gslcd_fb_out32 d REG_OFF_FB_PTR 0x1F000000 kernel0 in
  k_mmio (gslcd_fb_blank FB_BLANK_POWERDOWN d k).2 !! 0xF0000004
  = Some 0x1F000000.
Proof.
  pose proof (blank_touches_only_enable FB_BLANK_POWERDOWN
                (set_regs drvdata_zero 0xF0000000)
                (gslcd_fb_out32 (set_regs drvdata_zero 0xF0000000)
                   REG_OFF_FB_PTR 0x1F000000 kernel0)) as (_ & H & _).
  intros d k. subst d k.
  rewrite (H 0xF0000004); [reflexivity | discriminate].
Defined.

(** ** Probing and removal *)

Section Logging.

Lemma log_extends (k k' : kernel) (evs : list event) :
  k_log k' = k_log k ++ evs -> k_log k' = k_log k ++ events_since k k'.
Proof. intros H. now rewrite (events_since_app k k' evs H). Qed.

Lemma release_log (cfg : kconfig) (d : gslcdfb_drvdata) (k : kernel) :
  k_log (gslcdfb_release cfg d k).2
  = k_log k ++ events_since k (gslcdfb_release cfg d k).2.
Proof.
  unfold gslcdfb_release. cbn [snd].
  destruct (negb (fb_alloced d =? 0));
    destruct (negb (CONFIG_FRAMEBUFFER_CONSOLE cfg) && CONFIG_LOGO cfg);
    cbn [gslcd_fb_blank VESA_POWERDOWN FB_BLANK_UNBLANK FB_BLANK_NORMAL
           FB_BLANK_VSYNC_SUSPEND FB_BLANK_HSYNC_SUSPEND FB_BLANK_POWERDOWN
           Z.eqb Pos.eqb orb snd];
    eapply log_extends; log_of; reflexivity.
Qed.

Lemma assign_success_log (o : oracle) (dev : Z) (d : gslcdfb_drvdata)
  (pdata : gslcdfb_platform_data) (k : kernel) :
  IS_ERR (o_devm_ioremap_resource o) = false ->
  acquired_virt o pdata <> 0 ->
  o_fb_alloc_cmap o = 0 -> o_register_framebuffer o = 0 ->
  k_log (kernel_of (gslcdfb_assign o dev d pdata k))
  = k_log k ++ events_since k (kernel_of (gslcdfb_assign o dev d pdata k)).
Proof.
  intros E Hv Hc Hr.
  destruct (acquire_fb_fields o d pdata k) as (_ & _ & _ & _ & _ & Hlog & _).
  rewrite assign_success; try assumption; [|now apply acquired_buffer].
  unfold kernel_of. cbn [snd]. eapply log_extends. log_of.
  rewrite Hlog. log_of. reflexivity.
Qed.

Lemma events_since_trans (k k1 k2 : kernel) :
  k_log k1 = k_log k ++ events_since k k1 ->
  k_log k2 = k_log k1 ++ events_since k1 k2 ->
  events_since k k2 = events_since k k1 ++ events_since k1 k2.
Proof.
  intros H1 H2. apply events_since_app. rewrite H2, H1 at 1.
  now rewrite app_assoc.
Qed.

End Logging.

(** X18.  Probing copies the default platform description, whose fixed
    address is 0, so it never maps or unmaps a frame buffer: whenever the
    registers are mapped the driver data is tagged [Allocated].  When the
    driver data itself cannot be allocated, probing returns [-ENOMEM]
    without calling anything. *)
Theorem probe_only_allocates (o : oracle) (dev : Z) (k : kernel) :
  let r := gslcdfb_of_probe o dev k in
  Forall (fun e => is_map_call e = false /\ is_unmap_call e = false)
    (events_since k r.2) /\
  (o_devm_kzalloc o = false ->
   r = (- ENOMEM, None, k) /\ events_since k r.2 = []) /\
  (o_devm_kzalloc o = true ->
   IS_ERR (o_devm_ioremap_resource o) = false ->
   exists d, r.1.2 = Some d /\ ownership d = Allocated).
Proof.
  intros r. subst r.
  set (pdata := gslcd_fb_default_pdata).
  destruct (o_devm_kzalloc o) eqn:Hk.
  - rewrite probe_is_assign_on_zeroed_data by assumption. cbn [fst snd].
    fold pdata. split; [|split; [discriminate|]].
    + pose proof (ownership_acquired o drvdata_zero pdata k) as Hown.
      change (pd_fb_phys pdata =? 0) with true in Hown. cbn iota in Hown.
      destruct (IS_ERR (o_devm_ioremap_resource o)) eqn:E.
      { rewrite assign_events_regs_failed by assumption.
        repeat constructor. }
      assign_paths o pdata; rewrite ?Hown;
        change (fb_acquire_call o pdata)
          with (EvDmaAllocCoherent 1155072 (fst (o_dma_alloc_coherent o))
                  (snd (o_dma_alloc_coherent o)));
        repeat constructor.
    + intros _ E. eexists. split; [reflexivity|].
      destruct (assign_fields o dev drvdata_zero pdata k E)
        as (_ & _ & _ & Hown).
      exact Hown.
  - rewrite probe_without_memory by assumption. cbn [snd].
    rewrite events_since_refl.
    split; [constructor|]. split; [auto|discriminate].
Qed.

Lemma probe_only_allocates_witness :
  gslcdfb_of_probe oracle_no_drvdata 7 kernel0 = (- ENOMEM, None, kernel0) /\
  exists d, (gslcdfb_of_probe oracle_no_surface 7 kernel0).1.2 = Some d /\
            ownership d = Allocated.
Proof.
  split.
  - pose proof (probe_only_allocates oracle_no_drvdata 7 kernel0)
      as (_ & H & _).
    destruct (H eq_refl) as (H1 & _). exact H1.
  - pose proof (probe_only_allocates oracle_no_surface 7 kernel0)
      as (_ & _ & H).
    exact (H eq_refl eq_refl).
Defined.

(** X19.  A probe that returned 0 followed by removal, under either build
    option: removal returns 0, the display is [Disabled], and of everything
    the two made the kernel hand out only the device-managed register
    mapping is still held.  The frame pointer register is not reset: it
    still reads the bus address of the freed buffer. *)
Theorem probe_then_remove (o : oracle) (dev : Z) (cfg : kconfig)
  (k : kernel) :
  oracle_wf o ->
  let r := gslcdfb_of_probe o dev k in
  status r = 0 ->
  exists d,
    r.1.2 = Some d /\
    let r' := gslcdfb_of_remove cfg d r.2 in
    r'.1 = 0 /\
    outstanding (events_since k r'.2)
    = [ResRegisters (o_devm_ioremap_resource o)] /\
    display_state d r'.2 = Disabled /\
    gslcd_fb_in32 d REG_OFF_FB_PTR r'.2 = u32 (snd (o_dma_alloc_coherent o)).
Proof.
  intros Hwf r Hs. subst r.
  set (pdata := gslcd_fb_default_pdata) in *.
  destruct (o_devm_kzalloc o) eqn:Hk;
    [|rewrite probe_without_memory in Hs by assumption; discriminate Hs].
  rewrite probe_is_assign_on_zeroed_data in * by assumption.
  fold pdata in Hs |- *. unfold status in Hs. cbn [fst snd] in Hs |- *.
  fold (status (gslcdfb_assign o dev drvdata_zero pdata k)) in Hs.
  destruct (assign_status_zero o dev drvdata_zero pdata k Hwf Hs)
    as (E & Hv & Hc & Hr).
  destruct (acquire_fb_fields o drvdata_zero pdata k) as (_ & Hvirt & _).
  rewrite Hvirt in Hv.
  set (ra := gslcdfb_assign o dev drvdata_zero pdata k) in *.
  eexists. split; [reflexivity|]. unfold gslcdfb_of_remove.
  destruct (assign_fields o dev drvdata_zero pdata k E)
    as (Hregs & Hvirt' & Hp & Hown).
  destruct (assign_surface o dev drvdata_zero pdata k Hs Hwf) as (Hlen & _).
  fold ra in Hregs, Hvirt', Hp, Hown, Hlen.
  split; [reflexivity|]. split; [|split].
  - rewrite (events_since_trans k (kernel_of ra));
      [|apply assign_success_log; assumption|apply release_log].
    subst ra. rewrite assign_events_success by assumption.
    fold (gslcdfb_assign o dev drvdata_zero pdata k).
    set (ra := gslcdfb_assign o dev drvdata_zero pdata k) in *.
    rewrite release_events, Hlen, page_align_same, Hown, Hregs.
    unfold fb_release_call. rewrite Hvirt', Hp.
    change (fb_acquire_call o pdata)
      with (EvDmaAllocCoherent 1155072 (fst (o_dma_alloc_coherent o))
              (snd (o_dma_alloc_coherent o))).
    change (pd_fb_phys pdata =? 0) with true. cbn iota.
    change (acquired_virt o pdata) with (fst (o_dma_alloc_coherent o)) in *.
    change (acquired_phys o pdata) with (snd (o_dma_alloc_coherent o)).
    change (size_t (PAGE_ALIGN_int (fbsize_of pdata))) with 1155072.
    apply Z.eqb_neq in Hv.
    destruct (negb (CONFIG_FRAMEBUFFER_CONSOLE cfg) && CONFIG_LOGO cfg);
      unfold outstanding; cbn [foldl track app]; rewrite E, Hv;
      run_outstanding.
  - unfold display_state, gslcdfb_release. cbn [snd].
    now rewrite out32_readback.
  - unfold gslcd_fb_in32, ioread32. rewrite release_k_mmio.
    rewrite lookup_insert_ne
      by (rewrite <- reg_addr_en; apply not_eq_sym, fb_ptr_not_enable).
    subst ra. rewrite assign_success; try assumption;
      [|apply acquired_buffer; exact Hv].
    unfold drvdata_of, kernel_of. cbn [fst snd].
    cbn [fill_fb_info set_info regs emit k_mmio].
    rewrite k_mmio_out32, lookup_insert_ne
      by (apply not_eq_sym, fb_ptr_not_enable).
    rewrite k_mmio_out32, lookup_insert_eq.
    destruct (acquire_fb_fields o drvdata_zero pdata k) as (_ & _ & Hph & _).
    now rewrite Hph.
Qed.

Lemma probe_then_remove_witness :
  exists d,
    (gslcdfb_of_probe oracle_ok 7 kernel0).1.2 = Some d /\
    outstanding
      (events_since kernel0
         (gslcdfb_of_remove kconfig_logo_only d
            (gslcdfb_of_probe oracle_ok 7 kernel0).2).2)
    = [ResRegisters 0xF0000000].
Proof.
  destruct (probe_then_remove oracle_ok 7 kconfig_logo_only kernel0
              oracle_ok_wf eq_refl) as (d & Hd & _ & H & _).
  exists d. split; [exact Hd | exact H].
Defined.

(** ** Bring-up as a whole *)

(** X20.  Bring-up leaves the palette of zeroed driver data alone and
    publishes the surface with grayscale off.  So on a surface that was
    brought up successfully the palette callback always takes the true
    colour path: for an index below 16 it returns 0 and stores the packed
    components at that index, and every other entry still reads 0. *)
Theorem palette_after_bring_up (o : oracle) (dev : Z)
  (pdata : gslcdfb_platform_data) (k : kernel)
  (regno red green blue transp : Z) :
  oracle_wf o ->
  let r := gslcdfb_assign o dev drvdata_zero pdata k in
  let fbi := info (drvdata_of r) in
  status r = 0 ->
  0 <= regno < 16 ->
  let c := gslcd_fb_setcolreg regno red green blue transp fbi in
  pseudo_palette fbi = replicate 16 0 /\
  c.1 = 0 /\
  pseudo_palette c.2 !! Z.to_nat regno
  = Some (u32 (Z.lor (Z.lor (Z.shiftl (Z.shiftr red 8) 16)
                            (Z.shiftl (Z.shiftr green 8) 8))
                     (Z.shiftl (Z.shiftr blue 8) 0))) /\
  (forall j : nat, (j < 16)%nat -> j <> Z.to_nat regno ->
     pseudo_palette c.2 !! j = Some 0).
Proof.
  intros Hwf r fbi Hs Hreg c.
  assert (Hpal : pseudo_palette fbi = replicate 16 0).
  { destruct (assign_surface o dev drvdata_zero pdata k Hs Hwf)
      as (_ & _ & _ & _ & _ & H). exact H. }
  assert (Hgray : grayscale (info_var fbi) = 0).
  { subst fbi r.
    destruct (assign_status_zero o dev drvdata_zero pdata k Hwf Hs)
      as (E & Hv & Hc & Hr).
    rewrite assign_success by assumption. reflexivity. }
  split; [exact Hpal|]. subst c.
  rewrite setcolreg_accepted by lia.
  cbn [fst snd pseudo_palette set_pseudo_palette].
  unfold stored_entry. rewrite Hgray, Hpal. cbn [Z.eqb].
  split; [reflexivity|]. split.
  - apply list_lookup_insert_eq. rewrite length_replicate. lia.
  - intros j Hj Hne. rewrite list_lookup_insert_ne by auto.
    now apply lookup_replicate_2.
Qed.

Lemma palette_after_bring_up_witness :
  let fbi := info (drvdata_of (gslcdfb_assign oracle_ok 7 drvdata_zero
                                 gslcd_fb_default_pdata kernel0)) in
  pseudo_palette (gslcd_fb_setcolreg 15 0xFFFF 0xFFFF 0xFFFF 0 fbi).2
    !! 15%nat = Some 0xFFFFFF.
Proof.
  pose proof (palette_after_bring_up oracle_ok 7 gslcd_fb_default_pdata
                kernel0 15 0xFFFF 0xFFFF 0xFFFF 0 oracle_ok_wf eq_refl)
    as H.
  destruct H as (_ & _ & H & _); [lia | exact H].
Defined.

(** X21.  Bring-up never switches the display on before the buffer is
    cleared and the frame pointer programmed.  On every path either no
    register is written at all, or the calls begin with the register
    mapping, the buffer acquisition, the clearing of the buffer, the write
    of its bus address to the frame pointer register and only then the
    write of 1 to the enable register. *)
Theorem display_enabled_after_programming (o : oracle) (dev : Z)
  (d : gslcdfb_drvdata) (pdata : gslcdfb_platform_data) (k : kernel) :
  let p := o_devm_ioremap_resource o in
  let evs := events_since k (kernel_of (gslcdfb_assign o dev d pdata k)) in
  (forall val addr, EvIowrite32 val addr ∉ evs) \/
  (exists rest,
     evs = [EvDevmIoremapResource p; fb_acquire_call o pdata;
            EvMemsetIo (acquired_virt o pdata) 0 (fb_bytes pdata);
            EvIowrite32 (u32 (acquired_phys o pdata))
              (u32 (p + 4 * REG_OFF_FB_PTR));
            EvIowrite32 1 (u32 (p + 4 * REG_OFF_EN))] ++ rest).
Proof.
  intros p evs. subst p evs.
  change (4 * REG_OFF_FB_PTR) with 4. change (4 * REG_OFF_EN) with 0.
  rewrite Z.add_0_r, <- size_t_fbsize.
  assert (Hacq : forall val addr,
            EvIowrite32 val addr <> fb_acquire_call o pdata)
    by (intros val addr; unfold fb_acquire_call;
        destruct (pd_fb_phys pdata =? 0); discriminate).
  destruct (IS_ERR (o_devm_ioremap_resource o)) eqn:E.
  { left. rewrite assign_events_regs_failed by assumption.
    intros val addr H. apply list_elem_of_singleton in H. discriminate H. }
  destruct (Z.eq_dec (acquired_virt o pdata) 0) as [Hv|Hv].
  { left. rewrite assign_events_no_memory by assumption.
    intros val addr H.
    apply elem_of_cons in H as [H|H]; [discriminate H|].
    apply elem_of_cons in H as [H|H]; [now apply Hacq in H|].
    apply list_elem_of_singleton in H. discriminate H. }
  right.
  destruct (Z.eq_dec (o_fb_alloc_cmap o) 0) as [Hc|Hc];
    [destruct (Z.eq_dec (o_register_framebuffer o) 0) as [Hr|Hr]|].
  - rewrite assign_events_success by assumption. eexists. reflexivity.
  - rewrite assign_events_register_failed by assumption. eexists. reflexivity.
  - rewrite assign_events_cmap_failed by assumption. eexists. reflexivity.
Qed.

(** X22.  Bring-up returns 0 exactly when the registers were mapped, the
    frame buffer was obtained, the colour map was allocated and the surface
    was registered; every failure gives a nonzero status. *)
Theorem assign_succeeds_iff (o : oracle) (dev : Z) (d : gslcdfb_drvdata)
  (pdata : gslcdfb_platform_data) (k : kernel) :
  oracle_wf o ->
  status (gslcdfb_assign o dev d pdata k) = 0 <->
  IS_ERR (o_devm_ioremap_resource o) = false /\
  acquired_virt o pdata <> 0 /\
  o_fb_alloc_cmap o = 0 /\
  o_register_framebuffer o = 0.
Proof.
  intros Hwf. split.
  - intros Hs.
    destruct (assign_status_zero o dev d pdata k Hwf Hs) as (E & Hv & Hc & Hr).
    destruct (acquire_fb_fields o d pdata k) as (_ & Hvirt & _).
    rewrite Hvirt in Hv. auto.
  - intros (E & Hv & Hc & Hr).
    rewrite assign_success; try assumption; [reflexivity|].
    now apply acquired_buffer.
Qed.

Lemma assign_succeeds_iff_witness :
  status (gslcdfb_assign oracle_ok 7 drvdata_zero pdata_fixed kernel0) = 0 /\
  o_register_framebuffer oracle_ok = 0.
Proof.
  pose proof (assign_succeeds_iff oracle_ok 7 drvdata_zero pdata_fixed
                kernel0 oracle_ok_wf) as [H1 H2].
  split.
  - apply H2. repeat split. discriminate.
  - destruct (H1 eq_refl) as (_ & _ & _ & H). exact H.
Defined.
